(** * WhatsApp notification dispatch: a shallow embedding of
    [frappe_whatsapp/doctype/whatsapp_notification/whatsapp_notification.py]

    The Python class [WhatsAppNotification] is embedded function by function.
    Python [str] is [string]; values that travel through documents and JSON
    bodies are [pyval]; code that touches the database, the network or the
    message banner is written in a small state-and-exception monad over a
    [world] that records every persisted document and every host call.

    Host functions of the framework (safe_eval, requests.post, get_meta,
    cint, the translation function, ...) are Section variables, so every
    theorem holds for all of their behaviours.  The persistence primitives
    (save, insert, db.set_value, msgprint) are total: they append to the
    world.  Floating point numbers are outside the value model. *)

From Stdlib Require Import List String Ascii Bool ZArith Lia Arith.
From Stdlib Require Import DecimalString DecimalNat.
Import ListNotations.

Local Open Scope list_scope.
Local Open Scope string_scope.

Set Default Proof Using "Type".

(** ** Python string primitives *)

Module PyStr.

(** [s.startswith(p)] *)
Fixpoint startswith (p s : string) : bool :=
  match p with
  | EmptyString => true
  | String a p' =>
      match s with
      | EmptyString => false
      | String b s' => Ascii.eqb a b && startswith p' s'
      end
  end.

(** [s[n:]] *)
Fixpoint drop (n : nat) (s : string) : string :=
  match n, s with
  | O, _ => s
  | S _, EmptyString => EmptyString
  | S k, String _ s' => drop k s'
  end.

(** [s.endswith(p)] : the last [len(p)] characters of [s] are [p]. *)
Definition endswith (p s : string) : bool :=
  Nat.leb (String.length p) (String.length s)
  && String.eqb (drop (String.length s - String.length p) s) p.

Definition lower_char (c : ascii) : ascii :=
  let n := nat_of_ascii c in
  if Nat.leb 65 n && Nat.leb n 90 then ascii_of_nat (n + 32) else c.

(** [s.lower()] on the ASCII letters. *)
Fixpoint lower (s : string) : string :=
  match s with
  | EmptyString => EmptyString
  | String c s' => String (lower_char c) (lower s')
  end.

(** [p in s] *)
Fixpoint contains (p s : string) : bool :=
  startswith p s
  || match s with
     | EmptyString => false
     | String _ s' => contains p s'
     end.

(** The scan of [str.replace] for a non-empty pattern: leftmost match first,
    then the scan resumes after the match ([skip] counts the characters of a
    match still to be passed over). *)
Fixpoint replace_from (skip : nat) (old new s : string) : string :=
  match s with
  | EmptyString => EmptyString
  | String c s' =>
      match skip with
      | S k => replace_from k old new s'
      | O =>
          if startswith old s
          then new ++ replace_from (String.length old - 1) old new s'
          else String c (replace_from 0 old new s')
      end
  end.

(** With an empty pattern Python inserts [new] before every character and at
    the end. *)
Fixpoint interleave (new s : string) : string :=
  match s with
  | EmptyString => new
  | String c s' => new ++ String c (interleave new s')
  end.

(** [s.replace(old, new)] *)
Definition replace (s old new : string) : string :=
  match old with
  | EmptyString => interleave new s
  | String _ _ => replace_from 0 old new s
  end.

(** [str(i)] for a non-negative integer. *)
Definition of_nat (i : nat) : string :=
  NilEmpty.string_of_uint (Nat.to_uint i).

(** No character of [s] is [c]. *)
Fixpoint free_of (c : ascii) (s : string) : Prop :=
  match s with
  | EmptyString => True
  | String b s' => b <> c /\ free_of c s'
  end.

Fixpoint free_ofb (c : ascii) (s : string) : bool :=
  match s with
  | EmptyString => true
  | String b s' => negb (Ascii.eqb b c) && free_ofb c s'
  end.

End PyStr.

Import PyStr.

(** ** Python values, exceptions *)

(** The values that occur in documents, settings and JSON bodies.  A date is
    a day number; a datetime is a day number and the microsecond of the day. *)
#[warnings="-register-all"]
Inductive pyval : Type :=
| PNone
| PBool (b : bool)
| PInt (z : Z)
| PStr (s : string)
| PDate (day : Z)
| PDatetime (day : Z) (usec : Z)
| PList (l : list pyval)
| PDict (d : list (string * pyval)).

Definition pydict := list (string * pyval).

(** Truth value testing of [if x:] / [not x]. *)
Definition truthy (v : pyval) : bool :=
  match v with
  | PNone => false
  | PBool b => b
  | PInt z => negb (Z.eqb z 0)
  | PStr s => negb (String.eqb s "")
  | PDate _ | PDatetime _ _ => true
  | PList l => match l with [] => false | _ => true end
  | PDict d => match d with [] => false | _ => true end
  end.

Definition type_name (v : pyval) : string :=
  match v with
  | PNone => "NoneType"
  | PBool _ => "bool"
  | PInt _ => "int"
  | PStr _ => "str"
  | PDate _ => "datetime.date"
  | PDatetime _ _ => "datetime.datetime"
  | PList _ => "list"
  | PDict _ => "dict"
  end.

(** An optional string attribute: unset is [None]. *)
Definition of_opt (o : option string) : pyval :=
  match o with
  | Some s => PStr s
  | None => PNone
  end.

Definition opt_truthy (o : option string) : bool := truthy (of_opt o).

(** [f"{x}"] of such an attribute. *)
Definition opt_format (o : option string) : string :=
  match o with
  | Some s => s
  | None => "None"
  end.

Fixpoint lookup (k : string) (d : pydict) : option pyval :=
  match d with
  | [] => None
  | (k', v) :: d' => if String.eqb k k' then Some v else lookup k d'
  end.

(** [d.get(k)] and [d.get(k, default)] on a dict. *)
Definition dict_get (d : pydict) (k : string) (default : pyval) : pyval :=
  match lookup k d with
  | Some v => v
  | None => default
  end.

Inductive exn_class : Type :=
| ValidationError      (* frappe.throw *)
| KeyError
| IndexError
| TypeError
| AttributeError
| RequestException     (* requests.exceptions.RequestException and subclasses *)
| OtherException.      (* any other subclass of Exception *)

(** An exception: its class and [str(e)]. *)
Record exn : Type := Exn { exn_class_of : exn_class; exn_str : string }.

Definition is_request_exception (e : exn) : bool :=
  match exn_class_of e with
  | RequestException => true
  | _ => false
  end.

Inductive outcome (A : Type) : Type :=
| Return (a : A)
| Raise (e : exn).
Arguments Return {A} a.
Arguments Raise {A} e.

Definition no_attribute (v : pyval) (attr : string) : exn :=
  Exn AttributeError
    ("'" ++ type_name v ++ "' object has no attribute '" ++ attr ++ "'").

(** [v.get(k, default)]: only a dict has the method. *)
Definition py_get (v : pyval) (k : string) (default : pyval) : outcome pyval :=
  match v with
  | PDict d => Return (dict_get d k default)
  | _ => Raise (no_attribute v "get")
  end.

(** [v[k]] with a string key. *)
Definition py_item (v : pyval) (k : string) : outcome pyval :=
  match v with
  | PDict d =>
      match lookup k d with
      | Some x => Return x
      | None => Raise (Exn KeyError ("'" ++ k ++ "'"))
      end
  | PStr _ => Raise (Exn TypeError "string indices must be integers")
  | PList _ => Raise (Exn TypeError "list indices must be integers or slices, not str")
  | _ => Raise (Exn TypeError ("'" ++ type_name v ++ "' object is not subscriptable"))
  end.

(** [v[0]] *)
Definition py_first (v : pyval) : outcome pyval :=
  match v with
  | PList (x :: _) => Return x
  | PList [] => Raise (Exn IndexError "list index out of range")
  | PStr (String c _) => Return (PStr (String c ""))
  | PStr EmptyString => Raise (Exn IndexError "string index out of range")
  | PDict _ => Raise (Exn KeyError "0")
  | _ => Raise (Exn TypeError ("'" ++ type_name v ++ "' object is not subscriptable"))
  end.

(** ** The world: persisted documents and host calls *)

(** A [WhatsApp Message] document handed to [save]. *)
Record whatsapp_message : Type := {
  wm_type : string;
  wm_message : pyval;
  wm_to : pyval;
  wm_message_type : string;
  wm_message_id : pyval;
  wm_content_type : string;
  wm_use_template : Z;
  wm_template : string;
  wm_template_parameters : option string;
  wm_reference_doctype : option pyval;
  wm_reference_name : option pyval
}.

(** A [WhatsApp Notification Log] document handed to [insert]. *)
Record notification_log : Type := {
  log_template : string;
  log_meta_data : pyval
}.

(** One call of [frappe.db.set_value(doctype, name, fieldname, value)]. *)
Record set_value_call : Type := {
  sv_doctype : pyval;
  sv_name : pyval;
  sv_fieldname : string;
  sv_value : pyval
}.

Inductive indicator : Type := Green | Red.

(** One call of [frappe.msgprint(msg, indicator=..., alert=True)]. *)
Record alert : Type := { alert_text : string; alert_indicator : indicator }.

Record http_request : Type := {
  req_url : string;
  req_headers : list (string * option string);
  req_body : pyval
}.

(** A [requests.Response]: the status, and what [.json()] does on the body.
    [resp_plain] is the [parse_qs] reading when the content type is
    text/plain (a mapping from names to lists of strings). *)
Record http_response : Type := {
  status_code : Z;
  resp_json : outcome pyval;
  resp_plain : option (list (string * list string))
}.

(** [bool(response)], that is [response.ok]. *)
Definition response_ok (r : http_response) : bool :=
  negb (Z.leb 400 (status_code r) && Z.ltb (status_code r) 600).

Record world : Type := {
  w_messages : list whatsapp_message;
  w_logs : list notification_log;
  w_set_values : list set_value_call;
  w_alerts : list alert;
  w_requests : list http_request;
  w_evals : list string;
  w_integration_request : option http_response   (* frappe.flags.integration_request *)
}.

Definition empty_world : world :=
  {| w_messages := []; w_logs := []; w_set_values := []; w_alerts := [];
     w_requests := []; w_evals := []; w_integration_request := None |}.

Definition add_message (m : whatsapp_message) (w : world) : world :=
  {| w_messages := w_messages w ++ [m]; w_logs := w_logs w;
     w_set_values := w_set_values w; w_alerts := w_alerts w;
     w_requests := w_requests w; w_evals := w_evals w;
     w_integration_request := w_integration_request w |}.

Definition add_log (l : notification_log) (w : world) : world :=
  {| w_messages := w_messages w; w_logs := w_logs w ++ [l];
     w_set_values := w_set_values w; w_alerts := w_alerts w;
     w_requests := w_requests w; w_evals := w_evals w;
     w_integration_request := w_integration_request w |}.

Definition add_set_value (c : set_value_call) (w : world) : world :=
  {| w_messages := w_messages w; w_logs := w_logs w;
     w_set_values := w_set_values w ++ [c]; w_alerts := w_alerts w;
     w_requests := w_requests w; w_evals := w_evals w;
     w_integration_request := w_integration_request w |}.

Definition add_alert (a : alert) (w : world) : world :=
  {| w_messages := w_messages w; w_logs := w_logs w;
     w_set_values := w_set_values w; w_alerts := w_alerts w ++ [a];
     w_requests := w_requests w; w_evals := w_evals w;
     w_integration_request := w_integration_request w |}.

Definition add_request (r : http_request) (w : world) : world :=
  {| w_messages := w_messages w; w_logs := w_logs w;
     w_set_values := w_set_values w; w_alerts := w_alerts w;
     w_requests := w_requests w ++ [r]; w_evals := w_evals w;
     w_integration_request := w_integration_request w |}.

Definition add_eval (c : string) (w : world) : world :=
  {| w_messages := w_messages w; w_logs := w_logs w;
     w_set_values := w_set_values w; w_alerts := w_alerts w;
     w_requests := w_requests w; w_evals := w_evals w ++ [c];
     w_integration_request := w_integration_request w |}.

Definition set_integration_request (r : http_response) (w : world) : world :=
  {| w_messages := w_messages w; w_logs := w_logs w;
     w_set_values := w_set_values w; w_alerts := w_alerts w;
     w_requests := w_requests w; w_evals := w_evals w;
     w_integration_request := Some r |}.

(** ** A state and exception monad

    A computation runs on the world and on the local variables [F] of the
    Python frame it belongs to; an exception leaves both as they were when
    it was raised. *)

Definition M (F A : Type) : Type := world * F -> outcome A * (world * F).

Definition ret {F A} (a : A) : M F A := fun s => (Return a, s).

Definition raise {F A} (e : exn) : M F A := fun s => (Raise e, s).

Definition bind {F A B} (m : M F A) (k : A -> M F B) : M F B :=
  fun s =>
    match m s with
    | (Return a, s') => k a s'
    | (Raise e, s') => (Raise e, s')
    end.

Notation "x <- m ;; k" := (bind m (fun x => k))
  (at level 61, m at next level, right associativity).
Notation "' pat <- m ;; k" := (bind m (fun x => match x with pat => k end))
  (at level 61, pat pattern, m at next level, right associativity).
Notation "m ;; k" := (bind m (fun _ => k))
  (at level 61, right associativity).

(** The result of a host function that may raise. *)
Definition lift {F A} (o : outcome A) : M F A := fun s => (o, s).

Definition on_world {F} (f : world -> world) : M F unit :=
  fun '(w, fr) => (Return tt, (f w, fr)).

Definition read_world {F A} (f : world -> A) : M F A :=
  fun '(w, fr) => (Return (f w), (w, fr)).

Definition local {F A} (f : F -> A) : M F A :=
  fun '(w, fr) => (Return (f fr), (w, fr)).

Definition assign {F} (f : F -> F) : M F unit :=
  fun '(w, fr) => (Return tt, (w, f fr)).

Definition when {F} (b : bool) (m : M F unit) : M F unit :=
  if b then m else ret tt.

(** [try: body / except Exception as e: handler e / finally: final] *)
Definition try_except_finally {F A}
  (body : M F A) (handler : exn -> M F A) (final : M F unit) : M F A :=
  fun s =>
    let '(o1, s1) :=
      match body s with
      | (Return a, s') => (Return a, s')
      | (Raise e, s') => handler e s'
      end in
    match final s1 with
    | (Return _, s2) => (o1, s2)
    | (Raise e, s2) => (Raise e, s2)
    end.

(** [try: body / except Exception as e: handler e] *)
Definition try_except {F A} (body : M F A) (handler : exn -> M F A) : M F A :=
  fun s =>
    match body s with
    | (Return a, s') => (Return a, s')
    | (Raise e, s') => handler e s'
    end.

(** A method call: the callee runs in a frame of its own. *)
Definition call {F G A} (init : G) (m : M G A) : M F A :=
  fun '(w, fr) =>
    let '(o, (w', _)) := m (w, init) in (o, (w', fr)).

(** The world a method leaves behind, and how it ends. *)
Definition exec {A} (m : M unit A) (w : world) : world := fst (snd (m (w, tt))).

Definition result {A} (m : M unit A) (w : world) : outcome A := fst (m (w, tt)).

(** [for x in l: body x] *)
Fixpoint for_each {F A} (l : list A) (body : A -> M F unit) : M F unit :=
  match l with
  | [] => ret tt
  | x :: rest => body x ;; for_each rest body
  end.

(** [frappe.throw(msg)] *)
Definition throw {F A} (msg : string) : M F A := raise (Exn ValidationError msg).

(** [frappe.msgprint(msg, indicator=..., alert=True)] *)
Definition msgprint {F} (msg : string) (i : indicator) : M F unit :=
  on_world (add_alert {| alert_text := msg; alert_indicator := i |}).

(** ** Documents and the notification rule *)

(** The attributes of [self], a WhatsApp Notification, that the code reads. *)
Record notification : Type := {
  disabled : bool;
  condition : option string;
  field_name : option string;
  template : string;
  code : option string;
  fields : list string;                  (* field_name of each row of self.fields *)
  attach_document_print : bool;
  custom_attachment : bool;
  file_name : option string;
  attach_from_field : option string;
  attach : option string;
  sender_number : option string;
  set_property_after_alert : option string;
  property_value : option string;
  reference_doctype : string;
  doctype_event : string;
  days_in_advance : Z;
  date_changed : string
}.

(** The record a notification is about. *)
Record document : Type := {
  doc_is_document : bool;                       (* isinstance(doc, Document) *)
  doc_as_dict : pydict;                         (* doc.as_dict() *)
  doc_get_formatted : string -> outcome pyval;  (* doc.get_formatted(fieldname) *)
  doc_share_key : string                        (* doc.get_document_share_key() *)
}.

(** An [Evolution Phone Settings] document. *)
Record evolution_phone_settings : Type := {
  base_url : option string;
  instance_name : option string;
  global_api_key : option string
}.

(** The [WhatsApp Settings] document with its decrypted token. *)
Record whatsapp_settings : Type := {
  ws_url : option string;
  ws_version : option string;
  ws_phone_id : option string;
  ws_token : outcome string        (* settings.get_password("token") *)
}.

(** A point in time as the database compares it. *)
Record timestamp : Type := { ts_day : Z; ts_usec : Z }.

Definition ts_leb (a b : timestamp) : bool :=
  Z.ltb (ts_day a) (ts_day b)
  || (Z.eqb (ts_day a) (ts_day b) && Z.leb (ts_usec a) (ts_usec b)).

(** The microsecond of the day written ["HH:MM:SS.ffffff"]. *)
Definition time_of_day (h m sec us : Z) : Z :=
  (((h * 60 + m) * 60 + sec) * 1000000 + us)%Z.

(** The value of a date or datetime column; a date compares as midnight. *)
Definition as_timestamp (v : pyval) : option timestamp :=
  match v with
  | PDate d => Some {| ts_day := d; ts_usec := 0 |}
  | PDatetime d us => Some {| ts_day := d; ts_usec := us |}
  | _ => None
  end.

(** ** The methods of WhatsAppNotification *)

(** [format_number] (lines 453-458). *)
Definition format_number (number : string) : string :=
  if startswith "+" number then drop 1 number else number.

(** [f"{{{{{i}}}}}"] (line 144). *)
Definition placeholder (i : nat) : string :=
  "{{" ++ of_nat i ++ "}}".

(** ** Reading a template body

    A template body is read as a sequence of literal text and positional
    placeholders.  This reading is used to state what the renderer does; the
    renderer itself works on the flat string. *)

Inductive segment : Type :=
| Lit (s : string)
| Hole (i : nat).

(** The text of a template in which placeholder [h] is shown as [sigma h]. *)
Fixpoint expand (sigma : nat -> string) (segs : list segment) : string :=
  match segs with
  | [] => ""
  | Lit s :: rest => s ++ expand sigma rest
  | Hole h :: rest => sigma h ++ expand sigma rest
  end.

(** The body as it is stored: every placeholder literally present. *)
Definition flatten (segs : list segment) : string := expand placeholder segs.

(** Literal text that cannot begin a placeholder. *)
Definition lit_ok (sg : segment) : Prop :=
  match sg with
  | Lit s => free_of "{" s
  | Hole _ => True
  end.

(** What placeholder [h] shows once the values are supplied: the [h]-th
    value (counting from 1) when there is one, the placeholder itself
    otherwise. *)
Definition shown (values : list string) (h : nat) : string :=
  match h with
  | O => placeholder 0
  | S k =>
      match nth_error values k with
      | Some v => v
      | None => placeholder h
      end
  end.

(** Segment-level counterparts, used in the proofs: the values from
    position [i] on are written into their placeholders. *)
Definition fill_from (i : nat) (values : list string) (sg : segment) : segment :=
  match sg with
  | Lit s => Lit s
  | Hole h =>
      if Nat.leb i h then
        match nth_error values (h - i) with
        | Some v => Lit v
        | None => Hole h
        end
      else Hole h
  end.

(** Placeholder [i] gives way to the segments [vs]. *)
Definition subst_seg (i : nat) (vs : list segment) (segs : list segment)
  : list segment :=
  flat_map (fun sg =>
              match sg with
              | Hole h => if Nat.eqb h i then vs else [sg]
              | Lit _ => [sg]
              end) segs.

(** ** Sample data for the examples

    A reminder rule on Sales Invoice, one invoice, and answers of the two
    gateways.  The host functions used in the examples: no translation is
    registered, and [cint_decimal] reads an integer literal as [frappe.utils.cint]
    does (anything else is 0). *)

Definition str_plain (v : pyval) : string := "".

Definition no_translation (s : string) : string := s.

Definition dumps_plain (v : pyval) : string := "".

Definition frappe_numeric_fieldtypes : list string :=
  ["Currency"; "Int"; "Long Int"; "Float"; "Percent"; "Check"].

Definition cint_decimal (s : string) : Z :=
  match NilEmpty.int_of_string s with
  | Some d => Z.of_int d
  | None => 0%Z
  end.

Definition sample_rule : notification :=
  {| disabled := false;
     condition := None;
     field_name := Some "mobile_no";
     template := "Payment Reminder";
     code := Some "Dear {{1}}, invoice {{2}} is due.";
     fields := ["customer_name"; "name"];
     attach_document_print := false;
     custom_attachment := false;
     file_name := None;
     attach_from_field := None;
     attach := None;
     sender_number := Some "main";
     set_property_after_alert := Some "reminder_count";
     property_value := Some "5";
     reference_doctype := "Sales Invoice";
     doctype_event := "Days Before";
     days_in_advance := 3;
     date_changed := "due_date" |}.

Definition with_condition (c : option string) (n : notification) : notification :=
  {| disabled := disabled n;
     condition := c;
     field_name := field_name n;
     template := template n;
     code := code n;
     fields := fields n;
     attach_document_print := attach_document_print n;
     custom_attachment := custom_attachment n;
     file_name := file_name n;
     attach_from_field := attach_from_field n;
     attach := attach n;
     sender_number := sender_number n;
     set_property_after_alert := set_property_after_alert n;
     property_value := property_value n;
     reference_doctype := reference_doctype n;
     doctype_event := doctype_event n;
     days_in_advance := days_in_advance n;
     date_changed := date_changed n |}.

Definition with_disabled (b : bool) (n : notification) : notification :=
  {| disabled := b;
     condition := condition n;
     field_name := field_name n;
     template := template n;
     code := code n;
     fields := fields n;
     attach_document_print := attach_document_print n;
     custom_attachment := custom_attachment n;
     file_name := file_name n;
     attach_from_field := attach_from_field n;
     attach := attach n;
     sender_number := sender_number n;
     set_property_after_alert := set_property_after_alert n;
     property_value := property_value n;
     reference_doctype := reference_doctype n;
     doctype_event := doctype_event n;
     days_in_advance := days_in_advance n;
     date_changed := date_changed n |}.

Definition sample_doc_data : pydict :=
  [("doctype", PStr "Sales Invoice");
   ("name", PStr "SINV-0001");
   ("mobile_no", PStr "+201001234567");
   ("customer_name", PStr "Amr");
   ("due_date", PDate 20003)].

Definition sample_doc : document :=
  {| doc_is_document := true;
     doc_as_dict := sample_doc_data;
     doc_get_formatted := fun f => Return (dict_get sample_doc_data f PNone);
     doc_share_key := "4f2a" |}.

(** An invoice whose [due_date] is a datetime in the last second of day 20003. *)
Definition late_doc : document :=
  {| doc_is_document := true;
     doc_as_dict :=
       [("doctype", PStr "Sales Invoice");
        ("name", PStr "SINV-0002");
        ("due_date", PDatetime 20003 (time_of_day 23 59 59 500000))];
     doc_get_formatted := fun f => Return PNone;
     doc_share_key := "9c1e" |}.

Definition sample_settings : evolution_phone_settings :=
  {| base_url := Some "https://evo.example";
     instance_name := Some "main";
     global_api_key := Some "secret" |}.

Definition sample_whatsapp_settings : whatsapp_settings :=
  {| ws_url := Some "https://graph.example";
     ws_version := Some "v17.0";
     ws_phone_id := Some "1055";
     ws_token := Return "token" |}.

(** The field [reminder_count] is an Int; no other field is known. *)
Definition sample_meta (doctype : pyval) (fieldname : string)
  : outcome (option string) :=
  Return (if String.eqb fieldname "reminder_count" then Some "Int" else None).

(** HTTP 201 with the message key of the gateway. *)
Definition accepted_response : http_response :=
  {| status_code := 201;
     resp_json := Return (PDict [("key", PDict [("id", PStr "BAE594145F4C59B4")]);
                                 ("status", PStr "PENDING")]);
     resp_plain := None |}.

(** HTTP 201 whose body has no "key" and a plain string as "message". *)
Definition accepted_plain_message_response : http_response :=
  {| status_code := 201;
     resp_json := Return (PDict [("status", PStr "PENDING");
                                 ("message", PStr "Message queued")]);
     resp_plain := None |}.

(** HTTP 500 with the error body of the gateway. *)
Definition rejected_response : http_response :=
  {| status_code := 500;
     resp_json :=
       Return (PDict [("status", PInt 500);
                      ("error", PStr "Internal Server Error");
                      ("response", PDict [("message", PStr "Connection Closed")])]);
     resp_plain := None |}.

(** HTTP 500 with an HTML error page: [.json()] raises a JSONDecodeError,
    which the requests library derives from RequestException. *)
Definition html_error_response : http_response :=
  {| status_code := 500;
     resp_json := Raise (Exn RequestException
                           "Expecting value: line 1 column 1 (char 0)");
     resp_plain := None |}.

(** HTTP 500 whose body has a null "response" member. *)
Definition null_response_error : http_response :=
  {| status_code := 500;
     resp_json := Return (PDict [("status", PInt 500);
                                 ("error", PStr "Internal Server Error");
                                 ("response", PNone)]);
     resp_plain := None |}.

(** HTTP 200 of the graph-style API. *)
Definition graph_accepted_response : http_response :=
  {| status_code := 200;
     resp_json := Return (PDict [("messages", PList [PDict [("id", PStr "wamid.1")]])]);
     resp_plain := None |}.

(** The payload [send_simple_template] builds for one contact. *)
Definition sample_template_data : pyval :=
  PDict [("messaging_product", PStr "whatsapp");
         ("to", PStr "201001234567");
         ("type", PStr "template");
         ("template",
          PDict [("name", PStr "payment_reminder");
                 ("language", PDict [("code", PStr "ar")]);
                 ("components", PList [])])].

(** A template body with three placeholders. *)
Definition sample_template : list segment :=
  [Lit "Dear "; Hole 1; Lit ", invoice "; Hole 2; Lit " is due on "; Hole 3; Lit "."].

(** HTTP 201 whose body names no message key at all. *)
Definition accepted_without_key_response : http_response :=
  {| status_code := 201;
     resp_json := Return (PDict [("status", PStr "PENDING")]);
     resp_plain := None |}.

(** HTTP 200 of the graph-style API without "messages" and without "error". *)
Definition graph_unexpected_response : http_response :=
  {| status_code := 200;
     resp_json := Return (PDict [("contacts", PList [])]);
     resp_plain := None |}.

(** An invoice due on day 20003 whose [mobile_no] is empty. *)
Definition no_phone_doc : document :=
  {| doc_is_document := true;
     doc_as_dict :=
       [("doctype", PStr "Sales Invoice");
        ("name", PStr "SINV-0003");
        ("mobile_no", PStr "");
        ("due_date", PDate 20003)];
     doc_get_formatted := fun f => Return PNone;
     doc_share_key := "77b0" |}.

(** An invoice with a file stored under [invoice_file]. *)
Definition filed_doc_data : pydict :=
  [("doctype", PStr "Sales Invoice");
   ("name", PStr "SINV-0004");
   ("mobile_no", PStr "+201001234567");
   ("invoice_file", PStr "/private/files/SINV-0004.pdf")].

(** The sample rule with a custom attachment: a stored file, or the file
    named by a field of the record. *)
Definition with_attachment (file from_field : option string) (n : notification)
  : notification :=
  {| disabled := disabled n;
     condition := condition n;
     field_name := field_name n;
     template := template n;
     code := code n;
     fields := fields n;
     attach_document_print := false;
     custom_attachment := true;
     file_name := Some "invoice.pdf";
     attach_from_field := from_field;
     attach := file;
     sender_number := sender_number n;
     set_property_after_alert := set_property_after_alert n;
     property_value := property_value n;
     reference_doctype := reference_doctype n;
     doctype_event := doctype_event n;
     days_in_advance := days_in_advance n;
     date_changed := date_changed n |}.

(** The sample rule with its message text removed. *)
Definition without_text (n : notification) : notification :=
  {| disabled := disabled n;
     condition := condition n;
     field_name := field_name n;
     template := template n;
     code := None;
     fields := fields n;
     attach_document_print := attach_document_print n;
     custom_attachment := custom_attachment n;
     file_name := file_name n;
     attach_from_field := attach_from_field n;
     attach := attach n;
     sender_number := sender_number n;
     set_property_after_alert := set_property_after_alert n;
     property_value := property_value n;
     reference_doctype := reference_doctype n;
     doctype_event := doctype_event n;
     days_in_advance := days_in_advance n;
     date_changed := date_changed n |}.

(** The fields of Sales Invoice the examples know, and a message formatter
    that keeps the pattern. *)
Definition sample_doctype_fields (doctype : string) : outcome (list string) :=
  Return ["customer_name"; "mobile_no"; "due_date"].

Definition format_plain (pattern : string) (args : list string) : string := pattern.

(** A serialiser that keeps the addressee of a payload and nothing else. *)
Definition dumps_addressee (v : pyval) : string :=
  match v with
  | PDict d => match dict_get d "to" PNone with PStr s => s | _ => "" end
  | _ => ""
  end.

Section Host.

(** [str()] of the values the model does not print itself. *)
Variable str_other : pyval -> string.
(** [frappe._(msg, 'ar')] and [frappe._(msg)] *)
Variable translate_ar : string -> string.
Variable translate : string -> string.
(** [json.dumps] / [frappe.json.dumps(..., default=str)] *)
Variable json_dumps : pyval -> string.
(** [frappe.safe_eval(condition, get_safe_globals(), dict(doc=doc_data))] *)
Variable safe_eval : string -> pydict -> outcome pyval.
(** [frappe.db.get_value("WhatsApp Templates", name, fieldname='*')] *)
Variable db_get_template : string -> pyval.
(** [frappe.get_doc("DocType", doctype)]: its [custom] and [default_print_format]. *)
Variable get_doctype : pyval -> outcome (bool * option string).
(** The Property Setter row for [default_print_format]. *)
Variable property_setter_print_format : pyval -> option string.
(** [frappe.attach_print(doctype, name, print_format=..., doc=doc)]: fname and fcontent. *)
Variable attach_print : pyval -> pyval -> string -> outcome (string * string).
(** [base64.b64encode(...).decode('utf-8')] *)
Variable b64encode : string -> string.
(** [frappe.utils.get_url()] *)
Variable get_url : string.
(** [frappe.get_doc("Evolution Phone Settings", sender_number)] *)
Variable get_evolution_settings : option string -> outcome evolution_phone_settings.
(** [frappe.get_doc("WhatsApp Settings", "WhatsApp Settings")] *)
Variable get_whatsapp_settings : outcome whatsapp_settings.
(** The HTTP transport: a response, or an exception of the requests library. *)
Variable http_post : http_request -> outcome http_response.
(** [frappe.get_meta(doctype).get_field(fieldname)]: the fieldtype, if the field exists. *)
Variable get_meta_field : pyval -> string -> outcome (option string).
(** [frappe.model.numeric_fieldtypes] *)
Variable numeric_fieldtypes : list string.
(** [frappe.utils.cint] *)
Variable cint : string -> Z.
(** [nowdate()] as a day number, and the rows of a DocType. *)
Variable nowdate : Z.
Variable db_table : string -> list document.

(** [str(v)] *)
Definition py_str (v : pyval) : string :=
  match v with
  | PStr s => s
  | PNone => "None"
  | PBool true => "True"
  | PBool false => "False"
  | PInt z => NilEmpty.string_of_int (Z.to_int z)
  | _ => str_other v
  end.

(** [for i, param in enumerate(parameters, 1):
       message_text = message_text.replace(f"{{{{{i}}}}}", _(str(param),'ar'))]
    (lines 143-144), entered with the counter at [i]. *)
Fixpoint render_from (i : nat) (message_text : string) (parameters : list pyval)
  : string :=
  match parameters with
  | [] => message_text
  | param :: rest =>
      render_from (S i)
        (replace message_text (placeholder i) (translate_ar (py_str param)))
        rest
  end.

Definition render (message_text : string) (parameters : list pyval) : string :=
  render_from 1 message_text parameters.

(** The text that takes the place of a placeholder: [_(str(param), 'ar')]. *)
Definition value_text (p : pyval) : string := translate_ar (py_str p).

(** [frappe.get_doc(new_doc).save(ignore_permissions=True)] *)
Definition save_message {F} (m : whatsapp_message) : M F unit :=
  on_world (add_message m).

(** [frappe.get_doc({... "WhatsApp Notification Log" ...}).insert(ignore_permissions=True)] *)
Definition insert_log {F} (l : notification_log) : M F unit :=
  on_world (add_log l).

(** The "update property after alert" block shared by both backends
    (lines 310-324 and 410-420). *)
Definition write_back {F} (self : notification) (doc_data : option pydict)
  : M F unit :=
  match doc_data with
  | Some dd =>
      if truthy (PDict dd) && opt_truthy (set_property_after_alert self)
         && opt_truthy (property_value self)
      then
        if truthy (dict_get dd "doctype" PNone) && truthy (dict_get dd "name" PNone)
        then
          let fieldname := opt_format (set_property_after_alert self) in
          let value := opt_format (property_value self) in
          df <- lift (get_meta_field (dict_get dd "doctype" PNone) fieldname) ;;
          match df with
          | Some fieldtype =>
              let value' :=
                if existsb (String.eqb fieldtype) numeric_fieldtypes
                then PInt (cint value) else PStr value in
              on_world (add_set_value
                {| sv_doctype := dict_get dd "doctype" PNone;
                   sv_name := dict_get dd "name" PNone;
                   sv_fieldname := fieldname;
                   sv_value := value' |})
          | None => ret tt
          end
        else ret tt
      else ret tt
  | None => ret tt
  end.

(** The local variables of [notify_evolution] that outlive the [try]. *)
Record ev_frame : Type := {
  ev_success : bool;
  ev_response_data : pyval;
  ev_error_message : pyval;
  ev_message_text : option string
}.

Definition ev_set_success (b : bool) (f : ev_frame) : ev_frame :=
  {| ev_success := b; ev_response_data := ev_response_data f;
     ev_error_message := ev_error_message f; ev_message_text := ev_message_text f |}.

Definition ev_set_response_data (v : pyval) (f : ev_frame) : ev_frame :=
  {| ev_success := ev_success f; ev_response_data := v;
     ev_error_message := ev_error_message f; ev_message_text := ev_message_text f |}.

Definition ev_set_error_message (v : pyval) (f : ev_frame) : ev_frame :=
  {| ev_success := ev_success f; ev_response_data := ev_response_data f;
     ev_error_message := v; ev_message_text := ev_message_text f |}.

Definition ev_set_message_text (t : option string) (f : ev_frame) : ev_frame :=
  {| ev_success := ev_success f; ev_response_data := ev_response_data f;
     ev_error_message := ev_error_message f; ev_message_text := t |}.

Definition send_media_url (st : evolution_phone_settings) : string :=
  opt_format (base_url st) ++ "/message/sendMedia/" ++ opt_format (instance_name st).

Definition send_text_url (st : evolution_phone_settings) : string :=
  opt_format (base_url st) ++ "/message/sendText/" ++ opt_format (instance_name st).

(** Lines 240-273: the endpoint, the payload, the content type, and
    [message_text] as the block leaves it. *)
Definition evolution_request (st : evolution_phone_settings)
    (phone_number : string) (message_text attachment_url filename : option string)
  : string * pyval * string * option string :=
  if opt_truthy attachment_url then
    if opt_truthy filename && endswith ".pdf" (lower (opt_format filename)) then
      (send_media_url st,
       PDict [("number", PStr phone_number);
              ("mediatype", PStr "document");
              ("mimetype", PStr "application/pdf");
              ("caption", of_opt message_text);
              ("media", of_opt attachment_url);
              ("fileName", of_opt filename)],
       "document", message_text)
    else
      (send_media_url st,
       PDict [("number", PStr phone_number);
              ("mediatype", PStr "image");
              ("caption", of_opt message_text);
              ("media", of_opt attachment_url)],
       "image", message_text)
  else
    let message_text :=
      match message_text with
      | None => Some "No Text"
      | Some _ => message_text
      end in
    (send_text_url st,
     PDict [("number", PStr phone_number);
            ("text", of_opt message_text)],
     "text", message_text).

Definition evolution_headers (st : evolution_phone_settings)
  : list (string * option string) :=
  [("Content-Type", Some "application/json"); ("apikey", global_api_key st)].

(** The request of line 276. *)
Definition evolution_http_request (st : evolution_phone_settings)
    (phone_number : string) (message_text attachment_url filename : option string)
  : http_request :=
  let '(url, payload, _, _) :=
    evolution_request st phone_number message_text attachment_url filename in
  {| req_url := url; req_headers := evolution_headers st; req_body := payload |}.

(** Lines 283-285: the message id, from [key.id] or else [message.key.id]. *)
Definition evolution_message_id (response_data : pyval) : outcome pyval :=
  match py_get response_data "key" (PDict []) with
  | Raise e => Raise e
  | Return k =>
      match py_get k "id" (PStr "") with
      | Raise e => Raise e
      | Return message_id =>
          if negb (truthy message_id) then
            match py_get response_data "message" (PDict []) with
            | Raise e => Raise e
            | Return m =>
                match py_get m "key" (PDict []) with
                | Raise e => Raise e
                | Return k' => py_get k' "id" (PStr "")
                end
            end
          else Return message_id
      end
  end.

(** The body of the [try] of [notify_evolution] (lines 239-333). *)
Definition notify_evolution_try (self : notification)
    (st : evolution_phone_settings)
    (phone_number : string) (attachment_url filename : option string)
    (doc_data : option pydict) (parameters : option (list pyval))
  : M ev_frame unit :=
  message_text <- local ev_message_text ;;
  let '(url, payload, content_type, message_text) :=
    evolution_request st phone_number message_text attachment_url filename in
  assign (ev_set_message_text message_text) ;;
  let request :=
    {| req_url := url; req_headers := evolution_headers st; req_body := payload |} in
  on_world (add_request request) ;;
  response <- lift (http_post request) ;;
  response_data <- lift (resp_json response) ;;
  assign (ev_set_response_data response_data) ;;
  if Z.eqb (status_code response) 200 || Z.eqb (status_code response) 201 then
    assign (ev_set_success true) ;;
    message_id <- lift (evolution_message_id response_data) ;;
    message_text <- local ev_message_text ;;
    let template_parameters :=
      match parameters with
      | Some ps => if truthy (PList ps) then Some (json_dumps (PList ps)) else None
      | None => None
      end in
    let reference :=
      match doc_data with
      | Some dd =>
          if truthy (PDict dd)
          then (Some (dict_get dd "doctype" PNone), Some (dict_get dd "name" PNone))
          else (None, None)
      | None => (None, None)
      end in
    save_message
      {| wm_type := "Outgoing";
         wm_message := of_opt message_text;
         wm_to := PStr phone_number;
         wm_message_type := "Template";
         wm_message_id := message_id;
         wm_content_type := content_type;
         wm_use_template := 1;
         wm_template := template self;
         wm_template_parameters := template_parameters;
         wm_reference_doctype := fst reference;
         wm_reference_name := snd reference |} ;;
    write_back self doc_data ;;
    msgprint "WhatsApp Message Sent Successfully" Green
  else
    r <- lift (py_get response_data "response" (PDict [])) ;;
    error_message <- lift (py_get r "message" (PStr "Unknown Error")) ;;
    assign (ev_set_error_message error_message) ;;
    msgprint ("Failed to send WhatsApp message: " ++ py_str error_message) Red.

(** The two [except] clauses (lines 335-348). *)
Definition notify_evolution_except (e : exn) : M ev_frame unit :=
  if is_request_exception e then
    let error_message := "Connection error: " ++ exn_str e in
    assign (ev_set_error_message (PStr error_message)) ;;
    msgprint ("Failed to trigger WhatsApp message: " ++ error_message) Red
  else
    let error_message := exn_str e in
    assign (ev_set_error_message (PStr error_message)) ;;
    msgprint ("Failed to trigger WhatsApp message: " ++ error_message) Red.

(** The log document of lines 351-361. *)
Definition evolution_log (self : notification) (phone_number : string)
    (success : bool) (response_data error_message : pyval)
    (message_text : option string) : notification_log :=
  {| log_template := template self;
     log_meta_data :=
       PDict [("success", PBool success);
              ("response", if success then response_data else PNone);
              ("error", if negb success then error_message else PNone);
              ("phone_number", PStr phone_number);
              ("message", of_opt message_text)] |}.

(** The [finally] clause (lines 349-361). *)
Definition notify_evolution_finally (self : notification) (phone_number : string)
  : M ev_frame unit :=
  success <- local ev_success ;;
  response_data <- local ev_response_data ;;
  error_message <- local ev_error_message ;;
  message_text <- local ev_message_text ;;
  insert_log
    (evolution_log self phone_number success response_data error_message
       message_text).

(** The guarded part of [notify_evolution] (lines 234-361), entered once
    the settings are loaded and complete. *)
Definition notify_evolution_guarded (self : notification)
    (st : evolution_phone_settings)
    (phone_number : string) (message_text attachment_url filename : option string)
    (doc_data : option pydict) (parameters : option (list pyval))
  : M unit unit :=
  call {| ev_success := false; ev_response_data := PNone;
          ev_error_message := PNone; ev_message_text := message_text |}
    (try_except_finally
       (notify_evolution_try self st phone_number attachment_url filename
          doc_data parameters)
       notify_evolution_except
       (notify_evolution_finally self phone_number)).

(** [notify_evolution] (lines 220-361). *)
Definition notify_evolution (self : notification)
    (phone_number : string) (message_text attachment_url filename : option string)
    (doc_data : option pydict) (parameters : option (list pyval))
  : M unit unit :=
  evolution_settings <- lift (get_evolution_settings (sender_number self)) ;;
  if negb (opt_truthy (base_url evolution_settings))
     || negb (opt_truthy (instance_name evolution_settings))
  then throw "Evolution Phone Settings not configured"
  else
    notify_evolution_guarded self evolution_settings
      phone_number message_text attachment_url filename doc_data parameters.

(** ** Backend A: [notify] *)

(** [frappe.integrations.utils.make_post_request] of the host: the response
    is kept in [frappe.flags.integration_request], an error status raises
    an HTTPError, a text/plain body is read with [parse_qs] and any other
    body with [.json()]. *)
Definition make_post_request {F} (request : http_request) : M F pyval :=
  on_world (add_request request) ;;
  response <- lift (http_post request) ;;
  on_world (set_integration_request response) ;;
  if response_ok response then
    match resp_plain response with
    | Some qs => ret (PDict (map (fun kv => (fst kv, PList (map PStr (snd kv)))) qs))
    | None => lift (resp_json response)
    end
  else
    raise (Exn RequestException
             (py_str (PInt (status_code response)) ++ " Error for url: "
              ++ req_url request)).

(** The local variables of [notify] that outlive the [try], and the
    attribute [self.content_type] it may set. *)
Record wa_frame : Type := {
  wa_success : bool;
  wa_error_message : pyval;
  wa_content_type : option string
}.

Definition wa_set_success (b : bool) (f : wa_frame) : wa_frame :=
  {| wa_success := b; wa_error_message := wa_error_message f;
     wa_content_type := wa_content_type f |}.

Definition wa_set_error_message (v : pyval) (f : wa_frame) : wa_frame :=
  {| wa_success := wa_success f; wa_error_message := v;
     wa_content_type := wa_content_type f |}.

Definition wa_set_content_type (c : option string) (f : wa_frame) : wa_frame :=
  {| wa_success := wa_success f; wa_error_message := wa_error_message f;
     wa_content_type := c |}.

Fixpoint texts_of (l : list pyval) : outcome (list pyval) :=
  match l with
  | [] => Return []
  | param :: rest =>
      match py_item param "text" with
      | Raise e => Raise e
      | Return t =>
          match texts_of rest with
          | Raise e => Raise e
          | Return ts => Return (t :: ts)
          end
      end
  end.

(** [[param["text"] for param in ps]] *)
Definition param_texts (ps : pyval) : outcome (list pyval) :=
  match ps with
  | PList l => texts_of l
  | PStr EmptyString => Return []
  | PStr (String _ _) => Raise (Exn TypeError "string indices must be integers")
  | PDict [] => Return []
  | PDict (_ :: _) => Raise (Exn TypeError "string indices must be integers")
  | _ => Raise (Exn TypeError ("'" ++ type_name ps ++ "' object is not iterable"))
  end.

(** The request of lines 376-379. *)
Definition whatsapp_http_request (st : whatsapp_settings) (token : string)
    (data : pyval) : http_request :=
  {| req_url := opt_format (ws_url st) ++ "/" ++ opt_format (ws_version st)
                ++ "/" ++ opt_format (ws_phone_id st) ++ "/messages";
     req_headers := [("authorization", Some ("Bearer " ++ token));
                     ("content-type", Some "application/json")];
     req_body := PStr (json_dumps data) |}.

(** Lines 384-387: the texts of the first component, serialised. *)
Definition template_parameters (data : pyval) : outcome (option string) :=
  match py_item data "template" with
  | Raise e => Raise e
  | Return tpl =>
      match py_item tpl "components" with
      | Raise e => Raise e
      | Return components =>
          if truthy components then
            match py_first components with
            | Raise e => Raise e
            | Return c0 =>
                match py_item c0 "parameters" with
                | Raise e => Raise e
                | Return ps =>
                    match param_texts ps with
                    | Raise e => Raise e
                    | Return texts => Return (Some (json_dumps (PList texts)))
                    end
                end
            end
          else Return None
      end
  end.

(** The body of the [try] of [notify] (lines 375-423). *)
Definition notify_try (self : notification) (st : whatsapp_settings)
    (token : string)
    (data : pyval) (doc_data : option pydict) : M wa_frame unit :=
  assign (wa_set_success false) ;;
  response <- make_post_request (whatsapp_http_request st token data) ;;
  ct <- local wa_content_type ;;
  when (negb (opt_truthy ct)) (assign (wa_set_content_type (Some "text"))) ;;
  parameters <- lift (template_parameters data) ;;
  tpl <- lift (py_item data "template") ;;
  to <- lift (py_item data "to") ;;
  messages <- lift (py_item response "messages") ;;
  m0 <- lift (py_first messages) ;;
  message_id <- lift (py_item m0 "id") ;;
  content_type <- local wa_content_type ;;
  let reference :=
    match doc_data with
    | Some dd =>
        if truthy (PDict dd)
        then (Some (dict_get dd "doctype" PNone), Some (dict_get dd "name" PNone))
        else (None, None)
    | None => (None, None)
    end in
  save_message
    {| wm_type := "Outgoing";
       wm_message := PStr (py_str tpl);
       wm_to := to;
       wm_message_type := "Template";
       wm_message_id := message_id;
       wm_content_type := opt_format content_type;
       wm_use_template := 1;
       wm_template := template self;
       wm_template_parameters := parameters;
       wm_reference_doctype := fst reference;
       wm_reference_name := snd reference |} ;;
  write_back self doc_data ;;
  msgprint "WhatsApp Message Triggered" Green ;;
  assign (wa_set_success true).

(** The [except Exception as e] clause (lines 425-435). *)
Definition notify_except (e : exn) : M wa_frame unit :=
  assign (wa_set_error_message (PStr (exn_str e))) ;;
  flag <- read_world w_integration_request ;;
  match flag with
  | Some r =>
      if response_ok r then
        body <- lift (resp_json r) ;;
        response <- lift (py_item body "error") ;;
        fallback <- lift (py_get response "message" PNone) ;;
        error_message <- lift (py_get response "Error" fallback) ;;
        assign (wa_set_error_message error_message)
      else ret tt
  | None => ret tt
  end ;;
  error_message <- local wa_error_message ;;
  msgprint ("Failed to trigger whatsapp message: " ++ py_str error_message) Red.

(** The [finally] clause (lines 436-445). *)
Definition notify_finally (self : notification) : M wa_frame unit :=
  success <- local wa_success ;;
  meta <-
    (if negb success then
       error_message <- local wa_error_message ;;
       ret (PDict [("error", error_message)])
     else
       flag <- read_world w_integration_request ;;
       match flag with
       | Some r => lift (resp_json r)
       | None => raise (no_attribute PNone "json")
       end) ;;
  insert_log {| log_template := template self; log_meta_data := meta |}.

(** The guarded part of [notify] (lines 374-445), entered once the
    settings and the token are read. *)
Definition notify_guarded (self : notification) (st : whatsapp_settings)
    (token : string) (content_type : option string)
    (data : pyval) (doc_data : option pydict) : M unit unit :=
  call {| wa_success := false; wa_error_message := PNone;
          wa_content_type := content_type |}
    (try_except_finally
       (notify_try self st token data doc_data)
       notify_except
       (notify_finally self)).

(** [notify] (lines 363-445); [content_type] is [self.content_type] on entry. *)
Definition notify (self : notification) (content_type : option string)
    (data : pyval) (doc_data : option pydict) : M unit unit :=
  settings <- lift get_whatsapp_settings ;;
  token <- lift (ws_token settings) ;;
  notify_guarded self settings token content_type data doc_data.

(** [send_simple_template] (lines 72-88). *)
Definition send_simple_template (self : notification) (contact_list : list string)
    (template : pydict) : M unit unit :=
  for_each contact_list (fun contact =>
    let data :=
      PDict [("messaging_product", PStr "whatsapp");
             ("to", PStr (format_number contact));
             ("type", PStr "template");
             ("template",
              PDict [("name", dict_get template "actual_name" PNone);
                     ("language",
                      PDict [("code", dict_get template "language_code" PNone)]);
                     ("components", PList [])])] in
    match dict_get template "header_type" (PStr "text") with
    | PStr header_type => notify self (Some (lower header_type)) data None
    | v => raise (no_attribute v "lower")
    end).

(** ** [send_template_message] *)

(** [number.startswith(...)] exists on a [str] only. *)
Definition format_number_value (number : pyval) : outcome string :=
  match number with
  | PStr n => Return (format_number n)
  | v => Raise (no_attribute v "startswith")
  end.

(** Lines 133-140: the value of every mapped field, in declared order. *)
Fixpoint collect_parameters (doc : document) (doc_data : pydict)
    (field_names : list string) : outcome (list pyval) :=
  match field_names with
  | [] => Return []
  | f :: rest =>
      let value :=
        if doc_is_document doc then doc_get_formatted doc f
        else
          match py_item (PDict doc_data) f with
          | Raise e => Raise e
          | Return v =>
              match v with
              | PDate _ | PDatetime _ _ => Return (PStr (py_str v))
              | _ => Return v
              end
          end in
      match value with
      | Raise e => Raise e
      | Return v =>
          match collect_parameters doc doc_data rest with
          | Raise e => Raise e
          | Return vs => Return (v :: vs)
          end
      end
  end.

(** Lines 128-144: the message text and the parameter list. *)
Definition build_message (self : notification) (doc : document) (doc_data : pydict)
  : outcome (option string * list pyval) :=
  match fields self with
  | [] => Return (code self, [])
  | _ :: _ =>
      match collect_parameters doc doc_data (fields self) with
      | Raise e => Raise e
      | Return parameters =>
          match code self with
          | Some message_text => Return (Some (render message_text parameters), parameters)
          | None => Raise (no_attribute PNone "replace")
          end
      end
  end.

Definition pdf_error_hint : string :=
  "PDF generation failed due to network error. Please ensure your site URL is properly configured in site_config.json (set 'host_name') or use a publicly accessible URL instead of localhost.".

(** Lines 150-191: the printed document as a base64 attachment. *)
Definition attach_printed (doc_data : pydict) : M unit (option string * option string) :=
  doctype_name <- lift (py_item (PDict doc_data) "doctype") ;;
  doctype <- lift (get_doctype doctype_name) ;;
  let print_format :=
    if fst doctype then
      (if opt_truthy (snd doctype) then opt_format (snd doctype) else "Standard")
    else
      (let default_print_format := property_setter_print_format doctype_name in
       if opt_truthy default_print_format then opt_format default_print_format
       else "Standard") in
  try_except
    (dt <- lift (py_item (PDict doc_data) "doctype") ;;
     name <- lift (py_item (PDict doc_data) "name") ;;
     pdf_data <- lift (attach_print dt name print_format) ;;
     let pdf_base64 := b64encode (snd pdf_data) in
     ret (Some pdf_base64, Some (fst pdf_data)))
    (fun e =>
       let error_msg := exn_str e in
       if contains "HostNotFoundError" error_msg
          || contains "network error" (lower error_msg)
       then throw (translate pdf_error_hint)
       else raise e).

(** [file_url.startswith("http")] *)
Definition starts_with_http (file_url : pyval) : outcome bool :=
  match file_url with
  | PStr u => Return (startswith "http" u)
  | v => Raise (no_attribute v "startswith")
  end.

(** Lines 193-207: a stored file or a file named by a field of the record. *)
Definition attach_custom (self : notification) (doc : document) (doc_data : pydict)
  : M unit (option string * option string) :=
  let filename := file_name self in
  file_url <-
    (if opt_truthy (attach_from_field self) then
       file_url <- lift (py_item (PDict doc_data) (opt_format (attach_from_field self))) ;;
       http <- lift (starts_with_http file_url) ;;
       if negb http then
         let key := doc_share_key doc in
         ret (PStr (get_url ++ py_str file_url ++ "&key=" ++ key))
       else ret file_url
     else ret (of_opt (attach self))) ;;
  http <- lift (starts_with_http file_url) ;;
  if http then ret (Some (py_str file_url), filename)
  else ret (Some (get_url ++ py_str file_url), filename).

(** [send_template_message] (lines 91-218). *)
Definition send_template_message (self : notification) (doc : document)
    (phone_no default_template : pyval) (ignore_condition : bool) : M unit unit :=
  if disabled self then ret tt else
  let doc_data := doc_as_dict doc in
  proceed <-
    (if opt_truthy (condition self) && negb ignore_condition then
       on_world (add_eval (opt_format (condition self))) ;;
       verdict <- lift (safe_eval (opt_format (condition self)) doc_data) ;;
       ret (truthy verdict)
     else ret true) ;;
  if negb proceed then ret tt else
  phone_number <-
    (if opt_truthy (field_name self) then
       if truthy phone_no then ret phone_no
       else lift (py_item (PDict doc_data) (opt_format (field_name self)))
     else ret phone_no) ;;
  if negb (truthy phone_number) then throw "Phone number not found" else
  phone_number <- lift (format_number_value phone_number) ;;
  let template_doc :=
    if truthy default_template then default_template
    else db_get_template (template self) in
  if negb (truthy template_doc)
  then throw ("Template " ++ template self ++ " not found") else
  '(message_text, parameters) <- lift (build_message self doc doc_data) ;;
  '(attachment_url, filename) <-
    (if attach_document_print self then attach_printed doc_data
     else if custom_attachment self then attach_custom self doc doc_data
     else ret (None, None)) ;;
  notify_evolution self phone_number message_text attachment_url filename
    (Some doc_data)
    (match fields self with [] => None | _ :: _ => Some parameters end).

(** ** The scheduler entry point: [get_documents_for_today] (lines 460-484) *)

(** Lines 464-468: the target day. *)
Definition reference_date (self : notification) : Z :=
  let diff_days := days_in_advance self in
  let diff_days :=
    if String.eqb (doctype_event self) "Days After"
    then (- diff_days)%Z else diff_days in
  (nowdate + diff_days)%Z.

(** [reference_date + " 00:00:00.000000"] and [reference_date + " 23:59:59.000000"] *)
Definition reference_date_start (self : notification) : timestamp :=
  {| ts_day := reference_date self; ts_usec := time_of_day 0 0 0 0 |}.

Definition reference_date_end (self : notification) : timestamp :=
  {| ts_day := reference_date self; ts_usec := time_of_day 23 59 59 0 |}.

(** The two filters of [frappe.get_all] on the value of the date column:
    [>= reference_date_start] and [<= reference_date_end]. *)
Definition in_window (self : notification) (field_value : pyval) : bool :=
  match as_timestamp field_value with
  | Some t => ts_leb (reference_date_start self) t && ts_leb t (reference_date_end self)
  | None => false
  end.

Definition selected (self : notification) (d : document) : bool :=
  in_window self (dict_get (doc_as_dict d) (date_changed self) PNone).

Definition get_documents_for_today (self : notification) : M unit unit :=
  let doc_list := filter (selected self) (db_table (reference_doctype self)) in
  for_each doc_list (fun doc =>
    send_template_message self doc PNone PNone false).

(** ** The remaining entry points *)

(** [frappe.flags.in_import] and [frappe.flags.in_patch]. *)
Variable in_import : bool.
Variable in_patch : bool.
(** The rows of "WhatsApp Notification", each as [frappe.get_doc] loads it. *)
Variable all_notifications : list notification.
(** [safe_exec(self.condition, get_safe_globals(), dict(doc=self))]: the
    script receives the rule as [doc] and may set its attributes.  The
    answer is the rule as the script leaves it, with its [_contact_list] and
    its [_data_list] (empty when not set); the script is taken to leave
    alone what the world records. *)
Variable safe_exec :
  option string -> notification -> list string -> list pydict ->
  outcome (notification * list string * list pydict).
(** [frappe.get_doc(doctype, name)] *)
Variable get_document : string -> pyval -> outcome document.
(** The fieldnames of [frappe.get_doc("DocType", dt).fields] and of the
    Custom Field rows of [dt]. *)
Variable doctype_fields : string -> outcome (list string).
Variable custom_fields : string -> list string.
(** [str.format] and [frappe.bold]. *)
Variable format_message : string -> list string -> string.
Variable frappe_bold : string -> string.

(** The filter of line 506: an event of the scheduler, and not disabled. *)
Definition scheduled_rule (n : notification) : bool :=
  (String.eqb (doctype_event n) "Days Before"
   || String.eqb (doctype_event n) "Days After")
  && negb (disabled n).

(** [trigger_notifications] (lines 499-510). *)
Definition trigger_notifications (method : string) : M unit unit :=
  if in_import || in_patch then ret tt
  else if String.eqb method "daily" then
    for_each (filter scheduled_rule all_notifications) get_documents_for_today
  else ret tt.

(** [call_trigger_notifications] (lines 487-497).  The frame holds the
    titles of the Error Log entries that [frappe.log_error] writes. *)
Definition call_trigger_notifications : M (list string) unit :=
  try_except
    (call tt (trigger_notifications "daily"))
    (fun e =>
       assign (fun errors => (errors ++ ["Error in call_trigger_notifications"])%list) ;;
       raise e).

(** [template and template.language_code] (line 58). *)
Definition template_usable (template : pyval) : outcome bool :=
  match template with
  | PDict d => Return (truthy template && truthy (dict_get d "language_code" PNone))
  | v => if truthy v then Raise (no_attribute v "language_code") else Return false
  end.

(** [send_scheduled_message] (lines 47-68); [contact_list] and [data_list]
    are [self._contact_list] and [self._data_list] on entry, empty when not
    set. *)
Definition send_scheduled_message (self : notification)
    (contact_list : list string) (data_list : list pydict) : M unit unit :=
  '(self, contact_list, data_list) <-
    lift (safe_exec (condition self) self contact_list data_list) ;;
  let template_doc := db_get_template (template self) in
  usable <- lift (template_usable template_doc) ;;
  if usable then
    match contact_list with
    | _ :: _ =>
        send_simple_template self contact_list
          (match template_doc with PDict d => d | _ => [] end)
    | [] =>
        match data_list with
        | _ :: _ =>
            for_each data_list (fun data =>
              doc <- lift (get_document (reference_doctype self)
                             (dict_get data "name" PNone)) ;;
              send_template_message self doc (dict_get data "phone_no" PNone)
                template_doc true)
        | [] => ret tt
        end
    end
  else ret tt.

(** [validate] (lines 20-44); [notification_type] is [self.notification_type]. *)
Definition validate (self : notification) (notification_type : string)
  : M unit unit :=
  (if String.eqb notification_type "DocType Event" then
     fields <- lift (doctype_fields (reference_doctype self)) ;;
     let fields := (fields ++ custom_fields (reference_doctype self))%list in
     if existsb (fun fieldname => match field_name self with
                                  | Some n => String.eqb fieldname n
                                  | None => false
                                  end) fields
     then ret tt
     else throw (format_message (translate "Field name {0} does not exists")
                   [opt_format (field_name self)])
   else ret tt) ;;
  (if custom_attachment self then
     if negb (opt_truthy (attach self)) && negb (opt_truthy (attach_from_field self))
     then throw (format_message
                   (translate "Either {0} a file or add a {1} to send attachemt")
                   [frappe_bold (translate "Attach");
                    frappe_bold (translate "Attach from field")])
     else ret tt
   else ret tt) ;;
  (if opt_truthy (set_property_after_alert self) then
     df <- lift (get_meta_field (PStr (reference_doctype self))
                   (opt_format (set_property_after_alert self))) ;;
     match df with
     | Some _ => ret tt
     | None => throw (format_message (translate "Field {0} not found on DocType {1}")
                        [opt_format (set_property_after_alert self);
                         reference_doctype self])
     end
   else ret tt).

(** ** What a run leaves behind

    [dispatched n w w']: from [w] to [w'] exactly [n] requests were posted
    and [n] log entries written, at most [n] messages saved and no more
    write-backs made than messages saved; what was there before is kept. *)
Definition dispatched (n : nat) (w w' : world) : Prop :=
  exists rqs ls ms ss,
    w_requests w' = (w_requests w ++ rqs)%list
    /\ w_logs w' = (w_logs w ++ ls)%list
    /\ w_messages w' = (w_messages w ++ ms)%list
    /\ w_set_values w' = (w_set_values w ++ ss)%list
    /\ List.length rqs = n /\ List.length ls = n
    /\ List.length ss <= List.length ms /\ List.length ms <= n.

(** ** Facts about the string primitives *)

Local Arguments Ascii.eqb : simpl never.

Lemma append_assoc (a b c : string) : (a ++ b) ++ c = a ++ (b ++ c).
Proof. induction a as [|x a IH]; simpl; [reflexivity | now rewrite IH]. Qed.

Lemma append_nil_r (a : string) : a ++ "" = a.
Proof. induction a as [|x a IH]; simpl; [reflexivity | now rewrite IH]. Qed.

Lemma startswith_cons (a b : ascii) (p s : string) :
  startswith (String a p) (String b s) = Ascii.eqb a b && startswith p s.
Proof. reflexivity. Qed.

Lemma startswith_app (p s : string) : startswith p (p ++ s) = true.
Proof.
  induction p as [|a p IH]; simpl; [reflexivity|].
  now rewrite Ascii.eqb_refl, IH.
Qed.

Lemma startswith_prefix (p a b : string) :
  startswith p a = true -> startswith p (a ++ b) = true.
Proof.
  revert a. induction p as [|c p IH]; intros a H; [reflexivity|].
  destruct a as [|c' a]; [discriminate|].
  cbn [append]. rewrite startswith_cons in *.
  apply andb_prop in H. destruct H as [H1 H2]. rewrite H1. cbn. now apply IH.
Qed.

Lemma free_of_app (c : ascii) (a b : string) :
  free_of c (a ++ b) <-> free_of c a /\ free_of c b.
Proof.
  induction a as [|x a IH]; simpl.
  - split; [intros H; split; [exact I | exact H] | intros [_ H]; exact H].
  - rewrite IH. split.
    + intros [H1 [H2 H3]]. repeat split; assumption.
    + intros [[H1 H2] H3]. repeat split; assumption.
Qed.

Lemma free_ofb_spec (c : ascii) (s : string) : free_ofb c s = true <-> free_of c s.
Proof.
  induction s as [|b s IH]; simpl; [split; trivial|].
  rewrite andb_true_iff, negb_true_iff, IH, Ascii.eqb_neq. reflexivity.
Qed.

(** Once a match is found the scan passes over the rest of it. *)
Lemma replace_from_skip (p old new s : string) :
  replace_from (String.length p) old new (p ++ s) = replace_from 0 old new s.
Proof. induction p as [|a p IH]; simpl; [reflexivity | exact IH]. Qed.

Lemma replace_from_match (old new s : string) :
  old <> "" ->
  replace_from 0 old new (old ++ s) = new ++ replace_from 0 old new s.
Proof.
  destruct old as [|c old]; [congruence|]. intros _.
  change (String c old ++ s) with (String c (old ++ s)).
  cbn [replace_from].
  change (String c (old ++ s)) with (String c old ++ s).
  rewrite startswith_app. cbn [String.length].
  rewrite Nat.sub_succ, Nat.sub_0_r. now rewrite replace_from_skip.
Qed.

Lemma replace_from_miss (old new : string) (c : ascii) (s : string) :
  startswith old (String c s) = false ->
  replace_from 0 old new (String c s) = String c (replace_from 0 old new s).
Proof. intros H. cbn [replace_from]. now rewrite H. Qed.

(** Text without the first character of the pattern is copied as it is. *)
Lemma replace_from_free (c : ascii) (old new l s : string) :
  free_of c l ->
  replace_from 0 (String c old) new (l ++ s)
  = l ++ replace_from 0 (String c old) new s.
Proof.
  induction l as [|x l IH]; simpl; [reflexivity|]. intros [Hx Hl].
  assert (E : Ascii.eqb c x = false) by (apply Ascii.eqb_neq; congruence).
  rewrite E. simpl. now rewrite IH.
Qed.

(** ** Facts about placeholders *)

Lemma string_of_uint_free (c : ascii) (d : Decimal.uint) :
  (forall n, 48 <= n <= 57 -> ascii_of_nat n <> c) ->
  free_of c (NilEmpty.string_of_uint d).
Proof.
  intros H.
  induction d; simpl; try exact I; (split; [|assumption]).
  - apply (H 48); lia.
  - apply (H 49); lia.
  - apply (H 50); lia.
  - apply (H 51); lia.
  - apply (H 52); lia.
  - apply (H 53); lia.
  - apply (H 54); lia.
  - apply (H 55); lia.
  - apply (H 56); lia.
  - apply (H 57); lia.
Qed.

Lemma digit_not (c : ascii) :
  (nat_of_ascii c < 48 \/ 57 < nat_of_ascii c) ->
  forall n, 48 <= n <= 57 -> ascii_of_nat n <> c.
Proof.
  intros Hc n Hn E. subst c. rewrite nat_ascii_embedding in Hc; lia.
Qed.

Lemma of_nat_free_lbrace (i : nat) : free_of "{" (of_nat i).
Proof.
  apply string_of_uint_free, digit_not. right. apply Nat.ltb_lt. reflexivity.
Qed.

Lemma of_nat_free_rbrace (i : nat) : free_of "}" (of_nat i).
Proof.
  apply string_of_uint_free, digit_not. right. apply Nat.ltb_lt. reflexivity.
Qed.

Lemma of_nat_inj (i j : nat) : of_nat i = of_nat j -> i = j.
Proof.
  unfold of_nat. intros E.
  apply Unsigned.to_uint_inj.
  assert (H : Some (Nat.to_uint i) = Some (Nat.to_uint j)).
  { rewrite <- (NilEmpty.usu (Nat.to_uint i)), <- (NilEmpty.usu (Nat.to_uint j)).
    now rewrite E. }
  now inversion H.
Qed.

(** Two runs of digits closed by "}}" that agree at the front are equal. *)
Lemma digits_agree (d1 d2 rest : string) :
  free_of "}" d1 -> free_of "}" d2 ->
  startswith (d1 ++ "}}") (d2 ++ "}}" ++ rest) = true -> d1 = d2.
Proof.
  revert d2. induction d1 as [|a d1 IH]; intros [|b d2]; simpl.
  - reflexivity.
  - intros _ [Hb _] H. apply andb_true_iff in H as [H _].
    apply Ascii.eqb_eq in H. congruence.
  - intros [Ha _] _ H. apply andb_true_iff in H as [H _].
    apply Ascii.eqb_eq in H. congruence.
  - intros [_ H1] [_ H2] H. apply andb_true_iff in H as [Hab H].
    apply Ascii.eqb_eq in Hab. subst b. f_equal. now apply IH.
Qed.

Lemma placeholder_nonempty (i : nat) : placeholder i <> "".
Proof. discriminate. Qed.

Lemma placeholder_mismatch (i h : nat) (rest : string) :
  i <> h -> startswith (placeholder i) (placeholder h ++ rest) = false.
Proof.
  intros Hih. destruct (startswith _ _) eqn:E; [|reflexivity].
  exfalso. apply Hih. apply of_nat_inj.
  unfold placeholder in E. cbn [append startswith] in E.
  rewrite !Ascii.eqb_refl in E. cbn [andb] in E.
  rewrite append_assoc in E.
  apply (digits_agree (of_nat i) (of_nat h) rest);
    auto using of_nat_free_rbrace.
Qed.

(** The scan leaves a different placeholder as it is. *)
Lemma replace_other_hole (i h : nat) (v rest : string) :
  i <> h ->
  replace_from 0 (placeholder i) v (placeholder h ++ rest)
  = placeholder h ++ replace_from 0 (placeholder i) v rest.
Proof.
  intros Hih.
  pose proof (placeholder_mismatch i h rest Hih) as M.
  assert (F : free_of "{" (of_nat h ++ "}}")).
  { apply free_of_app. split; [apply of_nat_free_lbrace|].
    simpl. repeat split; discriminate. }
  assert (N : startswith (String "{" (of_nat i ++ "}}"))
                ((of_nat h ++ "}}") ++ rest) = false).
  { destruct (of_nat h ++ "}}") as [|c t] eqn:Eh.
    - destruct (of_nat h); discriminate.
    - destruct F as [Hc _]. cbn [append startswith].
      assert (Ec : Ascii.eqb "{" c = false) by (apply Ascii.eqb_neq; congruence).
      now rewrite Ec. }
  unfold placeholder in *. cbn [append] in M |- *.
  rewrite (replace_from_miss _ _ _ _ M). f_equal.
  rewrite replace_from_miss.
  - f_equal. apply (replace_from_free _ _ _ _ _ F).
  - now rewrite startswith_cons, N, Ascii.eqb_refl.
Qed.

Lemma replace_same_hole (i : nat) (v rest : string) :
  replace_from 0 (placeholder i) v (placeholder i ++ rest)
  = v ++ replace_from 0 (placeholder i) v rest.
Proof. apply replace_from_match, placeholder_nonempty. Qed.

Lemma replace_placeholder (s : string) (i : nat) (v : string) :
  replace s (placeholder i) v = replace_from 0 (placeholder i) v s.
Proof. reflexivity. Qed.

(** One pass of [str.replace] over a template: every occurrence of
    placeholder [i] gives way to [v], whatever [v] is, and nothing else
    changes. *)
Lemma replace_expand (segs : list segment) (i : nat) (v : string) :
  Forall lit_ok segs ->
  replace (flatten segs) (placeholder i) v
  = expand (fun h => if Nat.eqb h i then v else placeholder h) segs.
Proof.
  rewrite replace_placeholder. unfold flatten.
  induction 1 as [|sg segs Hsg _ IH]; [reflexivity|].
  destruct sg as [l|h]; cbn [expand].
  - unfold placeholder. cbn [append].
    rewrite (replace_from_free _ _ _ _ _ Hsg). f_equal. exact IH.
  - destruct (Nat.eqb_spec h i) as [->|Hne].
    + rewrite replace_same_hole. now f_equal.
    + rewrite replace_other_hole by congruence. now f_equal.
Qed.

(** ** The renderer on a template read as segments *)

Lemma expand_app (sigma : nat -> string) (a b : list segment) :
  expand sigma (a ++ b) = expand sigma a ++ expand sigma b.
Proof.
  induction a as [|[l|h] a IH]; simpl; [reflexivity| |];
    now rewrite IH, append_assoc.
Qed.

Lemma flatten_subst_seg (i : nat) (vs segs : list segment) :
  flatten (subst_seg i vs segs)
  = expand (fun h => if Nat.eqb h i then flatten vs else placeholder h) segs.
Proof.
  unfold flatten, subst_seg.
  induction segs as [|[l|h] segs IH]; cbn [flat_map expand]; [reflexivity| |];
    rewrite expand_app, IH.
  - cbn [expand]. now rewrite append_nil_r.
  - destruct (Nat.eqb h i); [reflexivity|].
    cbn [expand]. now rewrite append_nil_r.
Qed.


Lemma lit_ok_fill_from (i : nat) (values : list string) (segs : list segment) :
  Forall (free_of "{") values -> Forall lit_ok segs ->
  Forall lit_ok (map (fill_from i values) segs).
Proof.
  intros Hv. induction 1 as [|sg segs Hsg _ IH]; cbn [map]; constructor; auto.
  destruct sg as [l|h]; cbn [fill_from]; [assumption|].
  destruct (Nat.leb i h); [|exact I].
  destruct (nth_error values (h - i)) as [v|] eqn:E; [|exact I].
  apply nth_error_In in E. rewrite Forall_forall in Hv. now apply Hv.
Qed.

(** A value that holds no text is a single literal segment. *)
Lemma subst_seg_lit (i : nat) (v : string) (segs : list segment) :
  subst_seg i [Lit v] segs = map (fill_from i [v]) segs.
Proof.
  unfold subst_seg.
  induction segs as [|[l|h] segs IH]; cbn [flat_map map fill_from];
    [reflexivity | now rewrite IH |].
  rewrite IH. destruct (Nat.eqb_spec h i) as [->|Hne].
  - now rewrite Nat.leb_refl, Nat.sub_diag.
  - destruct (Nat.leb_spec i h) as [Hle|Hlt]; [|reflexivity].
    destruct (h - i) as [|[|k]] eqn:E; [lia| |]; reflexivity.
Qed.

(** One step of the loop on a template whose value is itself read as
    segments: the value's segments take the place of placeholder [i]. *)
Lemma replace_subst_seg (i : nat) (vs segs : list segment) :
  Forall lit_ok segs ->
  replace (flatten segs) (placeholder i) (flatten vs) = flatten (subst_seg i vs segs).
Proof.
  intros H. now rewrite flatten_subst_seg, replace_expand.
Qed.

Lemma fill_from_step (i : nat) (v : string) (values : list string) (sg : segment) :
  fill_from (S i) values (fill_from i [v] sg) = fill_from i (v :: values) sg.
Proof.
  destruct sg as [l|h]; cbn [fill_from]; [reflexivity|].
  destruct (Nat.leb_spec i h) as [Hle|Hlt].
  - destruct (h - i) as [|k] eqn:E; cbn [nth_error fill_from].
    + reflexivity.
    + destruct k; cbn [nth_error fill_from].
      * destruct (Nat.leb_spec (S i) h); [|lia].
        now replace (h - S i) with 0 by lia.
      * destruct (Nat.leb_spec (S i) h); [|lia].
        now replace (h - S i) with (S k) by lia.
  - cbn [fill_from]. destruct (Nat.leb_spec (S i) h); [lia|reflexivity].
Qed.

(** The loop on a template, when no value holds a brace that opens a
    placeholder: every value is written into its own placeholder. *)
Lemma render_from_fill (parameters : list pyval) :
  forall (i : nat) (segs : list segment),
    Forall lit_ok segs ->
    Forall (free_of "{") (map value_text parameters) ->
    render_from i (flatten segs) parameters
    = flatten (map (fill_from i (map value_text parameters)) segs).
Proof.
  induction parameters as [|p ps IH]; intros i segs Hs Hv; cbn [render_from map].
  - f_equal. induction segs as [|[l|h] segs IHs]; cbn [map fill_from];
      [reflexivity | | ];
      inversion Hs; subst; rewrite <- IHs by assumption; [reflexivity|].
    destruct (Nat.leb i h); [|reflexivity].
    now destruct (h - i).
  - cbn [map] in Hv. inversion Hv as [|v vs Hp Hps]; subst.
    replace (translate_ar (py_str p)) with (flatten [Lit (value_text p)])
      by apply append_nil_r.
    rewrite replace_subst_seg, subst_seg_lit by assumption.
    rewrite IH.
    + rewrite map_map. f_equal. apply map_ext. intros sg. apply fill_from_step.
    + apply lit_ok_fill_from; [now repeat constructor | assumption].
    + assumption.
Qed.

Lemma flatten_fill_shown (values : list string) (segs : list segment) :
  flatten (map (fill_from 1 values) segs) = expand (shown values) segs.
Proof.
  unfold flatten.
  induction segs as [|[l|h] segs IH]; cbn [map fill_from expand];
    [reflexivity | now rewrite IH |].
  destruct h as [|k]; cbn [Nat.leb shown expand]; [now rewrite IH|].
  replace (S k - 1) with k by lia.
  destruct (nth_error values k); cbn [expand]; now rewrite IH.
Qed.




(** ** Placeholders that have no value stay in the text, whatever the body *)

Lemma startswith_split (a p s : string) :
  startswith p (a ++ s) = true ->
  (exists a', a = p ++ a')
  \/ (exists p', p' <> "" /\ p = a ++ p' /\ startswith p' s = true).
Proof.
  revert p. induction a as [|c a IH]; intros p H.
  - destruct p as [|x p].
    + left. now exists "".
    + right. exists (String x p). repeat split; [discriminate | exact H].
  - destruct p as [|x p].
    + left. now exists (String c a).
    + cbn [append] in H. rewrite startswith_cons in H.
      apply andb_true_iff in H as [Hx H]. apply Ascii.eqb_eq in Hx. subst x.
      destruct (IH p H) as [[a' Ha]|[p' [Hne [Hp Hs]]]].
      * left. exists a'. cbn [append]. now rewrite Ha.
      * right. exists p'. repeat split; [exact Hne | | exact Hs].
        cbn [append]. now rewrite Hp.
Qed.

(** A match of one placeholder never runs into another placeholder. *)
Lemma placeholder_no_overlap (i j : nat) (a p' rest : string) :
  a <> "" -> p' <> "" ->
  placeholder i = a ++ p' ->
  startswith p' (placeholder j ++ rest) = true -> False.
Proof.
  intros Ha Hp Hi Hs.
  assert (F : free_of "{" (of_nat i ++ "}}")).
  { apply free_of_app. split; [apply of_nat_free_lbrace|].
    cbn. repeat split; discriminate. }
  unfold placeholder in Hi, Hs. cbn [append] in Hi, Hs.
  destruct a as [|c a]; [congruence|].
  cbn [append] in Hi. inversion Hi as [[Hc Hi']]. clear Hi.
  destruct a as [|x a]; cbn [append] in Hi'.
  - subst p'. rewrite startswith_cons in Hs.
    apply andb_true_iff in Hs as [_ Hs].
    destruct (of_nat i ++ "}}") as [|y t] eqn:E.
    + destruct (of_nat i); discriminate.
    + destruct F as [Hy _]. rewrite startswith_cons in Hs.
      apply andb_true_iff in Hs as [Hy' _]. apply Ascii.eqb_eq in Hy'.
      congruence.
  - inversion Hi' as [[Hx Hi'']]. rewrite Hi'' in F.
    apply free_of_app in F as [_ F].
    destruct p' as [|y t]; [congruence|]. destruct F as [Hy _].
    rewrite startswith_cons in Hs. apply andb_true_iff in Hs as [Hy' _].
    apply Ascii.eqb_eq in Hy'. congruence.
Qed.

Lemma length_append (a b : string) :
  String.length (a ++ b) = String.length a + String.length b.
Proof. induction a as [|c a IH]; cbn; [reflexivity | now rewrite IH]. Qed.

(** One pass for placeholder [i] leaves an occurrence of a different
    placeholder [j] in the text. *)
Lemma placeholder_survives_pass (i j : nat) (v : string) :
  i <> j ->
  forall (n : nat) (a b : string),
    String.length a <= n ->
    exists a' b',
      replace (a ++ placeholder j ++ b) (placeholder i) v
      = a' ++ placeholder j ++ b'.
Proof.
  intros Hij. induction n as [|n IH]; intros a b Hn.
  - destruct a as [|c a]; [|cbn in Hn; lia].
    exists "", (replace_from 0 (placeholder i) v b).
    rewrite replace_placeholder. cbn [append].
    now rewrite replace_other_hole.
  - destruct a as [|c a].
    + apply (IH "" b). cbn. lia.
    + rewrite replace_placeholder.
      destruct (startswith (placeholder i) (String c a ++ placeholder j ++ b))
        eqn:E.
      * destruct (startswith_split _ _ _ E) as [[a' Ha]|[p' [Hne [Hp Hs]]]].
        -- rewrite Ha, append_assoc, replace_same_hole.
           destruct (IH a' b) as (a1 & b1 & H1).
           { assert (L : String.length (String c a)
                         = String.length (placeholder i) + String.length a')
               by (rewrite Ha; apply length_append).
             cbn [String.length] in L, Hn. 
             assert (0 < String.length (placeholder i))
               by (unfold placeholder; cbn; lia).
             lia. }
           rewrite replace_placeholder in H1. rewrite H1.
           exists (v ++ a1), b1. now rewrite append_assoc.
        -- exfalso.
           apply (placeholder_no_overlap i j (String c a) p' b);
             [discriminate | assumption | assumption | assumption].
      * cbn [append] in E |- *. rewrite (replace_from_miss _ _ _ _ E).
        destruct (IH a b) as (a1 & b1 & H1); [cbn in Hn; lia|].
        rewrite replace_placeholder in H1. rewrite H1.
        now exists (String c a1), b1.
Qed.

(** The loop leaves every placeholder whose number is not among the
    positions it runs through. *)
Lemma placeholder_survives_render (parameters : list pyval) :
  forall (i j : nat) (a b : string),
    (j < i \/ i + List.length parameters <= j) ->
    exists a' b',
      render_from i (a ++ placeholder j ++ b) parameters
      = a' ++ placeholder j ++ b'.
Proof.
  induction parameters as [|p ps IH]; intros i j a b Hj; cbn [render_from].
  - now exists a, b.
  - cbn [List.length] in Hj.
    destruct (placeholder_survives_pass i j (translate_ar (py_str p))
                ltac:(lia) (String.length a) a b (le_n _)) as (a1 & b1 & H1).
    rewrite H1. apply IH. lia.
Qed.

(** ** One pass on an arbitrary body *)




(** ** The claims about the renderer and the phone formatter *)

(** C4 (amended).  For a template body read as literal text and
    placeholders, where the literal text holds no opening brace, and for
    every ordered parameter list of length m whose substituted values hold
    no opening brace, the rendered text is the body with every placeholder
    {{h}}, 1 <= h <= m, showing the h-th value and every other placeholder,
    in particular {{m+1}}..{{k}}, left literally in place.  Without any
    condition on the body or on the values, a placeholder {{j}} with j > m
    that is present in the body is present in the rendered text.  The
    renderer is a total function, so no error is raised. *)
Theorem render_fills_placeholders :
  (forall (segs : list segment) (parameters : list pyval),
      Forall lit_ok segs ->
      Forall (free_of "{") (map value_text parameters) ->
      render (flatten segs) parameters
      = expand (shown (map value_text parameters)) segs
      /\ (forall h v, nth_error (map value_text parameters) h = Some v ->
                      shown (map value_text parameters) (S h) = v)
      /\ (forall h, List.length parameters < h ->
                    shown (map value_text parameters) h = placeholder h))
  /\
  (forall (before after : string) (parameters : list pyval) (j : nat),
      List.length parameters < j ->
      exists before' after',
        render (before ++ placeholder j ++ after) parameters
        = before' ++ placeholder j ++ after').
Proof.
  split.
  - intros segs parameters Hs Hv. repeat split.
    + unfold render. rewrite render_from_fill by assumption.
      apply flatten_fill_shown.
    + intros h v E. cbn [shown]. now rewrite E.
    + intros [|k] Hk; cbn [shown]; [reflexivity|].
      replace (nth_error (map value_text parameters) k) with (@None string);
        [reflexivity|].
      symmetry. apply nth_error_None. rewrite length_map. lia.
  - intros before after parameters j Hj. unfold render.
    apply placeholder_survives_render. lia.
Qed.


(** C8.  The phone formatter returns the input without its first character
    when the input starts with "+", and the input itself otherwise; it is
    total and looks at nothing else. *)
Theorem format_number_spec (number : string) :
  (forall rest, number = String "+" rest -> format_number number = rest)
  /\ (startswith "+" number = false -> format_number number = number)
  /\ (startswith "+" number = true <-> exists rest, number = String "+" rest).
Proof.
  unfold format_number. repeat split.
  - intros rest ->. reflexivity.
  - intros ->. reflexivity.
  - destruct number as [|c rest]; [discriminate|].
    rewrite startswith_cons, andb_true_r. intros E.
    apply Ascii.eqb_eq in E. subst c. now exists rest.
  - intros [rest ->]. reflexivity.
Qed.

(** ** Facts about the dispatch clients *)

(** Case analysis on the innermost undetermined test of a run. *)
Ltac run_step :=
  match goal with
  | |- context [match ?x with _ => _ end] =>
      lazymatch x with
      | context [match _ with _ => _ end] => fail
      | _ => destruct x eqn:?
      end
  end.

(** Case analysis on what the host answers, and on nothing else. *)
Ltac host_step :=
  match goal with
  | |- context [match ?x with _ => _ end] =>
      lazymatch type of x with
      | outcome _ =>
          lazymatch x with
          | context [match _ with _ => _ end] => fail
          | _ => destruct x eqn:?
          end
      | _ => fail
      end
  | |- context [if (?a || ?b)%bool then _ else _] =>
      destruct (a || b)%bool eqn:?
  | |- context [if is_request_exception ?e then _ else _] =>
      destruct (is_request_exception e) eqn:?
  end.

(** The write-back block touches nothing but [frappe.db.set_value]. *)
Lemma write_back_frame {F} (self : notification) (doc_data : option pydict)
    (w : world) (f : F) :
  exists o w',
    write_back self doc_data (w, f) = (o, (w', f))
    /\ w_messages w' = w_messages w /\ w_logs w' = w_logs w
    /\ w_requests w' = w_requests w /\ w_evals w' = w_evals w
    /\ w_integration_request w' = w_integration_request w.
Proof.
  unfold write_back, bind, lift, on_world, ret.
  repeat run_step; cbn; eauto 10.
Qed.

Ltac unfold_monad :=
  unfold msgprint, save_message, insert_log, throw, when;
  unfold call, try_except_finally, try_except, bind, lift, on_world, read_world,
    local, assign, raise, ret.

Ltac use_write_back :=
  match goal with
  | |- context [write_back ?s ?d (?w0, ?f)] =>
      let o := fresh "o" in
      let w1 := fresh "w" in
      let E := fresh "E" in
      destruct (write_back_frame s d w0 f)
        as (o & w1 & E & ?H & ?H & ?H & ?H & ?H);
      rewrite E; destruct o; cbn in *
  end.

(** Backend B, for every answer of the host: the call returns normally,
    posts one request, writes one log entry, saves at most one message. *)
Lemma notify_evolution_guarded_counts (self : notification)
    (st : evolution_phone_settings) (phone_number : string)
    (message_text attachment_url filename : option string)
    (doc_data : option pydict) (parameters : option (list pyval)) (w : world) :
  let run := notify_evolution_guarded self st phone_number message_text
               attachment_url filename doc_data parameters in
  result run w = Return tt
  /\ (exists success response_data error_message,
        w_logs (exec run w)
        = (w_logs w
           ++ [evolution_log self phone_number success response_data error_message
                 (snd (evolution_request st phone_number message_text
                         attachment_url filename))])%list)
  /\ w_requests (exec run w)
     = (w_requests w
        ++ [evolution_http_request st phone_number message_text
              attachment_url filename])%list
  /\ (w_messages (exec run w) = w_messages w
      \/ exists m, w_messages (exec run w) = (w_messages w ++ [m])%list)
  /\ w_evals (exec run w) = w_evals w.
Proof.
  unfold exec, result, notify_evolution_guarded, notify_evolution_try,
    notify_evolution_except, notify_evolution_finally, evolution_http_request.
  unfold_monad. cbn -[evolution_request write_back evolution_log].
  destruct (evolution_request st phone_number message_text attachment_url filename)
    as [[[url payload] content_type] mt'].
  cbn -[write_back evolution_log].
  repeat (host_step; cbn -[write_back evolution_log]).
  all: try use_write_back.
  all: repeat (host_step; cbn -[evolution_log]).
  all: repeat match goal with H : _ = _ |- _ => rewrite H end.
  all: repeat split; eauto.
Qed.

(** C2 (amended).  For every Backend B dispatch whose HTTP response status
    is neither 200 nor 201, no Sent Message Record is created, no
    write-back is made, and exactly one Notification Log entry is created,
    a failure entry.  When the body is a JSON object whose "response"
    member is absent or is itself an object, the error field of the entry
    holds response.message, "Unknown Error" when that is absent; when the
    body cannot be read as JSON, or is of another shape, the error field
    holds the text of the exception raised on it (prefixed with
    "Connection error: " for an exception of the requests library). *)
Theorem evolution_rejected (self : notification)
    (st : evolution_phone_settings) (phone_number : string)
    (message_text attachment_url filename : option string)
    (doc_data : option pydict) (parameters : option (list pyval)) (w : world)
    (response : http_response) :
  http_post (evolution_http_request st phone_number message_text
               attachment_url filename) = Return response ->
  Z.eqb (status_code response) 200 || Z.eqb (status_code response) 201 = false ->
  let run := notify_evolution_guarded self st phone_number message_text
               attachment_url filename doc_data parameters in
  w_messages (exec run w) = w_messages w
  /\ w_set_values (exec run w) = w_set_values w
  /\ exists error_message,
       w_logs (exec run w)
       = (w_logs w
          ++ [evolution_log self phone_number false PNone error_message
                (snd (evolution_request st phone_number message_text
                        attachment_url filename))])%list
       /\ (forall body r,
              resp_json response = Return (PDict body) ->
              dict_get body "response" (PDict []) = PDict r ->
              error_message = dict_get r "message" (PStr "Unknown Error"))
       /\ (forall e,
              resp_json response = Raise e ->
              error_message
              = PStr (if is_request_exception e
                      then "Connection error: " ++ exn_str e else exn_str e))
       /\ (forall body e,
              resp_json response = Return body ->
              py_get body "response" (PDict []) = Raise e ->
              error_message = PStr (exn_str e))
       /\ (forall body r e,
              resp_json response = Return body ->
              py_get body "response" (PDict []) = Return r ->
              py_get r "message" (PStr "Unknown Error") = Raise e ->
              error_message = PStr (exn_str e)).
Proof.
  intros Hpost Hstatus.
  unfold exec, notify_evolution_guarded, notify_evolution_try,
    notify_evolution_except, notify_evolution_finally.
  unfold evolution_http_request in Hpost.
  unfold_monad. cbn -[evolution_request evolution_log].
  destruct (evolution_request st phone_number message_text attachment_url filename)
    as [[[url payload] content_type] mt'].
  cbn -[evolution_log]. rewrite Hpost.
  destruct (resp_json response) as [body|e] eqn:Ejson; cbn -[evolution_log].
  - rewrite Hstatus.
    destruct (py_get body "response" (PDict [])) as [r|e] eqn:Er;
      cbn -[evolution_log].
    + destruct (py_get r "message" (PStr "Unknown Error")) as [m|e] eqn:Em;
        cbn -[evolution_log].
      * repeat split. exists m. repeat split; try congruence.
        intros body' r' Eb Hr. inversion Eb; subst body.
        cbn in Er. inversion Er; subst r. rewrite Hr in Em. cbn in Em.
        congruence.
      * assert (N : is_request_exception e = false).
        { destruct r; cbn in Em; try discriminate; inversion Em; reflexivity. }
        rewrite N. cbn -[evolution_log].
        repeat split. exists (PStr (exn_str e)). repeat split; try congruence.
        intros body' r' Eb Hr. inversion Eb; subst body.
        cbn in Er. inversion Er; subst r. rewrite Hr in Em. discriminate.
    + assert (N : is_request_exception e = false).
      { destruct body; cbn in Er; try discriminate; inversion Er; reflexivity. }
      rewrite N. cbn -[evolution_log].
      repeat split. exists (PStr (exn_str e)). repeat split; try congruence.
      intros body' r' Eb Hr. inversion Eb; subst body. discriminate.
  - destruct (is_request_exception e) eqn:N; cbn -[evolution_log];
      repeat split; eexists; repeat split; try congruence;
      intros e' Ee; inversion Ee; subst e'; now rewrite N.
Qed.

Lemma append_inj_l (a x y : string) : a ++ x = a ++ y -> x = y.
Proof.
  induction a as [|c a IH]; cbn; [trivial|]. intros H. inversion H. auto.
Qed.

Lemma endpoints_differ (st : evolution_phone_settings) :
  send_text_url st <> send_media_url st.
Proof.
  unfold send_text_url, send_media_url. intros H.
  apply append_inj_l in H. discriminate H.
Qed.

(** C6 (amended).  Every Backend B dispatch posts one request, chosen by
    the attachment state: without an attachment the text endpoint
    (sendText) with payload {number, text}; with an attachment whose file
    name, lower-cased, ends in ".pdf" the media endpoint (sendMedia) with
    payload {number, mediatype "document", mimetype "application/pdf",
    caption, media, fileName}; with any other attachment the same media
    endpoint with payload {number, mediatype "image", caption, media}.  The
    text endpoint differs from the media endpoint; the two media shapes
    share one endpoint and differ in the payload. *)
Theorem evolution_endpoint_selection (self : notification)
    (st : evolution_phone_settings) (phone_number : string)
    (message_text attachment_url filename : option string)
    (doc_data : option pydict) (parameters : option (list pyval)) (w : world) :
  let run := notify_evolution_guarded self st phone_number message_text
               attachment_url filename doc_data parameters in
  let request := evolution_http_request st phone_number message_text
                   attachment_url filename in
  w_requests (exec run w) = (w_requests w ++ [request])%list
  /\ (opt_truthy attachment_url = false ->
      request
      = {| req_url := send_text_url st;
           req_headers := evolution_headers st;
           req_body :=
             PDict [("number", PStr phone_number);
                    ("text", PStr (match message_text with
                                   | Some t => t
                                   | None => "No Text"
                                   end))] |})
  /\ (opt_truthy attachment_url = true ->
      opt_truthy filename && endswith ".pdf" (lower (opt_format filename)) = true ->
      request
      = {| req_url := send_media_url st;
           req_headers := evolution_headers st;
           req_body :=
             PDict [("number", PStr phone_number);
                    ("mediatype", PStr "document");
                    ("mimetype", PStr "application/pdf");
                    ("caption", of_opt message_text);
                    ("media", of_opt attachment_url);
                    ("fileName", of_opt filename)] |})
  /\ (opt_truthy attachment_url = true ->
      opt_truthy filename && endswith ".pdf" (lower (opt_format filename)) = false ->
      request
      = {| req_url := send_media_url st;
           req_headers := evolution_headers st;
           req_body :=
             PDict [("number", PStr phone_number);
                    ("mediatype", PStr "image");
                    ("caption", of_opt message_text);
                    ("media", of_opt attachment_url)] |})
  /\ send_text_url st <> send_media_url st.
Proof.
  cbv zeta. repeat split.
  - apply notify_evolution_guarded_counts.
  - intros Ha. unfold evolution_http_request, evolution_request. rewrite Ha.
    now destruct message_text.
  - intros Ha Hf. unfold evolution_http_request, evolution_request.
    now rewrite Ha, Hf.
  - intros Ha Hf. unfold evolution_http_request, evolution_request.
    now rewrite Ha, Hf.
  - apply endpoints_differ.
Qed.

(** The write-back block on a record with a doctype and a name, for a
    configured field that exists: the value persisted is [cint] of the
    configured value when the field is of a numeric type, the configured
    string otherwise. *)
Lemma write_back_persists {F} (self : notification) (dd : pydict) (w : world)
    (f : F) (fieldname value fieldtype : string) :
  dd <> [] ->
  set_property_after_alert self = Some fieldname -> fieldname <> "" ->
  property_value self = Some value -> value <> "" ->
  truthy (dict_get dd "doctype" PNone) = true ->
  truthy (dict_get dd "name" PNone) = true ->
  get_meta_field (dict_get dd "doctype" PNone) fieldname = Return (Some fieldtype) ->
  write_back self (Some dd) (w, f)
  = (Return tt,
     (add_set_value
        {| sv_doctype := dict_get dd "doctype" PNone;
           sv_name := dict_get dd "name" PNone;
           sv_fieldname := fieldname;
           sv_value := if existsb (String.eqb fieldtype) numeric_fieldtypes
                       then PInt (cint value) else PStr value |} w, f)).
Proof.
  intros Hdd Hf Hfn Hv Hvn Hdt Hname Hmeta.
  unfold write_back. rewrite Hf, Hv. cbn [opt_truthy of_opt truthy opt_format].
  apply String.eqb_neq in Hfn, Hvn. rewrite Hfn, Hvn, Hdt, Hname.
  destruct dd; [congruence|]. cbn [negb andb].
  unfold bind, lift, on_world. now rewrite Hmeta.
Qed.

Lemma existsb_eqb_In (x : string) (l : list string) :
  In x l -> existsb (String.eqb x) l = true.
Proof.
  intros H. apply existsb_exists. exists x. split; [assumption|].
  apply String.eqb_refl.
Qed.

(** With the write-back configured as in [write_back_persists], Backend B
    makes no other [frappe.db.set_value] call than that one, whatever the
    host answers. *)
Lemma notify_evolution_guarded_set_values (self : notification) (dd : pydict)
    (w : world) (fieldname value fieldtype : string)
    (st : evolution_phone_settings) (phone_number : string)
    (message_text attachment_url filename : option string)
    (parameters : option (list pyval)) :
  dd <> [] ->
  set_property_after_alert self = Some fieldname -> fieldname <> "" ->
  property_value self = Some value -> value <> "" ->
  truthy (dict_get dd "doctype" PNone) = true ->
  truthy (dict_get dd "name" PNone) = true ->
  get_meta_field (dict_get dd "doctype" PNone) fieldname = Return (Some fieldtype) ->
  let persisted :=
    {| sv_doctype := dict_get dd "doctype" PNone;
       sv_name := dict_get dd "name" PNone;
       sv_fieldname := fieldname;
       sv_value := if existsb (String.eqb fieldtype) numeric_fieldtypes
                   then PInt (cint value) else PStr value |} in
  let w' := exec (notify_evolution_guarded self st phone_number message_text
                    attachment_url filename (Some dd) parameters) w in
  w_set_values w' = w_set_values w
  \/ w_set_values w' = (w_set_values w ++ [persisted])%list.
Proof.
  intros Hdd Hf Hfn Hv Hvn Hdt Hname Hmeta. cbv zeta.
  unfold exec, notify_evolution_guarded, notify_evolution_try,
    notify_evolution_except, notify_evolution_finally.
  unfold_monad. cbn -[evolution_request write_back evolution_log].
  destruct (evolution_request st phone_number message_text attachment_url filename)
    as [[[url payload] content_type] mt'].
  cbn -[write_back evolution_log].
  repeat (host_step; cbn -[write_back evolution_log]).
  all: rewrite ?(write_back_persists self dd _ _ fieldname value fieldtype)
    by assumption.
  all: cbn; auto.
Qed.

Lemma lookup_plain (k : string) (qs : list (string * list string)) (v : pyval) :
  lookup k (map (fun kv => (fst kv, PList (map PStr (snd kv)))) qs) = Some v ->
  exists vs, v = PList (map PStr vs).
Proof.
  induction qs as [|[k' vs] qs IH]; cbn [map lookup fst snd]; [discriminate|].
  destruct (String.eqb k k'); [|exact IH].
  intros H. inversion H. now exists vs.
Qed.

(** A [parse_qs] reading never has the shape [messages[0].id]. *)
Lemma plain_has_no_message_id (qs : list (string * list string))
    (messages m0 message_id : pyval) :
  py_item (PDict (map (fun kv => (fst kv, PList (map PStr (snd kv)))) qs))
    "messages" = Return messages ->
  py_first messages = Return m0 ->
  py_item m0 "id" = Return message_id -> False.
Proof.
  unfold py_item at 1. intros Hm H0 Hid.
  destruct (lookup "messages" _) as [v|] eqn:E; [|discriminate].
  apply lookup_plain in E as [vs ->]. inversion Hm; subst messages.
  destruct vs as [|x vs]; cbn in H0; [discriminate|].
  inversion H0; subst m0. discriminate.
Qed.

Ltac run_cbn :=
  cbn -[write_back whatsapp_http_request py_item py_first py_get].

(** Backend A, for every answer of the host: one request is posted, one
    log entry is written (also when the handler itself raises), and at most
    one message is saved. *)
Lemma notify_guarded_counts (self : notification) (st : whatsapp_settings)
    (token : string) (content_type : option string) (data : pyval)
    (doc_data : option pydict) (w : world) :
  let run := notify_guarded self st token content_type data doc_data in
  (exists l, w_logs (exec run w) = (w_logs w ++ [l])%list)
  /\ w_requests (exec run w)
     = (w_requests w ++ [whatsapp_http_request st token data])%list
  /\ (w_messages (exec run w) = w_messages w
      \/ exists m, w_messages (exec run w) = (w_messages w ++ [m])%list).
Proof.
  unfold exec, notify_guarded, notify_try, notify_except, notify_finally,
    make_post_request.
  unfold_monad. run_cbn.
  destruct (http_post (whatsapp_http_request st token data)) as [r|e] eqn:Hpost;
    run_cbn.
  - destruct (response_ok r) eqn:Hok; run_cbn.
    + destruct (resp_plain r) as [qs|] eqn:Hplain; run_cbn.
      * destruct (negb (opt_truthy content_type)); run_cbn.
        all: repeat (host_step; run_cbn).
        all: try (exfalso; eapply plain_has_no_message_id; eassumption).
        all: rewrite ?Hok; run_cbn.
        all: repeat (host_step; run_cbn).
        all: repeat split; eauto.
      * destruct (negb (opt_truthy content_type)); run_cbn.
        all: repeat (host_step; run_cbn).
        all: try use_write_back.
        all: repeat match goal with
                    | H : w_integration_request _ = _ |- _ => rewrite H
                    end.
        all: run_cbn; rewrite ?Hok; run_cbn.
        all: repeat (host_step; run_cbn).
        all: try congruence.
        all: repeat match goal with H : _ = _ |- _ => rewrite H end.
        all: repeat split; eauto.
    + rewrite ?Hok; run_cbn. repeat (host_step; run_cbn).
      all: repeat split; eauto.
  - destruct (w_integration_request w) as [r0|] eqn:Hflag; run_cbn.
    + destruct (response_ok r0); run_cbn.
      all: repeat (host_step; run_cbn). all: repeat split; eauto.
    + repeat split; eauto.
Qed.

(** The same for Backend A. *)
Lemma notify_guarded_set_values (self : notification) (dd : pydict)
    (w : world) (fieldname value fieldtype : string)
    (st : whatsapp_settings) (token : string) (content_type : option string)
    (data : pyval) :
  dd <> [] ->
  set_property_after_alert self = Some fieldname -> fieldname <> "" ->
  property_value self = Some value -> value <> "" ->
  truthy (dict_get dd "doctype" PNone) = true ->
  truthy (dict_get dd "name" PNone) = true ->
  get_meta_field (dict_get dd "doctype" PNone) fieldname = Return (Some fieldtype) ->
  let persisted :=
    {| sv_doctype := dict_get dd "doctype" PNone;
       sv_name := dict_get dd "name" PNone;
       sv_fieldname := fieldname;
       sv_value := if existsb (String.eqb fieldtype) numeric_fieldtypes
                   then PInt (cint value) else PStr value |} in
  let w' := exec (notify_guarded self st token content_type data (Some dd)) w in
  w_set_values w' = w_set_values w
  \/ w_set_values w' = (w_set_values w ++ [persisted])%list.
Proof.
  intros Hdd Hf Hfn Hv Hvn Hdt Hname Hmeta. cbv zeta.
  unfold exec, notify_guarded, notify_try, notify_except, notify_finally,
    make_post_request.
  unfold_monad. run_cbn.
  destruct (http_post (whatsapp_http_request st token data)) as [r|e] eqn:Hpost;
    run_cbn.
  - destruct (response_ok r) eqn:Hok; run_cbn.
    + destruct (resp_plain r) as [qs|] eqn:Hplain; run_cbn.
      * destruct (negb (opt_truthy content_type)); run_cbn.
        all: repeat (host_step; run_cbn).
        all: try (exfalso; eapply plain_has_no_message_id; eassumption).
        all: rewrite ?Hok; run_cbn.
        all: repeat (host_step; run_cbn).
        all: auto.
      * destruct (negb (opt_truthy content_type)); run_cbn.
        all: repeat (host_step; run_cbn).
        all: rewrite ?(write_back_persists self dd _ _ fieldname value fieldtype)
          by assumption.
        all: run_cbn; rewrite ?Hok; run_cbn.
        all: repeat (host_step; run_cbn).
        all: try congruence.
        all: cbn; auto.
    + rewrite ?Hok; run_cbn. repeat (host_step; run_cbn).
      all: auto.
  - destruct (w_integration_request w) as [r0|] eqn:Hflag; run_cbn.
    + destruct (response_ok r0); run_cbn.
      all: repeat (host_step; run_cbn). all: auto.
    + auto.
Qed.

(** C7.  On a successful send, with a write-back configured (field and
    value set) for a triggering record that has a doctype and a name, and
    a target field that exists on the record's schema with a numeric field
    type, the value handed to [frappe.db.set_value] is the integer [cint]
    makes of the configured string, on both backends; it is written
    straight to storage by that one call.  Whatever the host answers, no
    other value is ever written for that configuration. *)
Theorem write_back_coerces_numeric (self : notification) (dd : pydict) (w : world)
    (fieldname value fieldtype : string) :
  dd <> [] ->
  set_property_after_alert self = Some fieldname -> fieldname <> "" ->
  property_value self = Some value -> value <> "" ->
  truthy (dict_get dd "doctype" PNone) = true ->
  truthy (dict_get dd "name" PNone) = true ->
  get_meta_field (dict_get dd "doctype" PNone) fieldname = Return (Some fieldtype) ->
  In fieldtype numeric_fieldtypes ->
  let persisted :=
    {| sv_doctype := dict_get dd "doctype" PNone;
       sv_name := dict_get dd "name" PNone;
       sv_fieldname := fieldname;
       sv_value := PInt (cint value) |} in
  (forall (st : evolution_phone_settings) (phone_number : string)
          (message_text attachment_url filename : option string)
          (parameters : option (list pyval))
          (response : http_response) (body message_id : pyval),
      http_post (evolution_http_request st phone_number message_text
                   attachment_url filename) = Return response ->
      Z.eqb (status_code response) 200 || Z.eqb (status_code response) 201 = true ->
      resp_json response = Return body ->
      evolution_message_id body = Return message_id ->
      w_set_values
        (exec (notify_evolution_guarded self st phone_number message_text
                 attachment_url filename (Some dd) parameters) w)
      = (w_set_values w ++ [persisted])%list)
  /\
  (forall (st : whatsapp_settings) (token : string) (content_type : option string)
          (data : pyval) (response : http_response)
          (body tpl to messages m0 message_id : pyval) (ps : option string),
      http_post (whatsapp_http_request st token data) = Return response ->
      response_ok response = true ->
      resp_plain response = None ->
      resp_json response = Return body ->
      template_parameters data = Return ps ->
      py_item data "template" = Return tpl ->
      py_item data "to" = Return to ->
      py_item body "messages" = Return messages ->
      py_first messages = Return m0 ->
      py_item m0 "id" = Return message_id ->
      w_set_values
        (exec (notify_guarded self st token content_type data (Some dd)) w)
      = (w_set_values w ++ [persisted])%list)
  /\
  (forall (st : evolution_phone_settings) (phone_number : string)
          (message_text attachment_url filename : option string)
          (parameters : option (list pyval)),
      let w' := exec (notify_evolution_guarded self st phone_number message_text
                        attachment_url filename (Some dd) parameters) w in
      w_set_values w' = w_set_values w
      \/ w_set_values w' = (w_set_values w ++ [persisted])%list)
  /\
  (forall (st : whatsapp_settings) (token : string) (content_type : option string)
          (data : pyval),
      let w' := exec (notify_guarded self st token content_type data (Some dd)) w in
      w_set_values w' = w_set_values w
      \/ w_set_values w' = (w_set_values w ++ [persisted])%list).
Proof.
  intros Hdd Hf Hfn Hv Hvn Hdt Hname Hmeta Hnum. cbv zeta.
  pose proof (existsb_eqb_In _ _ Hnum) as Hex.
  split; [|split; [|split]].
  3: { intros st phone_number message_text attachment_url filename parameters.
       pose proof (notify_evolution_guarded_set_values self dd w fieldname value
                     fieldtype st phone_number message_text attachment_url
                     filename parameters Hdd Hf Hfn Hv Hvn Hdt Hname Hmeta) as H.
       cbv zeta in H. now rewrite Hex in H. }
  3: { intros st token content_type data.
       pose proof (notify_guarded_set_values self dd w fieldname value fieldtype
                     st token content_type data
                     Hdd Hf Hfn Hv Hvn Hdt Hname Hmeta) as H.
       cbv zeta in H. now rewrite Hex in H. }
  - intros st phone_number message_text attachment_url filename parameters
      response body message_id Hpost Hstatus Hjson Hid.
    unfold exec, notify_evolution_guarded, notify_evolution_try,
      notify_evolution_except, notify_evolution_finally.
    unfold evolution_http_request in Hpost.
    unfold_monad. cbn -[evolution_request evolution_log write_back].
    destruct (evolution_request st phone_number message_text attachment_url
                filename) as [[[url payload] content_type] mt'].
    cbn -[evolution_log write_back].
    rewrite Hpost, Hjson. cbn -[evolution_log write_back].
    rewrite Hstatus. cbn -[evolution_log write_back].
    rewrite Hid. cbn -[evolution_log write_back].
    rewrite (write_back_persists self dd _ _ fieldname value fieldtype)
      by assumption.
    cbn. now rewrite Hex.
  - intros st token content_type data response body tpl to messages m0
      message_id ps Hpost Hok Hplain Hjson Hps Htpl Hto Hms Hm0 Hid.
    unfold exec, notify_guarded, notify_try, notify_except, notify_finally,
      make_post_request.
    unfold_monad. cbn -[write_back whatsapp_http_request].
    rewrite Hpost. cbn -[write_back whatsapp_http_request].
    rewrite Hok, Hplain, Hjson. cbn -[write_back whatsapp_http_request].
    destruct (negb (opt_truthy content_type));
      cbn -[write_back whatsapp_http_request];
      rewrite Hps; cbn -[write_back whatsapp_http_request];
      rewrite Htpl; cbn -[write_back whatsapp_http_request];
      rewrite Hto; cbn -[write_back whatsapp_http_request];
      rewrite Hms; cbn -[write_back whatsapp_http_request];
      rewrite Hm0; cbn -[write_back whatsapp_http_request];
      rewrite Hid; cbn -[write_back whatsapp_http_request];
      rewrite (write_back_persists self dd _ _ fieldname value fieldtype)
        by assumption;
      cbn; rewrite Hjson; cbn; now rewrite Hex.
Qed.

(** ** The claims about the send pipeline and the scheduler *)

(** C10.  On a rule whose disabled flag is set, [send_template_message]
    returns at once and leaves the world as it found it: no condition is
    handed to the evaluator, no request is posted, no message, log entry or
    write-back is made, whatever the host would have answered. *)
Theorem disabled_rule_does_nothing (self : notification) (doc : document)
    (phone_no default_template : pyval) (ignore_condition : bool) (w : world) :
  disabled self = true ->
  send_template_message self doc phone_no default_template ignore_condition (w, tt)
  = (Return tt, (w, tt)).
Proof. intros H. unfold send_template_message. now rewrite H. Qed.

(** C5.  When the rule has a condition, the condition is not overridden
    and the evaluator finds it false, [send_template_message] returns
    before dispatch: no request is posted, and no Sent Message Record, no
    Notification Log entry and no write-back is made. *)
Theorem false_condition_skips_send (self : notification) (doc : document)
    (phone_no default_template : pyval) (w : world) (c : string) (verdict : pyval) :
  condition self = Some c -> c <> "" ->
  safe_eval c (doc_as_dict doc) = Return verdict ->
  truthy verdict = false ->
  let run := send_template_message self doc phone_no default_template false in
  result run w = Return tt
  /\ w_messages (exec run w) = w_messages w
  /\ w_logs (exec run w) = w_logs w
  /\ w_set_values (exec run w) = w_set_values w
  /\ w_requests (exec run w) = w_requests w
  /\ w_alerts (exec run w) = w_alerts w.
Proof.
  intros Hc Hne Heval Hfalse. cbv zeta.
  unfold result, exec, send_template_message.
  destruct (disabled self); [now cbn|].
  rewrite Hc. cbn [opt_truthy of_opt truthy opt_format].
  apply String.eqb_neq in Hne. rewrite Hne. cbn [negb andb].
  unfold bind, on_world, lift, ret. rewrite Heval, Hfalse. now cbn.
Qed.

(** C3 (amended).  The target day of a scheduled rule is today plus the
    configured offset, the offset negated when the rule is "Days After".
    The query keeps exactly the records whose date field lies on the target
    day at a time of day from 00:00:00.000000 to 23:59:59.000000, both
    inclusive (a date without a time counts as midnight): a record on
    another day is dropped, and so is a record on the target day after
    23:59:59.000000.  So a rule with "Days Before" = 3 keeps a record dated
    today+3 and drops every record dated today+4. *)
Theorem scheduler_window (self : notification) :
  (reference_date self
   = if String.eqb (doctype_event self) "Days After"
     then (nowdate - days_in_advance self)%Z
     else (nowdate + days_in_advance self)%Z)
  /\ (forall v t,
         as_timestamp v = Some t ->
         ts_day t = reference_date self ->
         (0 <= ts_usec t <= time_of_day 23 59 59 0)%Z ->
         in_window self v = true)
  /\ (forall v t,
         as_timestamp v = Some t ->
         ts_day t <> reference_date self ->
         in_window self v = false)
  /\ (forall d,
         in_window self (PDate d) = Z.eqb d (reference_date self))
  /\ (forall v t,
         as_timestamp v = Some t ->
         ts_day t = reference_date self ->
         (ts_usec t < 0 \/ time_of_day 23 59 59 0 < ts_usec t)%Z ->
         in_window self v = false)
  /\ (forall v,
         in_window self v = true
         <-> exists t,
               as_timestamp v = Some t
               /\ ts_day t = reference_date self
               /\ (0 <= ts_usec t <= time_of_day 23 59 59 0)%Z)
  /\ (forall d,
         In d (filter (selected self) (db_table (reference_doctype self)))
         <-> In d (db_table (reference_doctype self))
             /\ in_window self (dict_get (doc_as_dict d) (date_changed self) PNone)
                = true).
Proof.
  assert (Hexact : forall v,
             in_window self v = true
             <-> exists t,
                   as_timestamp v = Some t
                   /\ ts_day t = reference_date self
                   /\ (0 <= ts_usec t <= time_of_day 23 59 59 0)%Z).
  { intros v. unfold in_window. destruct (as_timestamp v) as [[d us]|].
    - unfold ts_leb, reference_date_start, reference_date_end, time_of_day.
      cbn [ts_day ts_usec]. split.
      + intros H. exists {| ts_day := d; ts_usec := us |}.
        split; [reflexivity|]. cbn [ts_day ts_usec].
        apply andb_true_iff in H as [H1 H2].
        apply orb_true_iff in H1. apply orb_true_iff in H2.
        rewrite !andb_true_iff, !Z.ltb_lt, !Z.eqb_eq, !Z.leb_le in H1, H2.
        lia.
      + intros (t & Ht & Hd & Hus). inversion Ht; subst t.
        cbn [ts_day ts_usec] in Hd, Hus. subst d.
        rewrite Z.ltb_irrefl, Z.eqb_refl. cbn [orb andb].
        apply andb_true_iff. split; apply Z.leb_le; lia.
    - split; [discriminate|]. intros (t & Ht & _). discriminate. }
  split.
  { unfold reference_date. destruct (String.eqb _ _); lia. }
  split.
  { intros v t Hv Hd Hus. apply Hexact. exists t.
    repeat split; try assumption; lia. }
  split.
  { intros v t Hv Hd. destruct (in_window self v) eqn:E; [|reflexivity].
    apply Hexact in E as (t' & Ht' & Hd' & _). congruence. }
  split.
  { intros d. destruct (Z.eqb_spec d (reference_date self)) as [Hd|Hd].
    - apply Hexact. exists {| ts_day := d; ts_usec := 0 |}.
      repeat split; [exact Hd | cbn; lia | cbn; unfold time_of_day; lia].
    - destruct (in_window self (PDate d)) eqn:E; [|reflexivity].
      apply Hexact in E as (t & Ht & Hd' & _). inversion Ht; subst t.
      cbn in Hd'. contradiction. }
  split.
  { intros v t Hv Hd Hus. destruct (in_window self v) eqn:E; [|reflexivity].
    apply Hexact in E as (t' & Ht' & _ & Hus').
    rewrite Hv in Ht'. inversion Ht'; subst t'.
    lia. }
  split; [exact Hexact|].
  intros d. split.
  - intros H. apply filter_In in H. exact H.
  - intros [H1 H2]. apply filter_In. split; assumption.
Qed.


(** ** Counting what a run leaves behind *)

Lemma dispatched_refl (w : world) : dispatched 0 w w.
Proof.
  exists [], [], [], []. rewrite !app_nil_r. repeat split; auto.
Qed.

Lemma dispatched_trans (n m : nat) (w w1 w2 : world) :
  dispatched n w w1 -> dispatched m w1 w2 -> dispatched (n + m) w w2.
Proof.
  intros (r1 & l1 & m1 & s1 & Hr1 & Hl1 & Hm1 & Hs1 & Lr1 & Ll1 & Ls1 & Lm1)
         (r2 & l2 & m2 & s2 & Hr2 & Hl2 & Hm2 & Hs2 & Lr2 & Ll2 & Ls2 & Lm2).
  exists (r1 ++ r2)%list, (l1 ++ l2)%list, (m1 ++ m2)%list, (s1 ++ s2)%list.
  rewrite Hr2, Hl2, Hm2, Hs2, Hr1, Hl1, Hm1, Hs1, <- !app_assoc, !length_app.
  repeat split; lia.
Qed.

(** [dispatched] looks at the four kinds of record only. *)
Lemma dispatched_from (n : nat) (w0 w w' : world) :
  w_requests w0 = w_requests w -> w_logs w0 = w_logs w ->
  w_messages w0 = w_messages w -> w_set_values w0 = w_set_values w ->
  dispatched n w0 w' -> dispatched n w w'.
Proof.
  intros E1 E2 E3 E4 (r & l & m & s & H). exists r, l, m, s.
  now rewrite <- E1, <- E2, <- E3, <- E4.
Qed.

Lemma dispatched_one (w w' : world) (rq : http_request) (l : notification_log) :
  w_requests w' = (w_requests w ++ [rq])%list ->
  w_logs w' = (w_logs w ++ [l])%list ->
  (w_messages w' = w_messages w /\ w_set_values w' = w_set_values w)
  \/ (exists m, w_messages w' = (w_messages w ++ [m])%list
                /\ (w_set_values w' = w_set_values w
                    \/ exists c, w_set_values w' = (w_set_values w ++ [c])%list)) ->
  dispatched 1 w w'.
Proof.
  intros Hr Hl [[Hm Hs]|[m [Hm [Hs|[c Hs]]]]].
  - exists [rq], [l], [], []. rewrite Hr, Hl, Hm, Hs, !app_nil_r.
    repeat split; cbn; lia.
  - exists [rq], [l], [m], []. rewrite Hr, Hl, Hm, Hs, !app_nil_r.
    repeat split; cbn; lia.
  - exists [rq], [l], [m], [c]. rewrite Hr, Hl, Hm, Hs.
    repeat split; cbn; lia.
Qed.

(** The write-back block makes at most one [frappe.db.set_value] call and
    touches nothing else. *)
Lemma write_back_effect {F} (self : notification) (doc_data : option pydict)
    (w : world) (f : F) :
  exists o w',
    write_back self doc_data (w, f) = (o, (w', f))
    /\ w_messages w' = w_messages w /\ w_logs w' = w_logs w
    /\ w_requests w' = w_requests w /\ w_evals w' = w_evals w
    /\ w_integration_request w' = w_integration_request w
    /\ (w_set_values w' = w_set_values w
        \/ exists c, w_set_values w' = (w_set_values w ++ [c])%list).
Proof.
  unfold write_back, bind, lift, on_world, ret.
  repeat run_step; cbn; do 2 eexists; (repeat split; try reflexivity);
    ((left; reflexivity) || (right; eexists; reflexivity)).
Qed.

Ltac use_write_back_effect :=
  match goal with
  | |- context [write_back ?s ?d (?w0, ?f)] =>
      let o := fresh "o" in
      let w1 := fresh "w" in
      let E := fresh "E" in
      destruct (write_back_effect s d w0 f)
        as (o & w1 & E & ?H & ?H & ?H & ?H & ?H & ?H);
      rewrite E; destruct o; cbn in *
  end.

(** Backend B saves a message before it writes back, and writes back at
    most once. *)
Lemma notify_evolution_guarded_records (self : notification)
    (st : evolution_phone_settings) (phone_number : string)
    (message_text attachment_url filename : option string)
    (doc_data : option pydict) (parameters : option (list pyval)) (w : world) :
  let w' := exec (notify_evolution_guarded self st phone_number message_text
                    attachment_url filename doc_data parameters) w in
  (w_messages w' = w_messages w /\ w_set_values w' = w_set_values w)
  \/ (exists m, w_messages w' = (w_messages w ++ [m])%list
                /\ (w_set_values w' = w_set_values w
                    \/ exists c, w_set_values w' = (w_set_values w ++ [c])%list)).
Proof.
  unfold exec, notify_evolution_guarded, notify_evolution_try,
    notify_evolution_except, notify_evolution_finally.
  unfold_monad. cbn -[evolution_request write_back evolution_log].
  destruct (evolution_request st phone_number message_text attachment_url filename)
    as [[[url payload] content_type] mt'].
  cbn -[write_back evolution_log].
  repeat (host_step; cbn -[write_back evolution_log]).
  all: try use_write_back_effect.
  all: repeat (host_step; cbn -[evolution_log]).
  all: try (left; split; reflexivity).
  all: right; eexists; split;
    [ match goal with H : w_messages _ = _ |- _ => rewrite H end; reflexivity
    | match goal with
      | H : w_set_values _ = _ \/ _ |- _ =>
          destruct H as [H|[c H]]; rewrite H; cbn; eauto
      end ].
Qed.

Lemma run_eq {A} (m : M unit A) (w : world) :
  m (w, tt) = (result m w, (exec m w, tt)).
Proof.
  unfold result, exec. destruct (m (w, tt)) as [o [w' []]]. reflexivity.
Qed.

(** [notify_evolution]: either the settings are unreadable or incomplete,
    and the call raises having done nothing, or one request is posted, one
    log entry written, and the call returns normally. *)
Lemma notify_evolution_run (self : notification) (phone_number : string)
    (message_text attachment_url filename : option string)
    (doc_data : option pydict) (parameters : option (list pyval)) (w : world) :
  let run := notify_evolution self phone_number message_text attachment_url
               filename doc_data parameters in
  w_evals (exec run w) = w_evals w
  /\ ((result run w = Return tt /\ dispatched 1 w (exec run w))
      \/ (exists e, result run w = Raise e /\ exec run w = w)).
Proof.
  cbv zeta. unfold notify_evolution, result, exec. unfold bind, lift.
  destruct (get_evolution_settings (sender_number self)) as [st|e];
    [|split; [reflexivity | right; now exists e]].
  cbv beta iota.
  destruct (negb (opt_truthy (base_url st)) || negb (opt_truthy (instance_name st))).
  { split; [reflexivity|]. right. eexists. split; reflexivity. }
  pose proof (notify_evolution_guarded_counts self st phone_number message_text
                attachment_url filename doc_data parameters w)
    as (Hres & (b & rd & em & Hl) & Hr & _ & He).
  pose proof (notify_evolution_guarded_records self st phone_number message_text
                attachment_url filename doc_data parameters w) as Hrec.
  cbv zeta in Hrec.
  rewrite (run_eq (notify_evolution_guarded self st phone_number message_text
                     attachment_url filename doc_data parameters) w).
  cbn [fst snd]. split; [exact He|]. left. split; [exact Hres|].
  eapply dispatched_one; eassumption.
Qed.

Lemma attach_printed_exec (doc_data : pydict) (w : world) :
  exec (attach_printed doc_data) w = w.
Proof.
  unfold exec, attach_printed. unfold_monad.
  repeat run_step; reflexivity.
Qed.

Lemma attach_custom_exec (self : notification) (doc : document) (doc_data : pydict)
    (w : world) :
  exec (attach_custom self doc doc_data) w = w.
Proof.
  unfold exec, attach_custom. unfold_monad.
  repeat run_step; reflexivity.
Qed.

Lemma dispatched_zero (w w' : world) :
  dispatched 0 w w'
  <-> (w_requests w' = w_requests w /\ w_logs w' = w_logs w
       /\ w_messages w' = w_messages w /\ w_set_values w' = w_set_values w).
Proof.
  split.
  - intros (r & l & m & s & Hr & Hl & Hm & Hs & Lr & Ll & Ls & Lm).
    destruct r; [|discriminate]. destruct l; [|discriminate].
    destruct m; [|cbn in Lm; lia]. destruct s; [|cbn in Ls; lia].
    rewrite Hr, Hl, Hm, Hs, !app_nil_r. repeat split.
  - intros (Hr & Hl & Hm & Hs). exists [], [], [], [].
    rewrite Hr, Hl, Hm, Hs, !app_nil_r. repeat split; auto.
Qed.

Ltac pipeline_step :=
  match goal with
  | |- context [attach_printed ?d (?w0, tt)] =>
      rewrite (run_eq (attach_printed d) w0), (attach_printed_exec d w0);
      destruct (result (attach_printed d) w0) as [[? ?]|?] eqn:?
  | |- context [attach_custom ?s ?dc ?d (?w0, tt)] =>
      rewrite (run_eq (attach_custom s dc d) w0), (attach_custom_exec s dc d w0);
      destruct (result (attach_custom s dc d) w0) as [[? ?]|?] eqn:?
  | |- context [match ?x with _ => _ end] =>
      lazymatch x with
      | context [match _ with _ => _ end] => fail
      | context [notify_evolution] => fail
      | _ => destruct x eqn:?
      end
  end;
  cbn -[notify_evolution attach_printed attach_custom build_message
        format_number_value py_item].

Ltac pipeline_leaf :=
  lazymatch goal with
  | |- context [notify_evolution ?s ?p ?m ?a ?f ?d ?ps (?w0, tt)] =>
      let He := fresh "He" in
      let Hd := fresh "Hd" in
      let e := fresh "e" in
      destruct (notify_evolution_run s p m a f d ps w0) as (He & Hd);
      unfold exec, result in He, Hd; rewrite He;
      split; [cbn; rewrite ?app_nil_r; reflexivity|];
      destruct Hd as [[Hd1 Hd2]|(e & Hd1 & Hd2)];
      [left; split; [exact Hd1 | eapply dispatched_from; [..|exact Hd2]; reflexivity]
      |right; rewrite Hd2; apply dispatched_zero; cbn; repeat split; reflexivity]
  | |- _ =>
      split; [cbn; rewrite ?app_nil_r; reflexivity
             |right; apply dispatched_zero; cbn; repeat split; reflexivity]
  end.

(** [send_template_message], for every answer of the host: the condition
    is evaluated once when there is one to evaluate and never otherwise,
    and the call either posts one request, logs it and returns normally, or
    leaves no request, log, message or write-back behind. *)
Lemma send_template_message_run (self : notification) (doc : document)
    (phone_no default_template : pyval) (ignore_condition : bool) (w : world) :
  let run := send_template_message self doc phone_no default_template
               ignore_condition in
  w_evals (exec run w)
  = (w_evals w
     ++ if negb (disabled self)
           && (opt_truthy (condition self) && negb ignore_condition)
        then [opt_format (condition self)] else [])%list
  /\ ((result run w = Return tt /\ dispatched 1 w (exec run w))
      \/ dispatched 0 w (exec run w)).
Proof.
  cbv zeta. unfold send_template_message, result, exec.
  destruct (disabled self); cbn [negb andb].
  { cbn. rewrite app_nil_r. split; [reflexivity|]. right. apply dispatched_refl. }
  unfold_monad.
  destruct (opt_truthy (condition self) && negb ignore_condition);
    cbn -[notify_evolution attach_printed attach_custom build_message
          format_number_value py_item].
  all: repeat pipeline_step.
  all: pipeline_leaf.
Qed.

Ltac records_leaf :=
  cbn;
  first
    [ left; split; reflexivity
    | right; eexists; split;
      [ repeat match goal with H : w_messages _ = _ |- _ => rewrite H end;
        reflexivity
      | match goal with
        | H : w_set_values _ = _ \/ _ |- _ =>
            let c := fresh "c" in
            destruct H as [H|[c H]]; rewrite H; cbn;
            [left; reflexivity | right; eexists; reflexivity]
        end ] ].

(** Backend A saves a message before it writes back, and writes back at
    most once. *)
Lemma notify_guarded_records (self : notification) (st : whatsapp_settings)
    (token : string) (content_type : option string) (data : pyval)
    (doc_data : option pydict) (w : world) :
  let w' := exec (notify_guarded self st token content_type data doc_data) w in
  ((w_messages w' = w_messages w /\ w_set_values w' = w_set_values w)
   \/ (exists m, w_messages w' = (w_messages w ++ [m])%list
                 /\ (w_set_values w' = w_set_values w
                     \/ exists c, w_set_values w' = (w_set_values w ++ [c])%list)))
  /\ w_evals w' = w_evals w.
Proof.
  unfold exec, notify_guarded, notify_try, notify_except, notify_finally,
    make_post_request.
  unfold_monad. run_cbn.
  destruct (http_post (whatsapp_http_request st token data)) as [r|e] eqn:Hpost;
    run_cbn.
  - destruct (response_ok r) eqn:Hok; run_cbn.
    + destruct (resp_plain r) as [qs|] eqn:Hplain; run_cbn.
      * destruct (negb (opt_truthy content_type)); run_cbn.
        all: repeat (host_step; run_cbn).
        all: try (exfalso; eapply plain_has_no_message_id; eassumption).
        all: rewrite ?Hok; run_cbn.
        all: repeat (host_step; run_cbn).
        all: split; [left; split; reflexivity | reflexivity].
      * destruct (negb (opt_truthy content_type)); run_cbn.
        all: repeat (host_step; run_cbn).
        all: try use_write_back_effect.
        all: repeat match goal with
                    | H : w_integration_request _ = _ |- _ => rewrite H
                    end.
        all: run_cbn; rewrite ?Hok; run_cbn.
        all: repeat (host_step; run_cbn).
        all: try congruence.
        all: split; [records_leaf | cbn; first [assumption | reflexivity]].
    + rewrite ?Hok; run_cbn. repeat (host_step; run_cbn).
      all: split; [left; split; reflexivity | reflexivity].
  - destruct (w_integration_request w) as [r0|] eqn:Hflag; run_cbn.
    + destruct (response_ok r0); run_cbn.
      all: repeat (host_step; run_cbn). all: split; [left; split; reflexivity | reflexivity].
    + split; [left; split; reflexivity | reflexivity].
Qed.

Lemma notify_guarded_dispatched (self : notification) (st : whatsapp_settings)
    (token : string) (content_type : option string) (data : pyval)
    (doc_data : option pydict) (w : world) :
  dispatched 1 w (exec (notify_guarded self st token content_type data doc_data) w).
Proof.
  pose proof (notify_guarded_counts self st token content_type data doc_data w)
    as ((l & Hl) & Hr & _).
  pose proof (notify_guarded_records self st token content_type data doc_data w)
    as [Hrec _].
  eapply dispatched_one; eassumption.
Qed.

(** ** Loops *)

Lemma for_each_cons_run {A} (body : A -> M unit unit) (a : A) (l : list A)
    (w : world) :
  for_each (a :: l) body (w, tt)
  = match result (body a) w with
    | Return _ => for_each l body (exec (body a) w, tt)
    | Raise e => (Raise e, (exec (body a) w, tt))
    end.
Proof.
  cbn [for_each]. unfold bind. rewrite (run_eq (body a) w).
  destruct (result (body a) w); reflexivity.
Qed.

(** A loop whose body posts at most one request per item posts at most as
    many as there are items, and exactly as many when every item that
    returns normally has posted one and the loop returns normally. *)
Lemma for_each_dispatched {A} (body : A -> M unit unit) :
  (forall a w,
      (result (body a) w = Return tt /\ dispatched 1 w (exec (body a) w))
      \/ dispatched 0 w (exec (body a) w)) ->
  forall l w,
    exists n, n <= List.length l
              /\ dispatched n w (exec (for_each l body) w).
Proof.
  intros Hbody. induction l as [|a l IH]; intros w.
  - exists 0. split; [reflexivity|]. apply dispatched_refl.
  - unfold exec. rewrite for_each_cons_run.
    destruct (Hbody a w) as [[Hr Hd]|Hd].
    + rewrite Hr. destruct (IH (exec (body a) w)) as (n & Hn & Hd').
      exists (1 + n). split; [cbn; lia|].
      eapply dispatched_trans; eassumption.
    + destruct (result (body a) w).
      * destruct (IH (exec (body a) w)) as (n & Hn & Hd').
        exists (0 + n). split; [cbn; lia|].
        eapply dispatched_trans; eassumption.
      * exists 0. split; [cbn; lia|]. exact Hd.
Qed.

Lemma for_each_dispatched_all {A} (body : A -> M unit unit) :
  (forall a w,
      (result (body a) w = Return tt /\ dispatched 1 w (exec (body a) w))
      \/ ((exists e, result (body a) w = Raise e)
          /\ exists n, n <= 1 /\ dispatched n w (exec (body a) w))) ->
  forall l w,
    exists n, n <= List.length l
              /\ dispatched n w (exec (for_each l body) w)
              /\ (result (for_each l body) w = Return tt -> n = List.length l).
Proof.
  intros Hbody. induction l as [|a l IH]; intros w.
  - exists 0. split; [reflexivity|]. split; [apply dispatched_refl|reflexivity].
  - unfold exec, result. rewrite for_each_cons_run.
    destruct (Hbody a w) as [[Hr Hd]|[[e Hr] (n & Hn & Hd)]]; rewrite Hr.
    + destruct (IH (exec (body a) w)) as (n & Hn & Hd' & Hall).
      exists (1 + n). split; [cbn; lia|]. split.
      * eapply dispatched_trans; eassumption.
      * intros H. cbn. f_equal. apply Hall. exact H.
    + exists n. split; [cbn; lia|]. split; [exact Hd|]. discriminate.
Qed.

Lemma for_each_evals {A} (body : A -> M unit unit) :
  (forall a w, w_evals (exec (body a) w) = w_evals w) ->
  forall l w, w_evals (exec (for_each l body) w) = w_evals w.
Proof.
  intros Hbody. induction l as [|a l IH]; intros w; [reflexivity|].
  unfold exec. rewrite for_each_cons_run.
  destruct (result (body a) w).
  - change (w_evals (exec (for_each l body) (exec (body a) w)) = w_evals w).
    now rewrite IH.
  - apply Hbody.
Qed.

(** A loop stops at the first item that raises. *)
Lemma for_each_stops {A} (body : A -> M unit unit) (a : A) (e : exn) :
  forall (before after : list A) (w : world),
    result (for_each before body) w = Return tt ->
    result (body a) (exec (for_each before body) w) = Raise e ->
    for_each (before ++ a :: after)%list body (w, tt)
    = (Raise e, (exec (body a) (exec (for_each before body) w), tt)).
Proof.
  induction before as [|b before IH]; intros after w Hb Ha.
  - cbn [app]. rewrite for_each_cons_run. cbn in Ha. now rewrite Ha.
  - assert (E : for_each (b :: before) body (w, tt)
                 = for_each before body (exec (body b) w, tt)).
    { rewrite for_each_cons_run. unfold result in Hb.
      rewrite for_each_cons_run in Hb.
      destruct (result (body b) w); [reflexivity|discriminate]. }
    cbn [app]. rewrite for_each_cons_run.
    unfold result, exec in Hb, Ha |- *. rewrite E in Hb, Ha |- *.
    rewrite for_each_cons_run in E.
    destruct (fst (body b (w, tt))) eqn:Hrb.
    + apply IH; assumption.
    + unfold result in E. rewrite Hrb in E. rewrite <- E in Hb. discriminate.
Qed.

Ltac run_step_in H :=
  match type of H with
  | context [match ?x with _ => _ end] =>
      lazymatch x with
      | context [match _ with _ => _ end] => fail
      | _ => destruct x eqn:?
      end
  end.

(** ** Backend B end to end *)

(** X1 ([notify_evolution], lines 220-361).  A call either fails on the
    settings of the sender, before anything is posted or recorded, or it
    returns normally having posted exactly one request and written exactly
    one log entry, with at most one saved message and a write-back only
    beside a saved message; no failure of the gateway, of the response body
    or of the write-back escapes as an exception. *)
Theorem notify_evolution_all_or_nothing (self : notification)
    (phone_number : string) (message_text attachment_url filename : option string)
    (doc_data : option pydict) (parameters : option (list pyval)) (w : world) :
  let run := notify_evolution self phone_number message_text attachment_url
               filename doc_data parameters in
  match get_evolution_settings (sender_number self) with
  | Raise e => result run w = Raise e /\ exec run w = w
  | Return st =>
      if negb (opt_truthy (base_url st)) || negb (opt_truthy (instance_name st))
      then result run w
           = Raise (Exn ValidationError "Evolution Phone Settings not configured")
           /\ exec run w = w
      else result run w = Return tt
           /\ dispatched 1 w (exec run w)
           /\ w_evals (exec run w) = w_evals w
  end.
Proof.
  cbv zeta.
  pose proof (notify_evolution_run self phone_number message_text attachment_url
                filename doc_data parameters w) as H.
  cbv zeta in H. revert H.
  unfold notify_evolution, result, exec. unfold bind, lift.
  destruct (get_evolution_settings (sender_number self)) as [st|e];
    [|intros _; split; reflexivity].
  cbv beta iota.
  destruct (negb (opt_truthy (base_url st)) || negb (opt_truthy (instance_name st)))
    eqn:Hst.
  { intros _. split; reflexivity. }
  pose proof (notify_evolution_guarded_counts self st phone_number message_text
                attachment_url filename doc_data parameters w) as (Hres & _).
  unfold result in Hres.
  intros [He [[_ Hd]|(e & Hr & _)]].
  - repeat split; assumption.
  - rewrite Hres in Hr. discriminate.
Qed.

(** X2 ([notify_evolution], lines 275-361).  When the HTTP call itself
    raises, the exception is swallowed: no message is saved, nothing is
    written back, and the one log entry is a failure whose error is the
    exception text, prefixed with "Connection error: " exactly when the
    exception is a RequestException. *)
Theorem evolution_transport_failure (self : notification)
    (st : evolution_phone_settings) (phone_number : string)
    (message_text attachment_url filename : option string)
    (doc_data : option pydict) (parameters : option (list pyval)) (w : world)
    (e : exn) :
  http_post (evolution_http_request st phone_number message_text
               attachment_url filename) = Raise e ->
  let run := notify_evolution_guarded self st phone_number message_text
               attachment_url filename doc_data parameters in
  let error_message :=
    if is_request_exception e then "Connection error: " ++ exn_str e
    else exn_str e in
  result run w = Return tt
  /\ w_messages (exec run w) = w_messages w
  /\ w_set_values (exec run w) = w_set_values w
  /\ w_logs (exec run w)
     = (w_logs w
        ++ [evolution_log self phone_number false PNone (PStr error_message)
              (snd (evolution_request st phone_number message_text
                      attachment_url filename))])%list
  /\ w_alerts (exec run w)
     = (w_alerts w
        ++ [{| alert_text := "Failed to trigger WhatsApp message: " ++ error_message;
               alert_indicator := Red |}])%list.
Proof.
  intros Hpost. cbv zeta.
  unfold exec, result, notify_evolution_guarded, notify_evolution_try,
    notify_evolution_except, notify_evolution_finally.
  unfold evolution_http_request in Hpost.
  unfold_monad. cbn -[evolution_request evolution_log].
  destruct (evolution_request st phone_number message_text attachment_url filename)
    as [[[url payload] content_type] mt'].
  cbn -[evolution_log]. rewrite Hpost.
  destruct (is_request_exception e); cbn -[evolution_log]; repeat split.
Qed.

Lemma evolution_accepted_run (self : notification)
    (st : evolution_phone_settings) (phone_number : string)
    (message_text attachment_url filename : option string)
    (doc_data : option pydict) (parameters : option (list pyval)) (w : world)
    (response : http_response) (body message_id : pyval) :
  http_post (evolution_http_request st phone_number message_text
               attachment_url filename) = Return response ->
  Z.eqb (status_code response) 200 || Z.eqb (status_code response) 201 = true ->
  resp_json response = Return body ->
  evolution_message_id body = Return message_id ->
  let run := notify_evolution_guarded self st phone_number message_text
               attachment_url filename doc_data parameters in
  let sent := evolution_request st phone_number message_text attachment_url
                filename in
  w_messages (exec run w)
  = (w_messages w
     ++ [{| wm_type := "Outgoing";
            wm_message := of_opt (snd sent);
            wm_to := PStr phone_number;
            wm_message_type := "Template";
            wm_message_id := message_id;
            wm_content_type := snd (fst sent);
            wm_use_template := 1;
            wm_template := template self;
            wm_template_parameters :=
              match parameters with
              | Some ps =>
                  if truthy (PList ps) then Some (json_dumps (PList ps)) else None
              | None => None
              end;
            wm_reference_doctype :=
              match doc_data with
              | Some dd =>
                  if truthy (PDict dd) then Some (dict_get dd "doctype" PNone)
                  else None
              | None => None
              end;
            wm_reference_name :=
              match doc_data with
              | Some dd =>
                  if truthy (PDict dd) then Some (dict_get dd "name" PNone)
                  else None
              | None => None
              end |}])%list
  /\ w_logs (exec run w)
     = (w_logs w ++ [evolution_log self phone_number true body PNone (snd sent)])%list.
Proof.
  intros Hpost Hstatus Hjson Hid. cbv zeta.
  unfold exec, notify_evolution_guarded, notify_evolution_try,
    notify_evolution_except, notify_evolution_finally.
  unfold evolution_http_request in Hpost.
  unfold_monad. cbn -[evolution_request write_back evolution_log].
  destruct (evolution_request st phone_number message_text attachment_url filename)
    as [[[url payload] content_type] mt'].
  cbn -[write_back evolution_log]. rewrite Hpost, Hjson, Hstatus, Hid.
  cbn -[write_back evolution_log].
  use_write_back_effect.
  all: repeat (host_step; cbn -[evolution_log]).
  all: repeat match goal with
              | H : w_messages _ = _ |- _ => rewrite H
              | H : w_logs _ = _ |- _ => rewrite H
              end.
  all: cbn; split; [|reflexivity].
  all: destruct doc_data as [[|? ?]|]; reflexivity.
Qed.

(** X3 ([notify_evolution], lines 239-361).  For a response with status 200
    or 201 whose body is JSON and yields a message id, the saved message is
    the one that was posted: it is addressed to the posted number, carries
    the posted text ("No Text" for a text message without one), the content
    type of the chosen endpoint, the id read from the body and the
    reference to the record; the log entry is a success carrying the body.
    This holds whatever the write-back does afterwards. *)
Theorem evolution_accepted_record (self : notification)
    (st : evolution_phone_settings) (phone_number : string)
    (message_text attachment_url filename : option string)
    (doc_data : option pydict) (parameters : option (list pyval)) (w : world)
    (response : http_response) (body message_id : pyval) :
  http_post (evolution_http_request st phone_number message_text
               attachment_url filename) = Return response ->
  Z.eqb (status_code response) 200 || Z.eqb (status_code response) 201 = true ->
  resp_json response = Return body ->
  evolution_message_id body = Return message_id ->
  let run := notify_evolution_guarded self st phone_number message_text
               attachment_url filename doc_data parameters in
  let sent := evolution_request st phone_number message_text attachment_url
                filename in
  w_messages (exec run w)
  = (w_messages w
     ++ [{| wm_type := "Outgoing";
            wm_message := of_opt (snd sent);
            wm_to := PStr phone_number;
            wm_message_type := "Template";
            wm_message_id := message_id;
            wm_content_type := snd (fst sent);
            wm_use_template := 1;
            wm_template := template self;
            wm_template_parameters :=
              match parameters with
              | Some ps =>
                  if truthy (PList ps) then Some (json_dumps (PList ps)) else None
              | None => None
              end;
            wm_reference_doctype :=
              match doc_data with
              | Some dd =>
                  if truthy (PDict dd) then Some (dict_get dd "doctype" PNone)
                  else None
              | None => None
              end;
            wm_reference_name :=
              match doc_data with
              | Some dd =>
                  if truthy (PDict dd) then Some (dict_get dd "name" PNone)
                  else None
              | None => None
              end |}])%list
  /\ w_logs (exec run w)
     = (w_logs w ++ [evolution_log self phone_number true body PNone (snd sent)])%list
  /\ (opt_truthy attachment_url = false ->
      snd (fst sent) = "text"
      /\ snd sent = Some (match message_text with Some t => t | None => "No Text" end)).
Proof.
  intros Hpost Hstatus Hjson Hid. cbv zeta.
  destruct (evolution_accepted_run self st phone_number message_text attachment_url
              filename doc_data parameters w response body message_id
              Hpost Hstatus Hjson Hid) as [Hm Hl].
  split; [exact Hm|]. split; [exact Hl|].
  intros Hatt. unfold evolution_request. rewrite Hatt.
  destruct message_text; split; reflexivity.
Qed.

(** X4 ([notify_evolution], lines 279-308).  An accepted response whose
    JSON body has neither a "key" nor a "message" member still counts as
    sent: a message is saved, with the empty string as its message id. *)
Theorem evolution_accepted_without_id (self : notification)
    (st : evolution_phone_settings) (phone_number : string)
    (message_text attachment_url filename : option string)
    (doc_data : option pydict) (parameters : option (list pyval)) (w : world)
    (response : http_response) (body : pydict) :
  http_post (evolution_http_request st phone_number message_text
               attachment_url filename) = Return response ->
  Z.eqb (status_code response) 200 || Z.eqb (status_code response) 201 = true ->
  resp_json response = Return (PDict body) ->
  lookup "key" body = None ->
  lookup "message" body = None ->
  let run := notify_evolution_guarded self st phone_number message_text
               attachment_url filename doc_data parameters in
  exists m,
    w_messages (exec run w) = (w_messages w ++ [m])%list
    /\ wm_message_id m = PStr ""
    /\ wm_to m = PStr phone_number
    /\ exists l,
         w_logs (exec run w) = (w_logs w ++ [l])%list
         /\ dict_get (match log_meta_data l with PDict d => d | _ => [] end)
              "success" PNone = PBool true.
Proof.
  intros Hpost Hstatus Hjson Hkey Hmsg. cbv zeta.
  assert (Hid : evolution_message_id (PDict body) = Return (PStr "")).
  { unfold evolution_message_id, py_get, dict_get. rewrite Hkey, Hmsg. reflexivity. }
  destruct (evolution_accepted_run self st phone_number message_text attachment_url
              filename doc_data parameters w response (PDict body) (PStr "")
              Hpost Hstatus Hjson Hid) as [Hm Hl].
  eexists. split; [exact Hm|]. split; [reflexivity|]. split; [reflexivity|].
  eexists. split; [exact Hl|]. reflexivity.
Qed.

(** ** Backend A end to end *)

(** X5 ([notify], lines 363-445).  A call either fails on the settings or
    on the token, before anything is posted or recorded, or it posts
    exactly one request and writes exactly one log entry, with at most one
    saved message and a write-back only beside a saved message; this holds
    for every answer of the host, also when the call ends in an exception. *)
Theorem notify_posts_once (self : notification) (content_type : option string)
    (data : pyval) (doc_data : option pydict) (w : world) :
  let run := notify self content_type data doc_data in
  match get_whatsapp_settings with
  | Raise e => result run w = Raise e /\ exec run w = w
  | Return st =>
      match ws_token st with
      | Raise e => result run w = Raise e /\ exec run w = w
      | Return token =>
          dispatched 1 w (exec run w)
          /\ w_requests (exec run w)
             = (w_requests w ++ [whatsapp_http_request st token data])%list
          /\ w_evals (exec run w) = w_evals w
      end
  end.
Proof.
  cbv zeta. unfold notify, result, exec. unfold bind, lift.
  destruct get_whatsapp_settings as [st|e]; [|split; reflexivity].
  cbv beta iota.
  destruct (ws_token st) as [token|e]; [|split; reflexivity].
  cbv beta iota.
  pose proof (notify_guarded_dispatched self st token content_type data doc_data w)
    as Hd.
  pose proof (notify_guarded_counts self st token content_type data doc_data w)
    as (_ & Hr & _).
  pose proof (notify_guarded_records self st token content_type data doc_data w)
    as (_ & He).
  repeat split; assumption.
Qed.

(** X6 ([notify], lines 374-445).  When posting fails, by a transport
    error or by an error status, and [frappe.flags.integration_request]
    holds no response that counts as true, the exception is swallowed: the
    call returns normally, saves no message, writes nothing back, and logs
    the text of the exception as the error; the body of the response is not
    read. *)
Theorem notify_failure_logged (self : notification) (st : whatsapp_settings)
    (token : string) (content_type : option string) (data : pyval)
    (doc_data : option pydict) (w : world) (e : exn) :
  let post := make_post_request (F := unit) (whatsapp_http_request st token data) in
  result post w = Raise e ->
  match w_integration_request (exec post w) with
  | Some r => response_ok r = false
  | None => True
  end ->
  let run := notify_guarded self st token content_type data doc_data in
  result run w = Return tt
  /\ w_messages (exec run w) = w_messages w
  /\ w_set_values (exec run w) = w_set_values w
  /\ w_logs (exec run w)
     = (w_logs w
        ++ [{| log_template := template self;
               log_meta_data := PDict [("error", PStr (exn_str e))] |}])%list
  /\ w_alerts (exec run w)
     = (w_alerts w
        ++ [{| alert_text := "Failed to trigger whatsapp message: " ++ exn_str e;
               alert_indicator := Red |}])%list.
Proof.
  cbv zeta.
  unfold exec, result, notify_guarded, notify_try, notify_except, notify_finally,
    make_post_request.
  unfold_monad. run_cbn.
  destruct (http_post (whatsapp_http_request st token data)) as [r|e0] eqn:Hpost;
    run_cbn.
  - destruct (response_ok r) eqn:Hok; run_cbn.
    + intros _ Hflag. exfalso.
      destruct (resp_plain r); [|destruct (resp_json r)]; cbn in Hflag; congruence.
    + intros Hr _. inversion Hr; subst e. rewrite Hok. run_cbn. repeat split.
  - intros Hr Hflag. inversion Hr; subst e0.
    destruct (w_integration_request w) as [r0|]; run_cbn.
    + rewrite Hflag. run_cbn. repeat split.
    + repeat split.
Qed.

(** X7 ([notify], lines 390-445).  When an accepted response has a JSON
    body without "messages", the handler looks for "error" in the same
    body; if that is missing too, the error of the handler leaves [notify]
    as an exception.  The log entry is still written, with the text of the
    first error, and no message is saved. *)
Theorem notify_handler_error_escapes (self : notification)
    (st : whatsapp_settings) (token : string) (content_type : option string)
    (data : pyval) (doc_data : option pydict) (w : world)
    (response : http_response) (body : pyval) (parameters : option string)
    (tpl to : pyval) (e1 e2 : exn) :
  http_post (whatsapp_http_request st token data) = Return response ->
  response_ok response = true ->
  resp_plain response = None ->
  resp_json response = Return body ->
  template_parameters data = Return parameters ->
  py_item data "template" = Return tpl ->
  py_item data "to" = Return to ->
  py_item body "messages" = Raise e1 ->
  py_item body "error" = Raise e2 ->
  let run := notify_guarded self st token content_type data doc_data in
  result run w = Raise e2
  /\ w_messages (exec run w) = w_messages w
  /\ w_set_values (exec run w) = w_set_values w
  /\ w_logs (exec run w)
     = (w_logs w
        ++ [{| log_template := template self;
               log_meta_data := PDict [("error", PStr (exn_str e1))] |}])%list.
Proof.
  intros Hpost Hok Hplain Hjson Hps Htpl Hto Hmsgs Herr. cbv zeta.
  unfold exec, result, notify_guarded, notify_try, notify_except, notify_finally,
    make_post_request.
  unfold_monad. run_cbn. rewrite Hpost. run_cbn. rewrite Hok, Hplain. run_cbn.
  rewrite Hjson.
  destruct (negb (opt_truthy content_type)); run_cbn.
  all: rewrite Hps; run_cbn; rewrite Htpl; run_cbn; rewrite Hto; run_cbn.
  all: rewrite Hmsgs; run_cbn; rewrite Hok; run_cbn; rewrite Hjson; run_cbn.
  all: rewrite Herr; run_cbn; repeat split.
Qed.

(** X24 ([notify], lines 375-445).  For an accepted JSON response that
    carries a message id, the saved message holds the text of the template
    part of the payload, the addressee of the payload, the id of the
    response and, as its content type, the one set on the rule or "text"
    when none is set.  Without a record to write back to, the call returns
    normally and the log entry holds the body of the response. *)
Theorem notify_accepted_record (self : notification) (st : whatsapp_settings)
    (token : string) (content_type : option string) (data : pyval)
    (doc_data : option pydict) (w : world)
    (response : http_response) (body : pyval) (parameters : option string)
    (tpl to messages m0 message_id : pyval) :
  http_post (whatsapp_http_request st token data) = Return response ->
  response_ok response = true ->
  resp_plain response = None ->
  resp_json response = Return body ->
  template_parameters data = Return parameters ->
  py_item data "template" = Return tpl ->
  py_item data "to" = Return to ->
  py_item body "messages" = Return messages ->
  py_first messages = Return m0 ->
  py_item m0 "id" = Return message_id ->
  let run := notify_guarded self st token content_type data doc_data in
  w_messages (exec run w)
  = (w_messages w
     ++ [{| wm_type := "Outgoing";
            wm_message := PStr (py_str tpl);
            wm_to := to;
            wm_message_type := "Template";
            wm_message_id := message_id;
            wm_content_type :=
              if opt_truthy content_type then opt_format content_type else "text";
            wm_use_template := 1;
            wm_template := template self;
            wm_template_parameters := parameters;
            wm_reference_doctype :=
              match doc_data with
              | Some dd =>
                  if truthy (PDict dd) then Some (dict_get dd "doctype" PNone)
                  else None
              | None => None
              end;
            wm_reference_name :=
              match doc_data with
              | Some dd =>
                  if truthy (PDict dd) then Some (dict_get dd "name" PNone)
                  else None
              | None => None
              end |}])%list
  /\ (doc_data = None ->
      result run w = Return tt
      /\ w_logs (exec run w)
         = (w_logs w
            ++ [{| log_template := template self; log_meta_data := body |}])%list).
Proof.
  intros Hpost Hok Hplain Hjson Hps Htpl Hto Hmsgs Hm0 Hid. cbv zeta.
  unfold exec, result, notify_guarded, notify_try, notify_except, notify_finally,
    make_post_request.
  unfold_monad. run_cbn. rewrite Hpost. run_cbn. rewrite Hok, Hplain. run_cbn.
  rewrite Hjson.
  destruct (opt_truthy content_type) eqn:Hct; run_cbn.
  all: rewrite Hps; run_cbn; rewrite Htpl; run_cbn; rewrite Hto; run_cbn.
  all: rewrite Hmsgs; run_cbn; rewrite Hm0; run_cbn; rewrite Hid; run_cbn.
  all: split;
    [|intros ->; cbn; rewrite ?Hok; cbn; rewrite ?Hjson; split; reflexivity].
  all: use_write_back_effect.
  all: repeat match goal with
              | H : w_integration_request _ = _ |- _ => rewrite H
              end.
  all: run_cbn; rewrite ?Hok; run_cbn; rewrite ?Hjson; run_cbn.
  all: repeat (host_step; run_cbn).
  all: repeat match goal with
              | H : w_messages _ = _ |- _ => rewrite H
              end.
  all: cbn; destruct doc_data as [[|? ?]|]; reflexivity.
Qed.

(** ** The send pipeline *)

(** X8 ([send_template_message], lines 91-218).  For every record and every
    answer of the host, one call posts at most one request.  If it posts
    one, it also writes exactly one log entry and returns normally;
    otherwise it leaves no request, log entry, message or write-back
    behind, whether it returns or raises.  The condition is evaluated
    exactly once when the rule is enabled, has a condition and the
    condition is not overridden, and never otherwise. *)
Theorem send_template_message_at_most_one (self : notification) (doc : document)
    (phone_no default_template : pyval) (ignore_condition : bool) (w : world) :
  let run := send_template_message self doc phone_no default_template
               ignore_condition in
  (exists n, n <= 1
             /\ dispatched n w (exec run w)
             /\ (n = 1 -> result run w = Return tt))
  /\ w_evals (exec run w)
     = (w_evals w
        ++ if negb (disabled self)
              && (opt_truthy (condition self) && negb ignore_condition)
           then [opt_format (condition self)] else [])%list.
Proof.
  cbv zeta.
  destruct (send_template_message_run self doc phone_no default_template
              ignore_condition w) as [He [[Hr Hd]|Hd]].
  - split; [|exact He]. exists 1. split; [lia|]. split; [exact Hd|]. intros _. exact Hr.
  - split; [|exact He]. exists 0. split; [lia|]. split; [exact Hd|]. discriminate.
Qed.

Lemma missing_phone_run (self : notification) (doc : document)
    (phone_no default_template : pyval) (ignore_condition : bool) (w : world) :
  disabled self = false ->
  opt_truthy (condition self) && negb ignore_condition = false ->
  truthy phone_no = false ->
  (opt_truthy (field_name self) = false
   \/ exists v, py_item (PDict (doc_as_dict doc)) (opt_format (field_name self))
                = Return v
                /\ truthy v = false) ->
  send_template_message self doc phone_no default_template ignore_condition (w, tt)
  = (Raise (Exn ValidationError "Phone number not found"), (w, tt)).
Proof.
  intros Hd Hc Hp Hf. unfold send_template_message. rewrite Hd, Hc.
  unfold_monad. cbn -[py_item].
  destruct Hf as [Hf|(v & Hv & Hf)].
  - rewrite Hf. cbn. rewrite Hp. reflexivity.
  - destruct (opt_truthy (field_name self)).
    + rewrite Hp, Hv. cbn. rewrite Hf. reflexivity.
    + cbn. rewrite Hp. reflexivity.
Qed.

(** X9 ([send_template_message], lines 104-111).  When no phone number is
    passed and the rule names no phone field, or the field of the record is
    empty, the call raises "Phone number not found" and leaves the world
    as it was. *)
Theorem missing_phone_aborts (self : notification) (doc : document)
    (phone_no default_template : pyval) (ignore_condition : bool) (w : world) :
  disabled self = false ->
  opt_truthy (condition self) && negb ignore_condition = false ->
  truthy phone_no = false ->
  (opt_truthy (field_name self) = false
   \/ exists v, py_item (PDict (doc_as_dict doc)) (opt_format (field_name self))
                = Return v
                /\ truthy v = false) ->
  send_template_message self doc phone_no default_template ignore_condition (w, tt)
  = (Raise (Exn ValidationError "Phone number not found"), (w, tt)).
Proof. apply missing_phone_run. Qed.

(** X10 ([send_template_message], lines 116-123).  With a phone number at
    hand, when no template is passed and none is stored under the name of
    the rule, the call raises "Template <name> not found" and leaves the
    world as it was. *)
Theorem missing_template_aborts (self : notification) (doc : document)
    (phone_no : string) (default_template : pyval) (ignore_condition : bool)
    (w : world) :
  disabled self = false ->
  opt_truthy (condition self) && negb ignore_condition = false ->
  phone_no <> "" ->
  truthy default_template = false ->
  truthy (db_get_template (template self)) = false ->
  send_template_message self doc (PStr phone_no) default_template
    ignore_condition (w, tt)
  = (Raise (Exn ValidationError ("Template " ++ template self ++ " not found")),
     (w, tt)).
Proof.
  intros Hd Hc Hp Ht Hdb. unfold send_template_message. rewrite Hd, Hc.
  destruct phone_no as [|c p]; [congruence|].
  unfold_monad. cbn -[py_item format_number].
  destruct (opt_truthy (field_name self)); cbn -[format_number].
  all: rewrite Ht, Hdb; reflexivity.
Qed.

(** X11 ([send_template_message], lines 126-144).  A rule that maps fields
    to parameters but has no message text fails when it substitutes the
    first parameter: [None] has no [replace].  The error is raised before
    anything is posted or recorded. *)
Theorem fields_without_text_aborts (self : notification) (doc : document)
    (phone_no : string) (default_template : pyval) (ignore_condition : bool)
    (w : world) (parameters : list pyval) :
  disabled self = false ->
  opt_truthy (condition self) && negb ignore_condition = false ->
  phone_no <> "" ->
  truthy default_template = true ->
  fields self <> [] ->
  code self = None ->
  collect_parameters doc (doc_as_dict doc) (fields self) = Return parameters ->
  send_template_message self doc (PStr phone_no) default_template
    ignore_condition (w, tt)
  = (Raise (Exn AttributeError "'NoneType' object has no attribute 'replace'"),
     (w, tt)).
Proof.
  intros Hd Hc Hp Ht Hf Hcode Hps. unfold send_template_message. rewrite Hd, Hc.
  destruct phone_no as [|c p]; [congruence|].
  assert (Hb : build_message self doc (doc_as_dict doc)
               = Raise (Exn AttributeError
                          "'NoneType' object has no attribute 'replace'")).
  { unfold build_message. destruct (fields self); [congruence|].
    rewrite Hps, Hcode. reflexivity. }
  unfold_monad. cbn -[py_item format_number build_message].
  destruct (opt_truthy (field_name self)); cbn -[format_number build_message].
  all: rewrite Ht; cbn -[format_number build_message]; rewrite Ht;
    cbn -[format_number build_message]; rewrite Hb; reflexivity.
Qed.

(** X12 ([send_template_message], lines 193-207).  With a site address
    that starts with "http", the address of a custom attachment read from a
    field of the record is that value when it starts with "http", and
    otherwise the site address, the value, "&key=" and the share key of the
    record; the file name is the one configured on the rule. *)
Theorem attach_from_field_url (self : notification) (doc : document)
    (doc_data : pydict) (w : world) (field file_url : string) :
  startswith "http" get_url = true ->
  attach_from_field self = Some field -> field <> "" ->
  py_item (PDict doc_data) field = Return (PStr file_url) ->
  attach_custom self doc doc_data (w, tt)
  = (Return (Some (if startswith "http" file_url then file_url
                   else get_url ++ file_url ++ "&key=" ++ doc_share_key doc),
             file_name self),
     (w, tt)).
Proof.
  intros Hurl Hf Hne Hitem. unfold attach_custom. rewrite Hf.
  assert (Ht : opt_truthy (Some field) = true)
    by (destruct field; [congruence|reflexivity]).
  rewrite Ht. unfold_monad. cbn [opt_format]. rewrite Hitem.
  cbn -[startswith append].
  destruct (startswith "http" file_url) eqn:Hs; cbn -[startswith append].
  - rewrite Hs. reflexivity.
  - rewrite (startswith_prefix "http" get_url _ Hurl). reflexivity.
Qed.

(** X13 ([send_template_message], lines 150-191).  When printing the
    record fails, nothing is attached and the world is left as it was: an
    error whose text contains "HostNotFoundError", or "network error" in any
    letter case, is replaced by a validation error with the translated hint
    about the site address; any other error is raised again unchanged. *)
Theorem print_failure_is_reported (doc_data : pydict) (w : world)
    (doctype name : pyval) (meta : bool * option string) (e : exn) :
  py_item (PDict doc_data) "doctype" = Return doctype ->
  py_item (PDict doc_data) "name" = Return name ->
  get_doctype doctype = Return meta ->
  (forall print_format, attach_print doctype name print_format = Raise e) ->
  attach_printed doc_data (w, tt)
  = (Raise (if contains "HostNotFoundError" (exn_str e)
               || contains "network error" (lower (exn_str e))
            then Exn ValidationError (translate pdf_error_hint)
            else e),
     (w, tt)).
Proof.
  intros Hdt Hname Hmeta Hprint. unfold attach_printed.
  unfold_monad. rewrite Hdt, Hmeta, Hname, Hprint.
  destruct (contains "HostNotFoundError" (exn_str e)
            || contains "network error" (lower (exn_str e))); reflexivity.
Qed.

(** ** Batches *)

Lemma for_each_dispatched_sum {A} (body : A -> M unit unit) (bound : A -> nat) :
  (forall a w, exists n, n <= bound a /\ dispatched n w (exec (body a) w)) ->
  forall l w,
    exists n, n <= list_sum (map bound l)
              /\ dispatched n w (exec (for_each l body) w).
Proof.
  intros Hbody. induction l as [|a l IH]; intros w.
  - exists 0. split; [reflexivity|]. apply dispatched_refl.
  - unfold exec. rewrite for_each_cons_run.
    change (list_sum (map bound (a :: l)))
      with (bound a + list_sum (map bound l)).
    destruct (Hbody a w) as (n & Hn & Hd).
    destruct (result (body a) w).
    + destruct (IH (exec (body a) w)) as (m & Hm & Hd').
      exists (n + m). split; [lia|].
      eapply dispatched_trans; eassumption.
    + exists n. split; [lia|]. exact Hd.
Qed.

Lemma get_documents_for_today_bound (self : notification) (w : world) :
  exists n,
    n <= List.length (filter (selected self) (db_table (reference_doctype self)))
    /\ dispatched n w (exec (get_documents_for_today self) w).
Proof.
  unfold get_documents_for_today.
  apply for_each_dispatched. intros doc w0.
  destruct (send_template_message_run self doc PNone PNone false w0) as [_ H].
  exact H.
Qed.

(** X14 ([get_documents_for_today], lines 460-484).  One run of a rule
    posts at most one request for each record of the window, writes
    exactly one log entry for each request it posts, saves at most one
    message per request and writes back at most once per saved message,
    whatever the host answers and whether or not the run ends in an
    exception. *)
Theorem scheduler_batch_bound (self : notification) (w : world) :
  let run := get_documents_for_today self in
  exists n,
    n <= List.length (filter (selected self) (db_table (reference_doctype self)))
    /\ dispatched n w (exec run w).
Proof. cbv zeta. apply get_documents_for_today_bound. Qed.

(** X15 ([get_documents_for_today], lines 481-483, with lines 104-111 of
    [send_template_message]).  The records of the window are processed in
    order and the first one without a phone number ends the run: the
    error "Phone number not found" leaves the method, the records before
    it have been processed and the records after it are not touched. *)
Theorem scheduler_stops_at_missing_phone (self : notification) (w : world)
    (before after : list document) (d : document) :
  disabled self = false ->
  opt_truthy (condition self) = false ->
  filter (selected self) (db_table (reference_doctype self))
  = (before ++ d :: after)%list ->
  let earlier :=
    for_each before (fun doc => send_template_message self doc PNone PNone false) in
  result earlier w = Return tt ->
  (opt_truthy (field_name self) = false
   \/ exists v, py_item (PDict (doc_as_dict d)) (opt_format (field_name self))
                = Return v
                /\ truthy v = false) ->
  get_documents_for_today self (w, tt)
  = (Raise (Exn ValidationError "Phone number not found"), (exec earlier w, tt)).
Proof.
  intros Hd Hc Hsel earlier Hbefore Hphone.
  assert (Hc' : opt_truthy (condition self) && negb false = false)
    by (rewrite Hc; reflexivity).
  pose proof (missing_phone_run self d PNone PNone false (exec earlier w) Hd Hc' eq_refl Hphone) as Hrun.
  unfold get_documents_for_today. rewrite Hsel.
  rewrite (for_each_stops
             (fun doc => send_template_message self doc PNone PNone false)
             d (Exn ValidationError "Phone number not found") before after w
             Hbefore).
  - unfold exec at 1. fold earlier. rewrite Hrun. reflexivity.
  - unfold result. fold earlier. rewrite Hrun. reflexivity.
Qed.

(** X16 ([trigger_notifications], lines 499-510).  During an import or a
    patch, and for any method other than "daily", the scheduler hook does
    nothing.  Otherwise it runs the enabled "Days Before" and "Days After"
    rules only, and posts at most one request per record in the window of
    each such rule, with one log entry per request. *)
Theorem trigger_notifications_bound (method : string) (w : world) :
  let run := trigger_notifications method in
  (in_import || in_patch = true \/ method <> "daily" ->
   run (w, tt) = (Return tt, (w, tt)))
  /\ exists n,
       n <= list_sum
              (map (fun rule =>
                      List.length
                        (filter (selected rule) (db_table (reference_doctype rule))))
                 (filter scheduled_rule all_notifications))
       /\ dispatched n w (exec run w).
Proof.
  cbv zeta. unfold trigger_notifications. split.
  - intros [H|H]; [rewrite H; reflexivity|].
    destruct (in_import || in_patch); [reflexivity|].
    destruct (String.eqb_spec method "daily"); [contradiction|reflexivity].
  - destruct (in_import || in_patch).
    { exists 0. split; [lia|]. apply dispatched_refl. }
    destruct (String.eqb method "daily").
    + apply for_each_dispatched_sum. intros rule w0.
      apply get_documents_for_today_bound.
    + exists 0. split; [lia|]. apply dispatched_refl.
Qed.

(** X17 ([call_trigger_notifications], lines 487-497).  The whitelisted
    entry point runs the daily tick.  An exception of the tick is logged
    once, under the title "Error in call_trigger_notifications", and then
    raised again unchanged; what the tick did before failing stays done.
    A tick that returns normally logs no error. *)
Theorem call_trigger_notifications_reraises (w : world) (errors : list string) :
  let tick := trigger_notifications "daily" in
  call_trigger_notifications (w, errors)
  = match result tick w with
    | Return _ => (Return tt, (exec tick w, errors))
    | Raise e =>
        (Raise e,
         (exec tick w, (errors ++ ["Error in call_trigger_notifications"])%list))
    end.
Proof.
  cbv zeta. unfold call_trigger_notifications, try_except, call, assign, bind, raise.
  rewrite (run_eq (trigger_notifications "daily") w).
  destruct (result (trigger_notifications "daily") w) as [[]|e]; reflexivity.
Qed.

Lemma notify_run (self : notification) (content_type : option string)
    (data : pyval) (doc_data : option pydict) (w : world) :
  let run := notify self content_type data doc_data in
  w_evals (exec run w) = w_evals w
  /\ (dispatched 1 w (exec run w)
      \/ ((exists e, result run w = Raise e) /\ exec run w = w)).
Proof.
  cbv zeta. unfold notify, result, exec. unfold bind, lift.
  destruct get_whatsapp_settings as [st|e];
    [|split; [reflexivity|right; split; [now exists e|reflexivity]]].
  cbv beta iota.
  destruct (ws_token st) as [token|e];
    [|split; [reflexivity|right; split; [now exists e|reflexivity]]].
  cbv beta iota.
  pose proof (notify_guarded_dispatched self st token content_type data doc_data w)
    as Hd.
  pose proof (notify_guarded_records self st token content_type data doc_data w)
    as (_ & He).
  split; [exact He|]. left. exact Hd.
Qed.

Lemma send_simple_template_run (self : notification)
    (contact_list : list string) (template : pydict) (w : world) :
  let run := send_simple_template self contact_list template in
  (exists n,
      n <= List.length contact_list
      /\ dispatched n w (exec run w)
      /\ (result run w = Return tt -> n = List.length contact_list))
  /\ w_evals (exec run w) = w_evals w.
Proof.
  cbv zeta. unfold send_simple_template. split.
  - apply for_each_dispatched_all. intros contact w0.
    destruct (dict_get template "header_type" (PStr "text")) as [| | |h| | | |];
      try (right; split; [eexists; reflexivity
                         |exists 0; split; [lia|apply dispatched_refl]]).
    match goal with
    | |- context [notify ?s ?c ?d ?dd] =>
        destruct (notify_run s c d dd w0) as [_ [Hd|[[e He] Hw]]];
        destruct (result (notify s c d dd) w0) as [[]|e'] eqn:Hr
    end.
    + left. split; [reflexivity|exact Hd].
    + right. split; [now exists e'|]. exists 1. split; [lia|exact Hd].
    + discriminate.
    + right. split; [now exists e'|]. exists 0. split; [lia|].
      rewrite Hw. apply dispatched_refl.
  - apply for_each_evals. intros contact w0.
    destruct (dict_get template "header_type" (PStr "text")); try reflexivity.
    match goal with
    | |- context [notify ?s ?c ?d ?dd] =>
        destruct (notify_run s c d dd w0) as [He _]; exact He
    end.
Qed.

(** The contacts are served from the first on: the requests posted are
    those of an initial part of the list, in the order of the list. *)
Lemma send_simple_template_requests (self : notification) (template : pydict)
    (st : whatsapp_settings) (token header_type : string) :
  get_whatsapp_settings = Return st ->
  ws_token st = Return token ->
  dict_get template "header_type" (PStr "text") = PStr header_type ->
  forall (contact_list : list string) (w : world),
    let run := send_simple_template self contact_list template in
    let payload (contact : string) :=
      PDict [("messaging_product", PStr "whatsapp");
             ("to", PStr (format_number contact));
             ("type", PStr "template");
             ("template",
              PDict [("name", dict_get template "actual_name" PNone);
                     ("language",
                      PDict [("code", dict_get template "language_code" PNone)]);
                     ("components", PList [])])] in
    exists n,
      n <= List.length contact_list
      /\ w_requests (exec run w)
         = (w_requests w
            ++ map (fun contact => whatsapp_http_request st token (payload contact))
                 (firstn n contact_list))%list
      /\ dispatched n w (exec run w)
      /\ (result run w = Return tt -> n = List.length contact_list)
      /\ (n < List.length contact_list -> exists e, result run w = Raise e).
Proof.
  intros Hst Htok Hh contact_list. cbv zeta. unfold send_simple_template.
  rewrite Hh.
  induction contact_list as [|c cs IH]; intros w.
  - exists 0. split; [reflexivity|]. split; [cbn; now rewrite app_nil_r|].
    split; [apply dispatched_refl|]. split; [reflexivity|]. cbn. lia.
  - unfold exec, result. rewrite for_each_cons_run. cbv beta.
    match goal with
    | |- context [result (notify ?s ?ct ?d ?dd) w] =>
        assert (Hn : notify s ct d dd (w, tt)
                     = notify_guarded s st token ct d dd (w, tt))
          by (unfold notify, bind, lift; rewrite Hst; cbv beta iota;
              rewrite Htok; reflexivity);
        pose proof (notify_guarded_counts s st token ct d dd w) as (_ & Hr & _);
        pose proof (notify_guarded_dispatched s st token ct d dd w) as Hd;
        unfold exec in Hr, Hd; rewrite <- Hn in Hr, Hd;
        pose proof (IH (exec (notify s ct d dd) w))
          as (n & Hn' & Hreq & Hdisp & Hall & Hearly);
        unfold exec, result in Hreq, Hdisp, Hall, Hearly;
        unfold exec, result;
        destruct (fst (notify s ct d dd (w, tt))) as [[]|e] eqn:Hres
    end.
    + exists (S n). split; [cbn; lia|]. split.
      * rewrite Hreq, Hr. cbn [firstn map].
        rewrite <- app_assoc. reflexivity.
      * split; [exact (dispatched_trans 1 n _ _ _ Hd Hdisp)|].
        split; [intros H; cbn; f_equal; exact (Hall H)|].
        intros H. apply Hearly. cbn in H. lia.
    + exists 1. split; [cbn; lia|]. split.
      * cbn [fst snd firstn map]. exact Hr.
      * split; [exact Hd|]. split; [discriminate|]. intros _. now exists e.
Qed.

(** X18 ([send_simple_template], lines 72-88).  Contacts are served in the
    order of the list, one request and one log entry each: the requests
    posted are those of the first n contacts, in that order, each with the
    payload built for its contact.  n is the whole list when the batch
    returns normally; when it stops earlier, it ends in an exception.  The
    batch never evaluates the condition of the rule. *)
Theorem send_simple_template_batch (self : notification)
    (contact_list : list string) (template : pydict) (w : world) :
  let run := send_simple_template self contact_list template in
  let payload (contact : string) :=
    PDict [("messaging_product", PStr "whatsapp");
           ("to", PStr (format_number contact));
           ("type", PStr "template");
           ("template",
            PDict [("name", dict_get template "actual_name" PNone);
                   ("language",
                    PDict [("code", dict_get template "language_code" PNone)]);
                   ("components", PList [])])] in
  (exists n,
      n <= List.length contact_list
      /\ dispatched n w (exec run w)
      /\ (result run w = Return tt -> n = List.length contact_list))
  /\ w_evals (exec run w) = w_evals w
  /\ (forall (st : whatsapp_settings) (token header_type : string),
         get_whatsapp_settings = Return st ->
         ws_token st = Return token ->
         dict_get template "header_type" (PStr "text") = PStr header_type ->
         exists n,
           n <= List.length contact_list
           /\ w_requests (exec run w)
              = (w_requests w
                 ++ map (fun contact =>
                           whatsapp_http_request st token (payload contact))
                      (firstn n contact_list))%list
           /\ dispatched n w (exec run w)
           /\ (result run w = Return tt -> n = List.length contact_list)
           /\ (n < List.length contact_list -> exists e, result run w = Raise e)).
Proof.
  cbv zeta.
  destruct (send_simple_template_run self contact_list template w) as [Hb He].
  split; [exact Hb|]. split; [exact He|].
  intros st token header_type Hst Htok Hh.
  exact (send_simple_template_requests self template st token header_type
           Hst Htok Hh contact_list w).
Qed.

(** X19 ([send_scheduled_message], lines 47-68).  A script that raises
    ends the method before anything is sent.  Otherwise the contact list
    goes before the data list: with contacts the batch is bounded by their
    number, without them by the number of data rows.  Every request posted
    has its log entry, and the condition is never evaluated as an
    expression on a record, since every send of the method overrides it. *)
Theorem send_scheduled_message_batch (self : notification)
    (contact_list : list string) (data_list : list pydict) (w : world) :
  let run := send_scheduled_message self contact_list data_list in
  match safe_exec (condition self) self contact_list data_list with
  | Raise e => run (w, tt) = (Raise e, (w, tt))
  | Return (_, contacts, rows) =>
      (exists n,
          n <= match contacts with
               | [] => List.length rows
               | _ :: _ => List.length contacts
               end
          /\ dispatched n w (exec run w))
      /\ w_evals (exec run w) = w_evals w
  end.
Proof.
  cbv zeta. unfold send_scheduled_message, exec. unfold bind at 1 2, lift.
  destruct (safe_exec (condition self) self contact_list data_list)
    as [[[rule contacts] rows]|e]; [|reflexivity].
  cbv beta iota. unfold bind at 1 2.
  destruct (template_usable (db_get_template (template rule))) as [[|]|e].
  2,3: split; [exists 0; split; [lia|apply dispatched_refl]|reflexivity].
  cbv beta iota.
  destruct contacts as [|c cs].
  - destruct rows as [|d ds].
    { split; [exists 0; split; [lia|apply dispatched_refl]|reflexivity]. }
    assert (Hbody : forall data w0,
               let body :=
                 (doc <- lift (get_document (reference_doctype rule)
                                 (dict_get data "name" PNone)) ;;
                  send_template_message rule doc (dict_get data "phone_no" PNone)
                    (db_get_template (template rule)) true) in
               w_evals (exec body w0) = w_evals w0
               /\ ((result body w0 = Return tt /\ dispatched 1 w0 (exec body w0))
                   \/ dispatched 0 w0 (exec body w0))).
    { intros data w0. cbv zeta. unfold exec, result, bind, lift.
      destruct (get_document (reference_doctype rule) (dict_get data "name" PNone))
        as [doc|e].
      - destruct (send_template_message_run rule doc
                    (dict_get data "phone_no" PNone)
                    (db_get_template (template rule)) true w0) as [He Hd].
        unfold exec, result in He, Hd.
        split; [|exact Hd].
        rewrite He. cbn [negb]. rewrite !andb_false_r. apply app_nil_r.
      - split; [reflexivity|]. right. apply dispatched_refl. }
    split.
    + apply (for_each_dispatched
               (fun data =>
                  doc <- lift (get_document (reference_doctype rule)
                                 (dict_get data "name" PNone)) ;;
                  send_template_message rule doc (dict_get data "phone_no" PNone)
                    (db_get_template (template rule)) true)).
      intros data w0. apply Hbody.
    + apply (for_each_evals
               (fun data =>
                  doc <- lift (get_document (reference_doctype rule)
                                 (dict_get data "name" PNone)) ;;
                  send_template_message rule doc (dict_get data "phone_no" PNone)
                    (db_get_template (template rule)) true)).
      intros data w0. apply Hbody.
  - destruct (send_simple_template_run rule (c :: cs)
                (match db_get_template (template rule) with
                 | PDict d => d
                 | _ => []
                 end) w) as [(n & Hn & Hd & _) He].
    split; [|exact He]. exists n. split; [exact Hn|exact Hd].
Qed.

(** ** What [validate] guarantees at send time *)

Lemma validate_checks (self : notification) (notification_type : string)
    (w : world) :
  result (validate self notification_type) w = Return tt ->
  (custom_attachment self = true ->
   opt_truthy (attach self) = true \/ opt_truthy (attach_from_field self) = true)
  /\ (opt_truthy (set_property_after_alert self) = true ->
      exists fieldtype,
        get_meta_field (PStr (reference_doctype self))
          (opt_format (set_property_after_alert self))
        = Return (Some fieldtype)).
Proof.
  unfold validate, result. unfold_monad. intros H. split.
  - intros Hc. rewrite Hc in H.
    destruct (opt_truthy (attach self)); [now left|].
    destruct (opt_truthy (attach_from_field self)); [now right|].
    exfalso. cbn in H. repeat run_step_in H; discriminate.
  - intros Hs. rewrite Hs in H.
    destruct (get_meta_field (PStr (reference_doctype self))
                (opt_format (set_property_after_alert self))) as [[ft|]|e].
    + now exists ft.
    + exfalso. repeat run_step_in H; discriminate.
    + exfalso. repeat run_step_in H; discriminate.
Qed.

(** X20 ([validate], lines 31-36, with [send_template_message], lines
    193-207).  On a rule that passed validation and sends a custom
    attachment without reading it from a field, the attached file is set
    and resolving its address cannot fail: the address is the file itself
    when it starts with "http" and the site address followed by the file
    otherwise. *)
Theorem validated_attachment_resolves (self : notification)
    (notification_type : string) (doc : document) (doc_data : pydict)
    (w0 w : world) :
  result (validate self notification_type) w0 = Return tt ->
  custom_attachment self = true ->
  opt_truthy (attach_from_field self) = false ->
  exists file_url,
    attach self = Some file_url
    /\ attach_custom self doc doc_data (w, tt)
       = (Return (Some (if startswith "http" file_url then file_url
                        else get_url ++ file_url),
                  file_name self),
          (w, tt)).
Proof.
  intros Hv Hc Hf.
  destruct (validate_checks self notification_type w0 Hv) as [Ha _].
  destruct (Ha Hc) as [Hatt|Hfield]; [|congruence].
  destruct (attach self) as [file_url|] eqn:Eatt; [|discriminate].
  exists file_url. split; [reflexivity|].
  unfold attach_custom. rewrite Hf, Eatt. unfold_monad.
  cbn -[startswith append].
  destruct (startswith "http" file_url); reflexivity.
Qed.

(** X21 ([validate], lines 38-44, with the write-back of lines 310-324 and
    410-420).  On a rule that passed validation, the write-back after a
    send on a record of the reference DocType always finds its field: with
    a property value configured and a named record, the value is persisted
    with one [frappe.db.set_value] call, as an integer when the field type
    is numeric and as the configured string otherwise. *)
Theorem validated_write_back_persists {F} (self : notification)
    (notification_type : string) (doc_data : pydict) (w0 w : world) (f : F)
    (fieldname value : string) :
  result (validate self notification_type) w0 = Return tt ->
  set_property_after_alert self = Some fieldname -> fieldname <> "" ->
  property_value self = Some value -> value <> "" ->
  reference_doctype self <> "" ->
  dict_get doc_data "doctype" PNone = PStr (reference_doctype self) ->
  truthy (dict_get doc_data "name" PNone) = true ->
  exists fieldtype,
    get_meta_field (PStr (reference_doctype self)) fieldname
    = Return (Some fieldtype)
    /\ write_back self (Some doc_data) (w, f)
       = (Return tt,
          (add_set_value
             {| sv_doctype := PStr (reference_doctype self);
                sv_name := dict_get doc_data "name" PNone;
                sv_fieldname := fieldname;
                sv_value := if existsb (String.eqb fieldtype) numeric_fieldtypes
                            then PInt (cint value) else PStr value |} w, f)).
Proof.
  intros Hv Hs Hne Hp Hvne Hdt Hdoctype Hname.
  destruct (validate_checks self notification_type w0 Hv) as [_ Hm].
  assert (Ht : opt_truthy (set_property_after_alert self) = true).
  { rewrite Hs. destruct fieldname; [congruence|reflexivity]. }
  destruct (Hm Ht) as [fieldtype Hmeta]. rewrite Hs in Hmeta. cbn in Hmeta.
  exists fieldtype. split; [exact Hmeta|].
  assert (Hdd : doc_data <> []).
  { intros ->. discriminate. }
  assert (Htd : truthy (dict_get doc_data "doctype" PNone) = true).
  { rewrite Hdoctype. destruct (reference_doctype self); [congruence|reflexivity]. }
  rewrite <- Hdoctype in Hmeta |- *.
  exact (write_back_persists self doc_data w f fieldname value fieldtype
           Hdd Hs Hne Hp Hvne Htd Hname Hmeta).
Qed.

(** X22 ([send_template_message], lines 142-144).  A message text without
    an opening brace is sent as it is, whatever the parameters are and
    however many of them there are. *)
Theorem render_without_braces (message_text : string) (parameters : list pyval) :
  free_of "{" message_text -> render message_text parameters = message_text.
Proof.
  intros Hfree. unfold render. generalize 1.
  induction parameters as [|p ps IH]; intros i; [reflexivity|].
  cbn [render_from]. rewrite replace_placeholder.
  change (placeholder i) with (String "{" (String "{" (of_nat i ++ "}}"))).
  rewrite <- (append_nil_r message_text) at 1.
  rewrite (replace_from_free "{" _ _ message_text "" Hfree).
  cbn [replace_from]. rewrite append_nil_r. apply IH.
Qed.

(** X23 ([send_template_message], lines 133-140).  When the parameters are
    collected without error there is exactly one per mapped field, in the
    order of the fields: the formatted value for a Document, and for a
    plain record the value under that key, as text when it is a date or a
    datetime. *)
Theorem collect_parameters_in_order (doc : document) (doc_data : pydict)
    (field_names : list string) (parameters : list pyval) :
  collect_parameters doc doc_data field_names = Return parameters ->
  List.length parameters = List.length field_names
  /\ Forall2
       (fun fieldname value =>
          if doc_is_document doc
          then doc_get_formatted doc fieldname = Return value
          else exists v,
                 py_item (PDict doc_data) fieldname = Return v
                 /\ value = match v with
                            | PDate _ | PDatetime _ _ => PStr (py_str v)
                            | _ => v
                            end)
       field_names parameters.
Proof.
  revert parameters. induction field_names as [|fn fns IH]; intros ps H.
  - cbn in H. inversion H. split; [reflexivity|constructor].
  - cbn [collect_parameters] in H.
    destruct (doc_is_document doc) eqn:Hdoc.
    + destruct (doc_get_formatted doc fn) as [v|e] eqn:Hv; [|discriminate].
      destruct (collect_parameters doc doc_data fns) as [vs|e]; [|discriminate].
      inversion H; subst ps. destruct (IH vs eq_refl) as [Hl Hf].
      split; [cbn; now rewrite Hl|]. constructor; assumption.
    + destruct (py_item (PDict doc_data) fn) as [v|e] eqn:Hv; [|discriminate].
      destruct (collect_parameters doc doc_data fns) as [vs|e] eqn:Hvs.
      * destruct (IH vs eq_refl) as [Hl Hf].
        assert (ps = (match v with
                      | PDate _ | PDatetime _ _ => PStr (py_str v)
                      | _ => v
                      end :: vs)).
        { destruct v; inversion H; reflexivity. }
        subst ps. split; [cbn; now rewrite Hl|].
        constructor; [exists v; split; [exact Hv|reflexivity]|assumption].
      * destruct v; discriminate.
Qed.
End Host.

(** ** Examples: the theorems at concrete inputs *)

Lemma sample_template_ok : Forall lit_ok sample_template.
Proof. repeat constructor; discriminate. Defined.

(** Two values for three placeholders: the third stays in the text. *)
Lemma render_fills_placeholders_example :
  Forall lit_ok sample_template
  /\ Forall (free_of "{")
       (map (value_text str_plain no_translation) [PStr "Amr"; PStr "SINV-0001"])
  /\ render str_plain no_translation (flatten sample_template)
       [PStr "Amr"; PStr "SINV-0001"]
     = "Dear Amr, invoice SINV-0001 is due on {{3}}.".
Proof.
  assert (Hv : Forall (free_of "{")
                 (map (value_text str_plain no_translation)
                    [PStr "Amr"; PStr "SINV-0001"]))
    by (repeat constructor; discriminate).
  split; [exact sample_template_ok | split; [exact Hv|]].
  destruct (render_fills_placeholders str_plain no_translation) as [H _].
  destruct (H sample_template [PStr "Amr"; PStr "SINV-0001"]
              sample_template_ok Hv) as [E _].
  rewrite E. reflexivity.
Defined.

(** C4 as stated fails when a value holds the text of a later placeholder:
    the first placeholder does not show the first value "{{2}}" but the
    second value.  It also fails when the literal text of the body holds the
    opening of a placeholder that a value completes. *)
Lemma render_value_with_placeholder_counterexample :
  Forall lit_ok [Hole 1; Lit "-"; Hole 2]
  /\ render str_plain no_translation (flatten [Hole 1; Lit "-"; Hole 2])
       [PStr "{{2}}"; PStr "b"] = "b-b"
  /\ expand (shown (map (value_text str_plain no_translation)
                      [PStr "{{2}}"; PStr "b"]))
       [Hole 1; Lit "-"; Hole 2] = "{{2}}-b"
  /\ render str_plain no_translation (flatten [Hole 1; Lit "-"; Hole 2])
       [PStr "{{2}}"; PStr "b"]
     <> expand (shown (map (value_text str_plain no_translation)
                         [PStr "{{2}}"; PStr "b"]))
          [Hole 1; Lit "-"; Hole 2]
  /\ Forall (free_of "{")
       (map (value_text str_plain no_translation) [PStr "}}"; PStr "b"])
  /\ render str_plain no_translation (flatten [Lit "{{2"; Hole 1])
       [PStr "}}"; PStr "b"] = "b"
  /\ expand (shown (map (value_text str_plain no_translation)
                      [PStr "}}"; PStr "b"]))
       [Lit "{{2"; Hole 1] = "{{2}}".
Proof.
  split; [repeat constructor; discriminate|].
  split; [reflexivity|]. split; [reflexivity|]. split; [discriminate|].
  split; [repeat constructor; discriminate|].
  split; reflexivity.
Qed.


Lemma format_number_example :
  format_number "+201001234567" = "201001234567"
  /\ format_number "0100-abc" = "0100-abc".
Proof.
  split.
  - apply (proj1 (format_number_spec "+201001234567")). reflexivity.
  - apply (proj1 (proj2 (format_number_spec "0100-abc"))). reflexivity.
Defined.

(** C1 (defect in Backend B).  The gateway answers HTTP 201 with a body
    that has no "key" and whose "message" is a plain string.  [success] is
    already set when reading the message id raises; the handler shows the
    error, the log entry is written with success = true and no error, and no
    Sent Message Record exists: a dispatch that the code itself logs as
    successful leaves one Notification Log entry and zero Sent Message
    Records. *)
Theorem evolution_success_logged_without_record :
  let run :=
    notify_evolution str_plain dumps_plain (fun _ => Return sample_settings)
      (fun _ => Return accepted_plain_message_response) sample_meta
      frappe_numeric_fieldtypes cint_decimal sample_rule
      "201001234567" (Some "Dear Amr, invoice SINV-0001 is due.") None None
      (Some sample_doc_data) (Some [PStr "Amr"; PStr "SINV-0001"]) in
  result run empty_world = Return tt
  /\ w_messages (exec run empty_world) = []
  /\ w_set_values (exec run empty_world) = []
  /\ w_logs (exec run empty_world)
     = [evolution_log sample_rule "201001234567" true
          (PDict [("status", PStr "PENDING"); ("message", PStr "Message queued")])
          PNone (Some "Dear Amr, invoice SINV-0001 is due.")]
  /\ w_alerts (exec run empty_world)
     = [{| alert_text :=
             "Failed to trigger WhatsApp message: 'str' object has no attribute 'get'";
           alert_indicator := Red |}].
Proof. vm_compute. repeat split. Qed.

(** HTTP 500 with the gateway's error body: one failure entry that holds
    the message of the body, no message record. *)
Lemma evolution_rejected_example :
  let run :=
    notify_evolution_guarded str_plain dumps_plain
      (fun _ => Return rejected_response) sample_meta
      frappe_numeric_fieldtypes cint_decimal sample_rule sample_settings
      "201001234567" (Some "Dear Amr") None None (Some sample_doc_data) None in
  (Z.eqb (status_code rejected_response) 200
   || Z.eqb (status_code rejected_response) 201 = false)
  /\ w_messages (exec run empty_world) = []
  /\ w_logs (exec run empty_world)
     = [evolution_log sample_rule "201001234567" false PNone
          (PStr "Connection Closed") (Some "Dear Amr")].
Proof.
  cbv zeta. split; [reflexivity|].
  destruct (evolution_rejected str_plain dumps_plain
              (fun _ => Return rejected_response) sample_meta
              frappe_numeric_fieldtypes cint_decimal sample_rule sample_settings
              "201001234567" (Some "Dear Amr") None None (Some sample_doc_data)
              None empty_world rejected_response eq_refl eq_refl)
    as (Hm & _ & err & Hl & Hbody & _).
  split; [exact Hm|].
  rewrite Hl.
  rewrite (Hbody _ [("message", PStr "Connection Closed")] eq_refl eq_refl).
  reflexivity.
Defined.

(** C2 as stated fails on a body that has no response.message to extract:
    for an HTML error page the error field holds "Connection error: ..." and
    for a null "response" member it holds the text of the AttributeError,
    not "Unknown Error". *)
Lemma evolution_error_field_counterexample :
  let run (r : http_response) :=
    notify_evolution_guarded str_plain dumps_plain (fun _ => Return r) sample_meta
      frappe_numeric_fieldtypes cint_decimal sample_rule sample_settings
      "201001234567" (Some "Dear Amr") None None (Some sample_doc_data) None in
  let error_field (w : world) :=
    match w_logs w with
    | [l] =>
        match log_meta_data l with
        | PDict d => dict_get d "error" PNone
        | _ => PNone
        end
    | _ => PNone
    end in
  status_code html_error_response = 500%Z
  /\ error_field (exec (run html_error_response) empty_world)
     = PStr "Connection error: Expecting value: line 1 column 1 (char 0)"
  /\ error_field (exec (run html_error_response) empty_world)
     <> PStr "Unknown Error"
  /\ status_code null_response_error = 500%Z
  /\ error_field (exec (run null_response_error) empty_world)
     = PStr "'NoneType' object has no attribute 'get'"
  /\ error_field (exec (run null_response_error) empty_world)
     <> PStr "Unknown Error".
Proof. vm_compute. repeat split; discriminate. Qed.

Lemma evolution_endpoint_selection_example :
  let request := evolution_http_request sample_settings "201001234567" in
  (opt_truthy None = false)
  /\ req_url (request (Some "hi") None None)
     = "https://evo.example/message/sendText/main"
  /\ req_url (request (Some "hi") (Some "JVBERi0x") (Some "Invoice.PDF"))
     = "https://evo.example/message/sendMedia/main"
  /\ req_body (request (Some "hi") (Some "https://files.example/a.png") (Some "a.png"))
     = PDict [("number", PStr "201001234567"); ("mediatype", PStr "image");
              ("caption", PStr "hi");
              ("media", PStr "https://files.example/a.png")].
Proof.
  cbv zeta.
  pose proof (evolution_endpoint_selection str_plain dumps_plain
                (fun _ => Return accepted_response) sample_meta
                frappe_numeric_fieldtypes cint_decimal sample_rule sample_settings
                "201001234567" (Some "hi") None None None None empty_world)
    as (_ & Htext & _).
  pose proof (evolution_endpoint_selection str_plain dumps_plain
                (fun _ => Return accepted_response) sample_meta
                frappe_numeric_fieldtypes cint_decimal sample_rule sample_settings
                "201001234567" (Some "hi") (Some "JVBERi0x") (Some "Invoice.PDF")
                None None empty_world)
    as (_ & _ & Hdoc & _).
  pose proof (evolution_endpoint_selection str_plain dumps_plain
                (fun _ => Return accepted_response) sample_meta
                frappe_numeric_fieldtypes cint_decimal sample_rule sample_settings
                "201001234567" (Some "hi") (Some "https://files.example/a.png")
                (Some "a.png") None None empty_world)
    as (_ & _ & _ & Himg & _).
  split; [reflexivity|].
  rewrite (Htext eq_refl), (Hdoc eq_refl eq_refl), (Himg eq_refl eq_refl).
  repeat split.
Defined.

(** C6 as stated fails: the document request and the image request go to
    one and the same endpoint, and a file name that does not end in ".pdf"
    as written ("Invoice.PDF") is still sent as a document. *)
Lemma media_endpoints_coincide_counterexample :
  let request := evolution_http_request sample_settings "201001234567" (Some "hi") in
  req_url (request (Some "JVBERi0x") (Some "invoice.pdf"))
  = req_url (request (Some "https://files.example/a.png") (Some "a.png"))
  /\ ~ (req_url (request (Some "JVBERi0x") (Some "invoice.pdf"))
        <> req_url (request (Some "https://files.example/a.png") (Some "a.png")))
  /\ endswith ".pdf" "Invoice.PDF" = false
  /\ lookup "mediatype" 
       match req_body (request (Some "JVBERi0x") (Some "Invoice.PDF")) with
       | PDict d => d
       | _ => []
       end = Some (PStr "document").
Proof.
  cbv zeta. split; [reflexivity|]. split; [intros H; apply H; reflexivity|].
  split; reflexivity.
Qed.

Lemma write_back_coerces_numeric_example :
  In "Int" frappe_numeric_fieldtypes
  /\ cint_decimal "5" = 5%Z
  /\ w_set_values
       (exec (notify_evolution_guarded str_plain dumps_plain
                (fun _ => Return accepted_response) sample_meta
                frappe_numeric_fieldtypes cint_decimal sample_rule sample_settings
                "201001234567" (Some "Dear Amr") None None (Some sample_doc_data)
                None) empty_world)
     = [{| sv_doctype := PStr "Sales Invoice"; sv_name := PStr "SINV-0001";
           sv_fieldname := "reminder_count"; sv_value := PInt 5 |}]
  /\ w_set_values
       (exec (notify_guarded str_plain dumps_plain
                (fun _ => Return graph_accepted_response) sample_meta
                frappe_numeric_fieldtypes cint_decimal sample_rule
                sample_whatsapp_settings "token" None sample_template_data
                (Some sample_doc_data)) empty_world)
     = [{| sv_doctype := PStr "Sales Invoice"; sv_name := PStr "SINV-0001";
           sv_fieldname := "reminder_count"; sv_value := PInt 5 |}].
Proof.
  assert (Hin : In "Int" frappe_numeric_fieldtypes) by (cbn; auto).
  split; [exact Hin|]. split; [reflexivity|].
  assert (Hdd : sample_doc_data <> []) by discriminate.
  assert (Hf : "reminder_count" <> "") by discriminate.
  assert (Hv : "5" <> "") by discriminate.
  pose proof (write_back_coerces_numeric str_plain dumps_plain
                (fun _ => Return accepted_response) sample_meta
                frappe_numeric_fieldtypes cint_decimal sample_rule sample_doc_data
                empty_world "reminder_count" "5" "Int"
                Hdd eq_refl Hf eq_refl Hv eq_refl eq_refl eq_refl Hin) as (HB & _).
  split.
  - rewrite (HB sample_settings "201001234567" (Some "Dear Amr") None None None
               accepted_response _ (PStr "BAE594145F4C59B4")
               eq_refl eq_refl eq_refl eq_refl).
    reflexivity.
  - pose proof (write_back_coerces_numeric str_plain dumps_plain
                  (fun _ => Return graph_accepted_response) sample_meta
                  frappe_numeric_fieldtypes cint_decimal sample_rule sample_doc_data
                  empty_world "reminder_count" "5" "Int"
                  Hdd eq_refl Hf eq_refl Hv eq_refl eq_refl eq_refl Hin) as (_ & HA' & _).
    rewrite (HA' sample_whatsapp_settings "token" None sample_template_data
               graph_accepted_response _ _ _ _ _ _ None
               eq_refl eq_refl eq_refl eq_refl eq_refl eq_refl eq_refl
               eq_refl eq_refl eq_refl).
    reflexivity.
Defined.

(** A rule with a condition the evaluator finds false: nothing is sent and
    nothing is recorded, though the gateway would have accepted the message. *)
Lemma false_condition_skips_send_example :
  let run :=
    send_template_message str_plain no_translation no_translation dumps_plain
      (fun _ _ => Return (PBool false)) (fun _ => PDict [("name", PStr "t")])
      (fun _ => Return (false, None)) (fun _ => None)
      (fun _ _ _ => Return ("a.pdf", "x")) (fun s => s) "https://site.example"
      (fun _ => Return sample_settings) (fun _ => Return accepted_response)
      sample_meta frappe_numeric_fieldtypes cint_decimal
      (with_condition (Some "doc.outstanding_amount > 0") sample_rule)
      sample_doc PNone PNone false in
  truthy (PBool false) = false
  /\ result run empty_world = Return tt
  /\ w_messages (exec run empty_world) = []
  /\ w_logs (exec run empty_world) = []
  /\ w_set_values (exec run empty_world) = []
  /\ w_requests (exec run empty_world) = [].
Proof.
  cbv zeta. split; [reflexivity|].
  assert (Hc : "doc.outstanding_amount > 0" <> "") by discriminate.
  pose proof (false_condition_skips_send str_plain no_translation no_translation
                dumps_plain (fun _ _ => Return (PBool false))
                (fun _ => PDict [("name", PStr "t")])
                (fun _ => Return (false, None)) (fun _ => None)
                (fun _ _ _ => Return ("a.pdf", "x")) (fun s => s)
                "https://site.example"
                (fun _ => Return sample_settings) (fun _ => Return accepted_response)
                sample_meta frappe_numeric_fieldtypes cint_decimal
                (with_condition (Some "doc.outstanding_amount > 0") sample_rule)
                sample_doc PNone PNone empty_world
                "doc.outstanding_amount > 0" (PBool false)
                eq_refl Hc eq_refl eq_refl) as (H1 & H2 & H3 & H4 & H5 & _).
  repeat split; assumption.
Defined.

(** A disabled rule: the world is untouched, the evaluator is not called. *)
Lemma disabled_rule_does_nothing_example :
  disabled (with_disabled true sample_rule) = true
  /\ send_template_message str_plain no_translation no_translation dumps_plain
       (fun _ _ => Return (PBool true)) (fun _ => PDict [("name", PStr "t")])
       (fun _ => Return (false, None)) (fun _ => None)
       (fun _ _ _ => Return ("a.pdf", "x")) (fun s => s) "https://site.example"
       (fun _ => Return sample_settings) (fun _ => Return accepted_response)
       sample_meta frappe_numeric_fieldtypes cint_decimal
       (with_disabled true sample_rule) sample_doc PNone PNone false
       (empty_world, tt)
     = (Return tt, (empty_world, tt)).
Proof.
  split; [reflexivity|].
  apply (disabled_rule_does_nothing str_plain no_translation no_translation
           dumps_plain (fun _ _ => Return (PBool true))
           (fun _ => PDict [("name", PStr "t")])
           (fun _ => Return (false, None)) (fun _ => None)
           (fun _ _ _ => Return ("a.pdf", "x")) (fun s => s) "https://site.example"
           (fun _ => Return sample_settings) (fun _ => Return accepted_response)
           sample_meta frappe_numeric_fieldtypes cint_decimal
           (with_disabled true sample_rule) sample_doc PNone PNone false
           empty_world eq_refl).
Defined.

(** "Days Before" = 3 with today = day 20000: day 20003 is kept, at midnight,
    at 10:30 and at 23:59:59.000000; one microsecond later it is dropped,
    and so is day 20004. *)
Lemma scheduler_window_example :
  reference_date 20000 sample_rule = 20003%Z
  /\ (0 <= time_of_day 10 30 0 0 <= time_of_day 23 59 59 0)%Z
  /\ in_window 20000 sample_rule (PDate 20003) = true
  /\ in_window 20000 sample_rule (PDatetime 20003 (time_of_day 10 30 0 0)) = true
  /\ in_window 20000 sample_rule (PDatetime 20003 (time_of_day 23 59 59 0)) = true
  /\ in_window 20000 sample_rule (PDatetime 20003 (time_of_day 23 59 59 1)) = false
  /\ in_window 20000 sample_rule (PDate 20004) = false
  /\ in_window 20000 sample_rule (PDatetime 20004 0) = false
  /\ filter (selected 20000 sample_rule) [sample_doc] = [sample_doc].
Proof.
  destruct (scheduler_window 20000 (fun _ => [sample_doc]) sample_rule)
    as (Href & Hin & Hout & Hdate & Hlate & _).
  assert (Hr : reference_date 20000 sample_rule = 20003%Z)
    by (rewrite Href; reflexivity).
  assert (Hb : (0 <= time_of_day 10 30 0 0 <= time_of_day 23 59 59 0)%Z)
    by (unfold time_of_day; lia).
  split; [exact Hr|]. split; [exact Hb|].
  split; [rewrite Hdate, Hr; reflexivity|].
  split.
  { apply (Hin (PDatetime 20003 (time_of_day 10 30 0 0))
                {| ts_day := 20003; ts_usec := time_of_day 10 30 0 0 |} eq_refl);
      [symmetry; exact Hr | exact Hb]. }
  split.
  { apply (Hin (PDatetime 20003 (time_of_day 23 59 59 0))
                {| ts_day := 20003; ts_usec := time_of_day 23 59 59 0 |} eq_refl);
      [symmetry; exact Hr | cbn; unfold time_of_day; lia]. }
  split.
  { apply (Hlate (PDatetime 20003 (time_of_day 23 59 59 1))
                  {| ts_day := 20003; ts_usec := time_of_day 23 59 59 1 |} eq_refl);
      [symmetry; exact Hr | right; cbn; unfold time_of_day; lia]. }
  split; [rewrite Hdate, Hr; reflexivity|].
  split.
  { apply (Hout (PDatetime 20004 0) {| ts_day := 20004; ts_usec := 0 |} eq_refl).
    rewrite Hr. discriminate. }
  reflexivity.
Defined.

(** C3 as stated fails on a datetime in the last second of the target day:
    the invoice is due on today+3, at 23:59:59.500000, and the query passes
    it by. *)
Lemma scheduler_last_second_counterexample :
  as_timestamp (dict_get (doc_as_dict late_doc) (date_changed sample_rule) PNone)
  = Some {| ts_day := (20000 + 3)%Z; ts_usec := time_of_day 23 59 59 500000 |}
  /\ (0 <= time_of_day 23 59 59 500000 < time_of_day 24 0 0 0)%Z
  /\ reference_date 20000 sample_rule = (20000 + 3)%Z
  /\ selected 20000 sample_rule late_doc = false
  /\ filter (selected 20000 sample_rule) [late_doc] = [].
Proof.
  split; [reflexivity|]. split; [unfold time_of_day; lia|].
  repeat split.
Qed.

(** ** Examples for the remaining entry points *)

(** The gateway cannot be reached: one failure log with the prefixed
    error, no message. *)
Lemma evolution_transport_failure_example :
  let run :=
    notify_evolution_guarded str_plain dumps_plain
      (fun _ => Raise (Exn RequestException "Connection refused")) sample_meta
      frappe_numeric_fieldtypes cint_decimal sample_rule sample_settings
      "201001234567" (Some "Dear Amr") None None (Some sample_doc_data) None in
  result run empty_world = Return tt
  /\ w_messages (exec run empty_world) = []
  /\ w_logs (exec run empty_world)
     = [evolution_log sample_rule "201001234567" false PNone
          (PStr "Connection error: Connection refused") (Some "Dear Amr")].
Proof.
  cbv zeta.
  destruct (evolution_transport_failure str_plain dumps_plain
              (fun _ => Raise (Exn RequestException "Connection refused"))
              sample_meta frappe_numeric_fieldtypes cint_decimal sample_rule
              sample_settings "201001234567" (Some "Dear Amr") None None
              (Some sample_doc_data) None empty_world
              (Exn RequestException "Connection refused") eq_refl)
    as (Hr & Hm & _ & Hl & _).
  split; [exact Hr|]. split; [exact Hm|exact Hl].
Defined.

(** A text message the gateway accepts: the saved message is the posted
    one, with the id of the response. *)
Lemma evolution_accepted_record_example :
  let run :=
    notify_evolution_guarded str_plain dumps_plain
      (fun _ => Return accepted_response) sample_meta
      frappe_numeric_fieldtypes cint_decimal sample_rule sample_settings
      "201001234567" None None None (Some sample_doc_data) None in
  w_messages (exec run empty_world)
  = [{| wm_type := "Outgoing";
        wm_message := PStr "No Text";
        wm_to := PStr "201001234567";
        wm_message_type := "Template";
        wm_message_id := PStr "BAE594145F4C59B4";
        wm_content_type := "text";
        wm_use_template := 1;
        wm_template := "Payment Reminder";
        wm_template_parameters := None;
        wm_reference_doctype := Some (PStr "Sales Invoice");
        wm_reference_name := Some (PStr "SINV-0001") |}].
Proof.
  cbv zeta.
  destruct (evolution_accepted_record str_plain dumps_plain
              (fun _ => Return accepted_response) sample_meta
              frappe_numeric_fieldtypes cint_decimal sample_rule sample_settings
              "201001234567" None None None (Some sample_doc_data) None
              empty_world accepted_response
              (PDict [("key", PDict [("id", PStr "BAE594145F4C59B4")]);
                      ("status", PStr "PENDING")])
              (PStr "BAE594145F4C59B4") eq_refl eq_refl eq_refl eq_refl)
    as (Hm & _).
  exact Hm.
Defined.

(** An accepted response without a message key: a message with an empty
    id is saved and the log entry is a success. *)
Lemma evolution_accepted_without_id_example :
  let run :=
    notify_evolution_guarded str_plain dumps_plain
      (fun _ => Return accepted_without_key_response) sample_meta
      frappe_numeric_fieldtypes cint_decimal sample_rule sample_settings
      "201001234567" (Some "Dear Amr") None None (Some sample_doc_data) None in
  exists m,
    w_messages (exec run empty_world) = [m] /\ wm_message_id m = PStr "".
Proof.
  cbv zeta.
  destruct (evolution_accepted_without_id str_plain dumps_plain
              (fun _ => Return accepted_without_key_response) sample_meta
              frappe_numeric_fieldtypes cint_decimal sample_rule sample_settings
              "201001234567" (Some "Dear Amr") None None (Some sample_doc_data)
              None empty_world accepted_without_key_response
              [("status", PStr "PENDING")] eq_refl eq_refl eq_refl eq_refl eq_refl)
    as (m & Hm & Hid & _).
  exists m. split; [exact Hm|exact Hid].
Defined.

(** The graph-style API cannot be reached: the error text is logged and
    the call returns normally. *)
Lemma notify_failure_logged_example :
  let run :=
    notify_guarded str_plain dumps_plain
      (fun _ => Raise (Exn RequestException "Connection refused")) sample_meta
      frappe_numeric_fieldtypes cint_decimal sample_rule sample_whatsapp_settings
      "token" None sample_template_data None in
  result run empty_world = Return tt
  /\ w_messages (exec run empty_world) = []
  /\ w_logs (exec run empty_world)
     = [{| log_template := "Payment Reminder";
           log_meta_data := PDict [("error", PStr "Connection refused")] |}].
Proof.
  cbv zeta.
  destruct (notify_failure_logged str_plain dumps_plain
              (fun _ => Raise (Exn RequestException "Connection refused"))
              sample_meta frappe_numeric_fieldtypes cint_decimal sample_rule
              sample_whatsapp_settings "token" None sample_template_data None
              empty_world (Exn RequestException "Connection refused") eq_refl I)
    as (Hr & Hm & _ & Hl & _).
  split; [exact Hr|]. split; [exact Hm|exact Hl].
Defined.

(** HTTP 200 with a body that has neither "messages" nor "error": the
    KeyError of the handler leaves [notify], the log holds the first error. *)
Lemma notify_handler_error_escapes_example :
  let run :=
    notify_guarded str_plain dumps_plain
      (fun _ => Return graph_unexpected_response) sample_meta
      frappe_numeric_fieldtypes cint_decimal sample_rule sample_whatsapp_settings
      "token" None sample_template_data None in
  result run empty_world = Raise (Exn KeyError "'error'")
  /\ w_messages (exec run empty_world) = []
  /\ w_logs (exec run empty_world)
     = [{| log_template := "Payment Reminder";
           log_meta_data := PDict [("error", PStr "'messages'")] |}].
Proof.
  cbv zeta.
  destruct (notify_handler_error_escapes str_plain dumps_plain
              (fun _ => Return graph_unexpected_response) sample_meta
              frappe_numeric_fieldtypes cint_decimal sample_rule
              sample_whatsapp_settings "token" None sample_template_data None
              empty_world graph_unexpected_response
              (PDict [("contacts", PList [])]) None
              (PDict [("name", PStr "payment_reminder");
                      ("language", PDict [("code", PStr "ar")]);
                      ("components", PList [])])
              (PStr "201001234567")
              (Exn KeyError "'messages'") (Exn KeyError "'error'")
              eq_refl eq_refl eq_refl eq_refl eq_refl eq_refl eq_refl eq_refl
              eq_refl)
    as (Hr & Hm & _ & Hl).
  split; [exact Hr|]. split; [exact Hm|exact Hl].
Defined.

(** An invoice with an empty [mobile_no]: the send raises and the gateway,
    which would have accepted the message, is never called. *)
Lemma missing_phone_aborts_example :
  send_template_message str_plain no_translation no_translation dumps_plain
    (fun _ _ => Return (PBool true)) (fun _ => PDict [("name", PStr "t")])
    (fun _ => Return (false, None)) (fun _ => None)
    (fun _ _ _ => Return ("a.pdf", "x")) (fun s => s) "https://site.example"
    (fun _ => Return sample_settings) (fun _ => Return accepted_response)
    sample_meta frappe_numeric_fieldtypes cint_decimal
    sample_rule no_phone_doc PNone PNone false (empty_world, tt)
  = (Raise (Exn ValidationError "Phone number not found"), (empty_world, tt)).
Proof.
  apply (missing_phone_aborts str_plain no_translation no_translation dumps_plain
           (fun _ _ => Return (PBool true)) (fun _ => PDict [("name", PStr "t")])
           (fun _ => Return (false, None)) (fun _ => None)
           (fun _ _ _ => Return ("a.pdf", "x")) (fun s => s) "https://site.example"
           (fun _ => Return sample_settings) (fun _ => Return accepted_response)
           sample_meta frappe_numeric_fieldtypes cint_decimal
           sample_rule no_phone_doc PNone PNone false empty_world
           eq_refl eq_refl eq_refl).
  right. exists (PStr ""). split; reflexivity.
Defined.

(** No template is stored under the name of the rule. *)
Lemma missing_template_aborts_example :
  send_template_message str_plain no_translation no_translation dumps_plain
    (fun _ _ => Return (PBool true)) (fun _ => PNone)
    (fun _ => Return (false, None)) (fun _ => None)
    (fun _ _ _ => Return ("a.pdf", "x")) (fun s => s) "https://site.example"
    (fun _ => Return sample_settings) (fun _ => Return accepted_response)
    sample_meta frappe_numeric_fieldtypes cint_decimal
    sample_rule sample_doc (PStr "+201001234567") PNone false (empty_world, tt)
  = (Raise (Exn ValidationError "Template Payment Reminder not found"),
     (empty_world, tt)).
Proof.
  apply (missing_template_aborts str_plain no_translation no_translation
           dumps_plain
           (fun _ _ => Return (PBool true)) (fun _ => PNone)
           (fun _ => Return (false, None)) (fun _ => None)
           (fun _ _ _ => Return ("a.pdf", "x")) (fun s => s) "https://site.example"
           (fun _ => Return sample_settings) (fun _ => Return accepted_response)
           sample_meta frappe_numeric_fieldtypes cint_decimal
           sample_rule sample_doc "+201001234567" PNone false empty_world
           eq_refl eq_refl).
  - discriminate.
  - reflexivity.
  - reflexivity.
Defined.

(** The sample rule without its message text: two fields are mapped, and
    the first substitution fails. *)
Lemma fields_without_text_aborts_example :
  send_template_message str_plain no_translation no_translation dumps_plain
    (fun _ _ => Return (PBool true)) (fun _ => PDict [("name", PStr "t")])
    (fun _ => Return (false, None)) (fun _ => None)
    (fun _ _ _ => Return ("a.pdf", "x")) (fun s => s) "https://site.example"
    (fun _ => Return sample_settings) (fun _ => Return accepted_response)
    sample_meta frappe_numeric_fieldtypes cint_decimal
    (without_text sample_rule) sample_doc (PStr "+201001234567")
    (PDict [("name", PStr "t")]) false (empty_world, tt)
  = (Raise (Exn AttributeError "'NoneType' object has no attribute 'replace'"),
     (empty_world, tt)).
Proof.
  apply (fields_without_text_aborts str_plain no_translation no_translation
           dumps_plain
           (fun _ _ => Return (PBool true)) (fun _ => PDict [("name", PStr "t")])
           (fun _ => Return (false, None)) (fun _ => None)
           (fun _ _ _ => Return ("a.pdf", "x")) (fun s => s) "https://site.example"
           (fun _ => Return sample_settings) (fun _ => Return accepted_response)
           sample_meta frappe_numeric_fieldtypes cint_decimal
           (without_text sample_rule) sample_doc "+201001234567"
           (PDict [("name", PStr "t")]) false empty_world
           [PStr "Amr"; PStr "SINV-0001"] eq_refl eq_refl).
  - discriminate.
  - reflexivity.
  - discriminate.
  - reflexivity.
  - reflexivity.
Defined.

(** A file path read from the record gets the site address and the share
    key of the record. *)
Lemma attach_from_field_url_example :
  attach_custom str_plain "https://site.example"
    (with_attachment None (Some "invoice_file") sample_rule) sample_doc
    filed_doc_data (empty_world, tt)
  = (Return (Some "https://site.example/private/files/SINV-0004.pdf&key=4f2a",
             Some "invoice.pdf"),
     (empty_world, tt)).
Proof.
  apply (attach_from_field_url str_plain "https://site.example"
           (with_attachment None (Some "invoice_file") sample_rule) sample_doc
           filed_doc_data empty_world "invoice_file"
           "/private/files/SINV-0004.pdf" eq_refl eq_refl).
  - discriminate.
  - reflexivity.
Defined.

(** The print service cannot resolve the host of the site. *)
Lemma print_failure_is_reported_example :
  attach_printed no_translation (fun _ => Return (false, None)) (fun _ => None)
    (fun _ _ _ => Raise (Exn OtherException "HostNotFoundError: localhost"))
    (fun s => s) sample_doc_data (empty_world, tt)
  = (Raise (Exn ValidationError pdf_error_hint), (empty_world, tt)).
Proof.
  apply (print_failure_is_reported no_translation (fun _ => Return (false, None))
           (fun _ => None)
           (fun _ _ _ => Raise (Exn OtherException "HostNotFoundError: localhost"))
           (fun s => s) sample_doc_data empty_world
           (PStr "Sales Invoice") (PStr "SINV-0001") (false, None)
           (Exn OtherException "HostNotFoundError: localhost")
           eq_refl eq_refl eq_refl).
  intros print_format. reflexivity.
Defined.

(** Three invoices are due on the target day and the second has no phone
    number: the first is sent, the run raises, the third is never sent. *)
Lemma scheduler_stops_at_missing_phone_example :
  let table := [sample_doc; no_phone_doc; sample_doc] in
  let run :=
    get_documents_for_today str_plain no_translation no_translation dumps_plain
      (fun _ _ => Return (PBool true)) (fun _ => PDict [("name", PStr "t")])
      (fun _ => Return (false, None)) (fun _ => None)
      (fun _ _ _ => Return ("a.pdf", "x")) (fun s => s) "https://site.example"
      (fun _ => Return sample_settings) (fun _ => Return accepted_response)
      sample_meta frappe_numeric_fieldtypes cint_decimal 20000 (fun _ => table)
      sample_rule in
  result run empty_world = Raise (Exn ValidationError "Phone number not found")
  /\ List.length (w_requests (exec run empty_world)) = 1
  /\ List.length (w_logs (exec run empty_world)) = 1.
Proof.
  cbv zeta.
  pose proof (scheduler_stops_at_missing_phone str_plain no_translation
                no_translation dumps_plain
                (fun _ _ => Return (PBool true)) (fun _ => PDict [("name", PStr "t")])
                (fun _ => Return (false, None)) (fun _ => None)
                (fun _ _ _ => Return ("a.pdf", "x")) (fun s => s)
                "https://site.example"
                (fun _ => Return sample_settings) (fun _ => Return accepted_response)
                sample_meta frappe_numeric_fieldtypes cint_decimal 20000
                (fun _ => [sample_doc; no_phone_doc; sample_doc])
                sample_rule empty_world [sample_doc] [sample_doc] no_phone_doc
                eq_refl eq_refl eq_refl eq_refl
                (or_intror (ex_intro _ (PStr "") (conj eq_refl eq_refl)))) as H.
  unfold result, exec. rewrite H. repeat split.
Defined.

(** A validated rule with a stored file as its attachment. *)
Lemma validated_attachment_resolves_example :
  let rule := with_attachment (Some "/files/terms.pdf") None sample_rule in
  result (validate no_translation sample_meta sample_doctype_fields (fun _ => [])
            format_plain (fun s => s) rule "DocType Event") empty_world
  = Return tt
  /\ attach_custom str_plain "https://site.example" rule sample_doc sample_doc_data
       (empty_world, tt)
     = (Return (Some "https://site.example/files/terms.pdf", Some "invoice.pdf"),
        (empty_world, tt)).
Proof.
  cbv zeta. split; [reflexivity|].
  destruct (validated_attachment_resolves str_plain no_translation
              "https://site.example" sample_meta sample_doctype_fields
              (fun _ => []) format_plain (fun s => s)
              (with_attachment (Some "/files/terms.pdf") None sample_rule)
              "DocType Event" sample_doc sample_doc_data empty_world empty_world
              eq_refl eq_refl eq_refl) as (file_url & Hfile & Hrun).
  injection Hfile as <-. exact Hrun.
Defined.

(** The validated sample rule on the sample invoice: the write-back
    persists the integer 5 under [reminder_count]. *)
Lemma validated_write_back_persists_example :
  result (validate no_translation sample_meta sample_doctype_fields (fun _ => [])
            format_plain (fun s => s) sample_rule "DocType Event") empty_world
  = Return tt
  /\ exists fieldtype,
       sample_meta (PStr "Sales Invoice") "reminder_count" = Return (Some fieldtype)
       /\ write_back sample_meta frappe_numeric_fieldtypes cint_decimal sample_rule
            (Some sample_doc_data) (empty_world, tt)
          = (Return tt,
             (add_set_value
                {| sv_doctype := PStr "Sales Invoice";
                   sv_name := PStr "SINV-0001";
                   sv_fieldname := "reminder_count";
                   sv_value :=
                     if existsb (String.eqb fieldtype) frappe_numeric_fieldtypes
                     then PInt (cint_decimal "5") else PStr "5" |}
                empty_world, tt)).
Proof.
  split; [reflexivity|].
  assert (H1 : "reminder_count" <> "") by discriminate.
  assert (H2 : "5" <> "") by discriminate.
  assert (H3 : reference_doctype sample_rule <> "") by discriminate.
  exact (validated_write_back_persists (F := unit) no_translation sample_meta
           frappe_numeric_fieldtypes cint_decimal sample_doctype_fields
           (fun _ => []) format_plain (fun s => s) sample_rule "DocType Event"
           sample_doc_data empty_world empty_world tt "reminder_count" "5"
           eq_refl eq_refl H1 eq_refl H2 H3 eq_refl eq_refl).
Defined.

(** A text without braces survives a parameter that is itself a
    placeholder. *)
Lemma render_without_braces_example :
  render str_plain no_translation "Your invoice is due."
    [PStr "{{1}}"; PStr "Amr"]
  = "Your invoice is due.".
Proof.
  apply (render_without_braces str_plain no_translation).
  cbn. repeat split; discriminate.
Defined.

(** The two mapped fields of the sample rule on the sample invoice. *)
Lemma collect_parameters_in_order_example :
  collect_parameters str_plain sample_doc sample_doc_data ["customer_name"; "name"]
  = Return [PStr "Amr"; PStr "SINV-0001"]
  /\ List.length [PStr "Amr"; PStr "SINV-0001"]
     = List.length ["customer_name"; "name"].
Proof.
  split; [reflexivity|].
  exact (proj1 (collect_parameters_in_order str_plain sample_doc sample_doc_data
                  ["customer_name"; "name"] [PStr "Amr"; PStr "SINV-0001"]
                  eq_refl)).
Defined.

(** The graph-style API accepts the payload of [send_simple_template]. *)
Lemma notify_accepted_record_example :
  let run :=
    notify_guarded str_plain dumps_plain
      (fun _ => Return graph_accepted_response) sample_meta
      frappe_numeric_fieldtypes cint_decimal sample_rule sample_whatsapp_settings
      "token" None sample_template_data None in
  result run empty_world = Return tt
  /\ (exists m,
         w_messages (exec run empty_world) = [m]
         /\ wm_message_id m = PStr "wamid.1"
         /\ wm_content_type m = "text"
         /\ wm_to m = PStr "201001234567")
  /\ w_logs (exec run empty_world)
     = [{| log_template := "Payment Reminder";
           log_meta_data :=
             PDict [("messages", PList [PDict [("id", PStr "wamid.1")]])] |}].
Proof.
  cbv zeta.
  destruct (notify_accepted_record str_plain dumps_plain
              (fun _ => Return graph_accepted_response) sample_meta
              frappe_numeric_fieldtypes cint_decimal sample_rule
              sample_whatsapp_settings "token" None sample_template_data None
              empty_world graph_accepted_response
              (PDict [("messages", PList [PDict [("id", PStr "wamid.1")]])])
              None
              (PDict [("name", PStr "payment_reminder");
                      ("language", PDict [("code", PStr "ar")]);
                      ("components", PList [])])
              (PStr "201001234567")
              (PList [PDict [("id", PStr "wamid.1")]])
              (PDict [("id", PStr "wamid.1")])
              (PStr "wamid.1")
              eq_refl eq_refl eq_refl eq_refl eq_refl eq_refl eq_refl eq_refl
              eq_refl eq_refl)
    as (Hm & Hrest).
  destruct (Hrest eq_refl) as (Hr & Hl).
  split; [exact Hr|]. split; [|exact Hl].
  eexists. split; [exact Hm|]. repeat split.
Defined.

(** Two contacts and a gateway that accepts both: the requests are posted
    in the order of the list. *)
Lemma send_simple_template_batch_example :
  let run :=
    send_simple_template str_plain dumps_addressee
      (Return sample_whatsapp_settings)
      (fun _ => Return graph_accepted_response) sample_meta
      frappe_numeric_fieldtypes cint_decimal sample_rule
      ["+201001234567"; "+201007654321"]
      [("actual_name", PStr "payment_reminder"); ("language_code", PStr "ar")] in
  result run empty_world = Return tt
  /\ map req_body (w_requests (exec run empty_world))
     = [PStr "201001234567"; PStr "201007654321"].
Proof.
  cbv zeta.
  destruct (send_simple_template_batch str_plain dumps_addressee
              (Return sample_whatsapp_settings)
              (fun _ => Return graph_accepted_response) sample_meta
              frappe_numeric_fieldtypes cint_decimal sample_rule
              ["+201001234567"; "+201007654321"]
              [("actual_name", PStr "payment_reminder");
               ("language_code", PStr "ar")] empty_world)
    as (_ & _ & H).
  destruct (H sample_whatsapp_settings "token" "text" eq_refl eq_refl eq_refl)
    as (n & _ & Hreq & _ & Hall & _).
  split; [reflexivity|].
  rewrite Hreq, (Hall eq_refl). reflexivity.
Defined.
